(** * minBERT multitask classifier: scheduler, heads, loss, checkpoints, streams

    A shallow embedding of [multitask_classifier.py].  Python floats are
    IEEE binary64 numbers, so the executable reading of the arithmetic is
    over Rocq's primitive [float]; the same definitions are also read over
    the real numbers, which is the exact arithmetic the float code
    approximates.  Both readings share one definition per source function:
    the arithmetic is a record of operations ([arith]). *)

From Stdlib Require Import ZArith List Bool String Lia Reals Lra Floats Permutation.
From stdpp Require Import base gmap strings.
Import ListNotations.

(* ===================================================================== *)
(** ** Python results: a value or a raised exception *)

Inductive py_exception : Set :=
  | AssertionError
  | ZeroDivisionError
  | OverflowError
  | RuntimeError
  | IndexError
  | ValueError.

Inductive py_result (A : Type) : Type :=
  | Return (a : A)
  | Raise (e : py_exception).
Arguments Return {A} a.
Arguments Raise {A} e.

#[export] Instance py_result_ret : MRet py_result := fun A a => Return a.
#[export] Instance py_result_bind : MBind py_result := fun A B k c =>
  match c with
  | Return a => k a
  | Raise e => Raise e
  end.

Definition returns {A} (c : py_result A) : Prop := exists a, c = Return a.
Definition raises {A} (c : py_result A) : Prop := exists e, c = Raise e.

(** [assert cond]. *)
Definition py_assert (cond : bool) : py_result unit :=
  if cond then Return tt else Raise AssertionError.

(* ===================================================================== *)
(** ** Arithmetic of the float code *)

Record arith (F : Type) : Type := Arith {
  of_int : Z -> F;              (* int -> float conversion *)
  int_fits : Z -> bool;         (* ... of an int in the range of the floats *)
  int_truediv : Z -> Z -> F;    (* int / int, the divisor not zero *)
  truediv_fits : Z -> Z -> bool; (* ... with a quotient in that range *)
  fadd : F -> F -> F;
  fsub : F -> F -> F;
  fmul : F -> F -> F;
  fdiv : F -> F -> F;           (* quotient for a non-zero divisor *)
  fpow : F -> F -> F;           (* x ** y *)
  fexp : F -> F;
  flog : F -> F;
  is_zero : F -> bool;          (* x == 0 *)
  fgtb : F -> F -> bool         (* x > y *)
}.
Arguments of_int {F} _ _.
Arguments int_fits {F} _ _.
Arguments int_truediv {F} _ _ _.
Arguments truediv_fits {F} _ _ _.
Arguments fadd {F} _ _ _.
Arguments fsub {F} _ _ _.
Arguments fmul {F} _ _ _.
Arguments fdiv {F} _ _ _.
Arguments fpow {F} _ _ _.
Arguments fexp {F} _ _.
Arguments flog {F} _ _.
Arguments is_zero {F} _ _.
Arguments fgtb {F} _ _ _.

(** Binary64.  [float(n)] for a Python int rounds to nearest-even; the
    elementary functions come from the platform's libm and are parameters.
    [x ** 0.0] is [1.0] for every [x] (C99 F.9.4.4, and the first case of
    CPython's [float_pow]).  The power of a negative base to a fractional
    exponent is not a float in Python (the result is a complex number):
    [fpow] stands for the power where it is a float. *)
Definition float_of_Z (z : Z) : float :=
  SF2Prim (binary_normalize prec emax z 0 false).

(** Python ints are unbounded.  An int converts to a float when its
    rounded value is finite, that is below [2^1024 - 2^970] in absolute
    value; from there on the conversion raises [OverflowError]. *)
Definition float_int_bound : Z := 2 ^ 1024 - 2 ^ 970.

Definition float_fits (z : Z) : bool := (Z.abs z <? float_int_bound)%Z.

(** [a / b] for two ints, [b] not zero ([long_true_divide]): the exact
    quotient rounded once, to nearest-even; a zero dividend gives a zero of
    the quotient's sign.  The quotient is in range when its rounded value
    is finite. *)
Definition Z_truediv (a b : Z) : float :=
  let negate := xorb (a <? 0)%Z (b <? 0)%Z in
  if (a =? 0)%Z then (if negate then neg_zero else zero)
  else let '(q, e, l) := SFdiv_core_binary prec emax (Z.abs a) 0 (Z.abs b) 0 in
       SF2Prim (binary_round_aux prec emax negate q e l).

Definition Z_truediv_fits (a b : Z) : bool :=
  (Z.abs a <? float_int_bound * Z.abs b)%Z.

Record libm : Type := Libm {
  libm_pow : float -> float -> float;
  libm_exp : float -> float;
  libm_log : float -> float
}.

Definition float_pow (m : libm) (x y : float) : float :=
  if PrimFloat.eqb y 0 then 1%float else libm_pow m x y.

Definition float_arith (m : libm) : arith float := {|
  of_int := float_of_Z;
  int_fits := float_fits;
  int_truediv := Z_truediv;
  truediv_fits := Z_truediv_fits;
  fadd := PrimFloat.add;
  fsub := PrimFloat.sub;
  fmul := PrimFloat.mul;
  fdiv := PrimFloat.div;
  fpow := float_pow m;
  fexp := libm_exp m;
  flog := libm_log m;
  is_zero := fun x => PrimFloat.eqb x 0;
  fgtb := fun x y => PrimFloat.ltb y x
|}.

(** Exact arithmetic over the reals: every int converts, every quotient
    is in range.  The power is [Rpower] for a positive base; [x ** 0] is 1
    for every [x]; a zero base gives 0 for a positive exponent; a negative
    base has a real power for an integer exponent only.  Where the power is
    not a real number (a zero base with a negative exponent, a negative
    base with a fractional one) the value is 0 here and means nothing. *)
Definition R_pow (x y : R) : R :=
  if Req_dec_T y 0 then 1%R
  else match total_order_T x 0 with
       | inright _ => Rpower x y
       | inleft (right _) => 0%R
       | inleft (left _) =>
           if Req_dec_T (IZR (Int_part y)) y then powerRZ x (Int_part y)
           else 0%R
       end.

Definition R_arith : arith R := {|
  of_int := IZR;
  int_fits := fun _ => true;
  int_truediv := fun a b => (IZR a / IZR b)%R;
  truediv_fits := fun _ _ => true;
  fadd := Rplus;
  fsub := Rminus;
  fmul := Rmult;
  fdiv := Rdiv;
  fpow := R_pow;
  fexp := exp;
  flog := ln;
  is_zero := fun x => if Req_dec_T x 0 then true else false;
  fgtb := fun x y => if Rgt_dec x y then true else false
|}.

(* ===================================================================== *)
(** ** Task-sampling scheduler ([compute_alpha], [get_task_probs]) *)

Section Scheduler.
Context {F : Type} (ops : arith F).

(** An int operand of a float operation is converted first; an int out
    of the floats' range raises [OverflowError]. *)
Definition float_of_int (n : Z) : py_result F :=
  if int_fits ops n then Return (of_int ops n) else Raise OverflowError.

(** [x * n] for a float [x] and an int [n]. *)
Definition mul_int (x : F) (n : Z) : py_result F :=
  y ← float_of_int n;
  mret (fmul ops x y).

(** [x / n] for a float [x] and an int [n]: the int is converted and the
    division raises [ZeroDivisionError] when it is zero (a non-zero int
    never converts to zero). *)
Definition truediv_int (x : F) (n : Z) : py_result F :=
  y ← float_of_int n;
  if (n =? 0)%Z then Raise ZeroDivisionError
  else Return (fdiv ops x y).

(** [a / b] for two ints: the quotient itself is rounded, the operands
    are not converted. *)
Definition truediv_ints (a b : Z) : py_result F :=
  if (b =? 0)%Z then Raise ZeroDivisionError
  else if truediv_fits ops a b then Return (int_truediv ops a b)
  else Raise OverflowError.

(** [x / y] for two floats. *)
Definition truediv (x y : F) : py_result F :=
  if is_zero ops y then Raise ZeroDivisionError
  else Return (fdiv ops x y).

(** [epoch] and [total_epoch] are ints, [alpha_start] and [alpha_end]
    floats: [drop * epoch / (total_epoch-1)] is a float times an int
    divided by an int, [epoch / (total_epoch-1)] a quotient of two ints. *)
Definition compute_alpha (epoch total_epoch : Z) (alpha_start alpha_end : F)
    (linear_decay : bool) : py_result F :=
  _ ← py_assert ((0 <=? epoch)%Z && (epoch <? total_epoch)%Z);
  if linear_decay then
    let drop := fsub ops alpha_start alpha_end in
    p ← mul_int drop epoch;
    q ← truediv_int p (total_epoch - 1);
    mret (fsub ops alpha_start q)
  else
    ratio ← truediv_ints epoch (total_epoch - 1);
    base ← truediv alpha_end alpha_start;
    mret (fmul ops alpha_start (fpow ops base ratio)).

(** A sum accumulated in index order, from zero. *)
Definition sum_seq (xs : list F) : F :=
  fold_left (fadd ops) xs (of_int ops 0).

(** [scaled.sum()]: numpy's add-reduction of a float array, the identity
    plus its pairwise sum ([pairwise_sum]).  Fewer than 8 entries are
    accumulated in index order; up to 128 entries go through 8 running
    sums, one per position modulo 8, which are added as a balanced tree
    before the entries left over are added in order; longer arrays are cut
    at a multiple of 8 near the middle and the two sums are added. *)
Fixpoint sum_lanes (blocks : nat) (r a : list F) : list F * list F :=
  match blocks with
  | O => (r, a)
  | S k => sum_lanes k (zip_with (fadd ops) r (take 8 a)) (drop 8 a)
  end.

Definition sum_tree (r : list F) : F :=
  match r with
  | [r0; r1; r2; r3; r4; r5; r6; r7] =>
      fadd ops (fadd ops (fadd ops r0 r1) (fadd ops r2 r3))
               (fadd ops (fadd ops r4 r5) (fadd ops r6 r7))
  | _ => of_int ops 0
  end.

Definition sum_block (a : list F) : F :=
  let '(r, rest) := sum_lanes (length a / 8 - 1) (take 8 a) (drop 8 a) in
  fold_left (fadd ops) rest (sum_tree r).

(** The recursion halves the array; [fuel] bounds its depth, and the
    length of the array is enough ([pairwise_sum_fuel]). *)
Fixpoint pairwise_sum (fuel : nat) (a : list F) : F :=
  let n := length a in
  if n <? 8 then sum_seq a
  else if n <=? 128 then sum_block a
  else match fuel with
       | O => sum_block a
       | S f =>
           let n2 := n / 2 - (n / 2) mod 8 in
           fadd ops (pairwise_sum f (take n2 a)) (pairwise_sum f (drop n2 a))
       end.

Definition np_sum (xs : list F) : F :=
  fadd ops (of_int ops 0) (pairwise_sum (length xs) xs).

(** [sizes] is the integer array of dataset lengths; [sizes ** alpha]
    promotes it to floats. *)
Definition get_task_probs (alpha : F) (sizes : list Z) : list F :=
  let scaled := map (fun s => fpow ops (of_int ops s) alpha) sizes in
  let total := np_sum scaled in
  map (fun x => fdiv ops x total) scaled.
End Scheduler.

(** A decimal literal [num/den] (such as [0.2]): the nearest float. *)
Definition decimal {F} (ops : arith F) (num den : Z) : F :=
  fdiv ops (of_int ops num) (of_int ops den).

(* ===================================================================== *)
(** ** Tensors, parameters and layers *)

Record nn_Parameter (T : Type) : Type := Param {
  data : T;
  requires_grad : bool;
  grad : option T
}.
Arguments Param {T} _ _ _.
Arguments data {T} _.
Arguments requires_grad {T} _.
Arguments grad {T} _.

Definition set_requires_grad {T} (b : bool) (p : nn_Parameter T) : nn_Parameter T :=
  {| data := data p; requires_grad := b; grad := grad p |}.

(** The result of a head: a 2-D tensor or, after [squeeze(-1)], a 1-D one. *)
Inductive tensor_out (F : Type) : Type :=
  | Vec (v : list F)
  | Mat (m : list (list F)).
Arguments Vec {F} v.
Arguments Mat {F} m.

Record Linear (F : Type) : Type := MkLinear {
  in_features : nat;
  out_features : nat;
  weight : nn_Parameter (list (list F));   (* out_features x in_features *)
  bias : nn_Parameter (list F)             (* out_features *)
}.
Arguments MkLinear {F} _ _ _ _.
Arguments in_features {F} _.
Arguments out_features {F} _.
Arguments weight {F} _.
Arguments bias {F} _.

Record BertOutput (F : Type) : Type := MkBertOutput {
  last_hidden_state : list (list (list F));
  pooler_output : list (list F)
}.
Arguments MkBertOutput {F} _ _.
Arguments last_hidden_state {F} _.
Arguments pooler_output {F} _.

Record Config (F : Type) : Type := MkConfig {
  hidden_dropout_prob : F;
  num_labels : nat;
  hidden_size : nat;
  data_dir : string;
  fine_tune_mode : string;
  cfg_siamese : bool
}.
Arguments MkConfig {F} _ _ _ _ _ _.
Arguments hidden_dropout_prob {F} _.
Arguments num_labels {F} _.
Arguments hidden_size {F} _.
Arguments data_dir {F} _.
Arguments fine_tune_mode {F} _.
Arguments cfg_siamese {F} _.

Record MultitaskBERT (F tensor : Type) : Type := MkModel {
  bert : list (nn_Parameter tensor);       (* self.bert.parameters() *)
  m_num_labels : nat;
  dropout : F;                          (* torch.nn.Dropout(p) *)
  sst_dense : Linear F;
  para_dense : Linear F;
  para_dense_siamese : Linear F;
  sts_dense : Linear F;
  sts_dense_siamese : Linear F;
  siamese : bool;
  training : bool                       (* model.train() / model.eval() *)
}.
Arguments MkModel {F tensor} _ _ _ _ _ _ _ _ _ _.
Arguments bert {F tensor} _.
Arguments m_num_labels {F tensor} _.
Arguments dropout {F tensor} _.
Arguments sst_dense {F tensor} _.
Arguments para_dense {F tensor} _.
Arguments para_dense_siamese {F tensor} _.
Arguments sts_dense {F tensor} _.
Arguments sts_dense_siamese {F tensor} _.
Arguments siamese {F tensor} _.
Arguments training {F tensor} _.

Section Model.
Context {F : Type} (ops : arith F).
Context {rng tensor : Type}.

(** The external encoder: parameters, training flag, token ids and
    attention mask of a batch, and the random state its own dropout
    consumes. *)
Variable BertModel :
  list (nn_Parameter tensor) -> bool -> list (list Z) -> list (list Z) -> rng ->
  BertOutput F * rng.
(** One uniform draw (parameter initialisation) and one Bernoulli draw
    with the given keep probability (dropout mask). *)
Variable uniform : rng -> F * rng.
Variable bernoulli : F -> rng -> bool * rng.

Fixpoint rand_vector (n : nat) (g : rng) : list F * rng :=
  match n with
  | O => ([], g)
  | S k => let '(x, g1) := uniform g in
           let '(xs, g2) := rand_vector k g1 in
           (x :: xs, g2)
  end.

Fixpoint rand_matrix (rows cols : nat) (g : rng) : list (list F) * rng :=
  match rows with
  | O => ([], g)
  | S k => let '(r, g1) := rand_vector cols g in
           let '(rs, g2) := rand_matrix k cols g1 in
           (r :: rs, g2)
  end.

(** [torch.nn.Linear(in_features, out_features)]. *)
Definition Linear_new (inf outf : nat) (g : rng) : Linear F * rng :=
  let '(w, g1) := rand_matrix outf inf g in
  let '(b, g2) := rand_vector outf g1 in
  (MkLinear inf outf (Param w true None) (Param b true None), g2).

Definition dot (u v : list F) : F :=
  fold_left (fadd ops) (zip_with (fmul ops) u v) (of_int ops 0).

(** [x @ W.T + b], row by row; a width mismatch is a [RuntimeError]. *)
Definition Linear_forward (l : Linear F) (x : list (list F))
    : py_result (list (list F)) :=
  if forallb (fun row => length row =? in_features l) x
  then Return (map (fun row =>
                 zip_with (fadd ops) (map (dot row) (data (weight l)))
                          (data (bias l))) x)
  else Raise RuntimeError.

Fixpoint dropout_vec (p : F) (xs : list F) (g : rng) : list F * rng :=
  match xs with
  | [] => ([], g)
  | x :: r =>
      let '(keep, g1) := bernoulli (fsub ops (of_int ops 1) p) g in
      let '(r', g2) := dropout_vec p r g1 in
      (fmul ops x (if keep
                   then fdiv ops (of_int ops 1) (fsub ops (of_int ops 1) p)
                   else of_int ops 0) :: r', g2)
  end.

Fixpoint dropout_mat (p : F) (x : list (list F)) (g : rng)
    : list (list F) * rng :=
  match x with
  | [] => ([], g)
  | row :: rest =>
      let '(row', g1) := dropout_vec p row g in
      let '(rest', g2) := dropout_mat p rest g1 in
      (row' :: rest', g2)
  end.

(** [self.dropout(x)]: the identity in evaluation mode. *)
Definition Dropout_forward (m : MultitaskBERT F tensor) (x : list (list F))
    (g : rng) : list (list F) * rng :=
  if training m then dropout_mat (dropout m) x g else (x, g).

(** [torch.cat([a, b], dim=1)]. *)
Definition cat_dim1 (a b : list (list F)) : py_result (list (list F)) :=
  if length a =? length b then Return (zip_with app a b)
  else Raise RuntimeError.

(** [t.squeeze(-1)] for [t] of shape [(B, cols)]. *)
Definition squeeze_last (cols : nat) (t : list (list F)) : tensor_out F :=
  if cols =? 1 then Vec (concat t) else Mat t.

Definition set_fine_tune_mode (mode : string) (p : nn_Parameter tensor)
    : nn_Parameter tensor :=
  if String.eqb mode "last-linear-layer" then set_requires_grad false p
  else if String.eqb mode "full-model" then set_requires_grad true p
  else p.

(** [torch.nn.Dropout(p)]: [p < 0 or p > 1] is a [ValueError]. *)
Definition Dropout_new (p : F) : py_result F :=
  if fgtb ops (of_int ops 0) p || fgtb ops p (of_int ops 1)
  then Raise ValueError else Return p.

(** [MultitaskBERT.__init__]; [pretrained] is what
    [BertModel.from_pretrained] loads. *)
Definition MultitaskBERT_init (config : Config F)
    (pretrained : list (nn_Parameter tensor)) (g : rng)
    : py_result (MultitaskBERT F tensor * rng) :=
  _ ← py_assert (String.eqb (fine_tune_mode config) "last-linear-layer"
                 || String.eqb (fine_tune_mode config) "full-model");
  let bert' := map (set_fine_tune_mode (fine_tune_mode config)) pretrained in
  p ← Dropout_new (hidden_dropout_prob config);
  let '(sst, g1) := Linear_new (hidden_size config) (num_labels config) g in
  let '(para, g2) := Linear_new (hidden_size config) 1 g1 in
  let '(para_s, g3) := Linear_new (hidden_size config * 2) 1 g2 in
  let '(sts, g4) := Linear_new (hidden_size config) 1 g3 in
  let '(sts_s, g5) := Linear_new (hidden_size config * 2) 1 g4 in
  mret (MkModel bert' (num_labels config) p
                sst para para_s sts sts_s (cfg_siamese config) true, g5).

Definition forward (m : MultitaskBERT F tensor)
    (input_ids attention_mask : list (list Z)) (g : rng)
    : BertOutput F * rng :=
  BertModel (bert m) (training m) input_ids attention_mask g.

Definition predict_sentiment (m : MultitaskBERT F tensor)
    (input_ids attention_mask : list (list Z)) (g : rng)
    : py_result (list (list F) * rng) :=
  let '(out, g1) := forward m input_ids attention_mask g in
  let '(d, g2) := Dropout_forward m (pooler_output out) g1 in
  logits ← Linear_forward (sst_dense m) d;
  mret (logits, g2).

Definition predict_paraphrase (m : MultitaskBERT F tensor)
    (input_ids_1 attention_mask_1 input_ids_2 attention_mask_2 : list (list Z))
    (g : rng) : py_result (tensor_out F * rng) :=
  if negb (siamese m) then
    let '(out, g1) := forward m input_ids_1 attention_mask_1 g in
    let '(d, g2) := Dropout_forward m (pooler_output out) g1 in
    y ← Linear_forward (para_dense m) d;
    mret (squeeze_last (out_features (para_dense m)) y, g2)
  else
    let '(out1, g1) := forward m input_ids_1 attention_mask_1 g in
    let '(out2, g2) := forward m input_ids_2 attention_mask_2 g1 in
    concat ← cat_dim1 (pooler_output out1) (pooler_output out2);
    let '(d, g3) := Dropout_forward m concat g2 in
    y ← Linear_forward (para_dense_siamese m) d;
    mret (squeeze_last (out_features (para_dense_siamese m)) y, g3).

Definition predict_similarity (m : MultitaskBERT F tensor)
    (input_ids_1 attention_mask_1 input_ids_2 attention_mask_2 : list (list Z))
    (g : rng) : py_result (tensor_out F * rng) :=
  if negb (siamese m) then
    let '(out, g1) := forward m input_ids_1 attention_mask_1 g in
    let '(d, g2) := Dropout_forward m (pooler_output out) g1 in
    y ← Linear_forward (sts_dense m) d;
    mret (squeeze_last (out_features (sts_dense m)) y, g2)
  else
    let '(out1, g1) := forward m input_ids_1 attention_mask_1 g in
    let '(out2, g2) := forward m input_ids_2 attention_mask_2 g1 in
    concat ← cat_dim1 (pooler_output out1) (pooler_output out2);
    let '(d, g3) := Dropout_forward m concat g2 in
    y ← Linear_forward (sts_dense_siamese m) d;
    mret (squeeze_last (out_features (sts_dense_siamese m)) y, g3).

(** The two paired heads differ only in the layers they use. *)
Definition predict_pair (m : MultitaskBERT F tensor)
    (dense dense_siamese : Linear F)
    (input_ids_1 attention_mask_1 input_ids_2 attention_mask_2 : list (list Z))
    (g : rng) : py_result (tensor_out F * rng) :=
  if negb (siamese m) then
    let '(out, g1) := forward m input_ids_1 attention_mask_1 g in
    let '(d, g2) := Dropout_forward m (pooler_output out) g1 in
    y ← Linear_forward dense d;
    mret (squeeze_last (out_features dense) y, g2)
  else
    let '(out1, g1) := forward m input_ids_1 attention_mask_1 g in
    let '(out2, g2) := forward m input_ids_2 attention_mask_2 g1 in
    concat ← cat_dim1 (pooler_output out1) (pooler_output out2);
    let '(d, g3) := Dropout_forward m concat g2 in
    y ← Linear_forward dense_siamese d;
    mret (squeeze_last (out_features dense_siamese) y, g3).
End Model.

(* ===================================================================== *)
(** ** Sentiment loss *)

Section Loss.
Context {F : Type} (ops : arith F).

(** The loss of one example: [-log_softmax(row)[y]]; the default
    [ignore_index] is [-100]. *)
Definition cross_entropy_example (row : list F) (y : Z) : py_result F :=
  if (y =? -100)%Z then Return (of_int ops 0)
  else match (if (0 <=? y)%Z then row !! Z.to_nat y else None) with
       | Some ly =>
           Return (fsub ops (flog ops (sum_seq ops (map (fexp ops) row))) ly)
       | None => Raise IndexError
       end.

(** [F.cross_entropy(logits, target, reduction=...)]. *)
Definition cross_entropy (logits : list (list F)) (target : list Z)
    (reduction : string) : py_result F :=
  if negb (length logits =? length target) then Raise ValueError else
  losses ← mapM (fun rt => cross_entropy_example rt.1 rt.2)
                (zip logits target);
  let total := sum_seq ops losses in
  if String.eqb reduction "sum" then Return total
  else if String.eqb reduction "mean" then
    let counted := filter (fun y => negb (y =? -100)%Z) target in
    Return (fdiv ops total (of_int ops (Z.of_nat (length counted))))
  else Raise ValueError.

(** The loss of a sentiment step:
    [F.cross_entropy(logits, b_labels.view(-1), reduction='sum') / args.batch_size]. *)
Definition sst_loss (logits : list (list F)) (b_labels : list Z)
    (batch_size : Z) : py_result F :=
  s ← cross_entropy logits b_labels "sum";
  mret (fdiv ops s (of_int ops batch_size)).
End Loss.

(** The reduction in the words of the specification: the per-example
    cross-entropies, summed over the batch, divided by the configured
    batch size. *)
Fixpoint Rsum (xs : list R) : R :=
  match xs with
  | [] => 0%R
  | x :: rest => (x + Rsum rest)%R
  end.


Definition spec_example_loss (row : list R) (y : Z) : R :=
  (ln (Rsum (map exp row)) - nth (Z.to_nat y) row 0)%R.

Definition spec_sentiment_loss (logits : list (list R)) (labels : list Z)
    (batch_size : Z) : R :=
  (Rsum (map (fun rt => spec_example_loss rt.1 rt.2) (zip logits labels))
   / IZR batch_size)%R.

(* ===================================================================== *)
(** ** One optimisation step on the parameters *)

Record Linear_grad (F : Type) : Type := MkLinearGrad {
  grad_weight : option (list (list F));
  grad_bias : option (list F)
}.
Arguments MkLinearGrad {F} _ _.
Arguments grad_weight {F} _.
Arguments grad_bias {F} _.

(** What autograd computes for a loss: a gradient for every parameter that
    took part in it ([None] for the others). *)
Record gradients (F tensor : Type) : Type := MkGradients {
  bert_grads : list (option tensor);
  head_grads : string -> Linear_grad F
}.
Arguments MkGradients {F tensor} _ _.
Arguments bert_grads {F tensor} _.
Arguments head_grads {F tensor} _.

(** The optimizer's update rule, per parameter. *)
Record update_rule (F tensor : Type) : Type := MkUpdate {
  update_bert : nat -> tensor -> tensor -> tensor;
  update_weight : string -> list (list F) -> list (list F) -> list (list F);
  update_bias : string -> list F -> list F -> list F
}.
Arguments MkUpdate {F tensor} _ _ _.
Arguments update_bert {F tensor} _.
Arguments update_weight {F tensor} _.
Arguments update_bias {F tensor} _.

Section TrainStep.
Context {F tensor : Type}.

(** [optimizer.zero_grad()]. *)
Definition zero_grad_param {T} (p : nn_Parameter T) : nn_Parameter T :=
  {| data := data p; requires_grad := requires_grad p; grad := None |}.

(** [loss.backward()]: the gradient is stored only in a parameter with
    [requires_grad]. *)
Definition backward_param {T} (g : option T) (p : nn_Parameter T)
    : nn_Parameter T :=
  match g with
  | Some d =>
      if requires_grad p
      then {| data := data p; requires_grad := true; grad := Some d |}
      else p
  | None => p
  end.

(** Modelled from the spec: [AdamW.step] (optimizer.py) is not among the
    sources.  The update rule is external ("the optimizer's internal
    update rule"); a parameter "excluded from gradient updates", that is
    one without a gradient, is skipped. *)
Definition AdamW_step_param {T} (update : T -> T -> T) (p : nn_Parameter T)
    : nn_Parameter T :=
  match grad p with
  | None => p
  | Some g =>
      {| data := update (data p) g; requires_grad := requires_grad p;
         grad := grad p |}
  end.

Definition step_param {T} (g : option T) (update : T -> T -> T)
    (p : nn_Parameter T) : nn_Parameter T :=
  AdamW_step_param update (backward_param g (zero_grad_param p)).

Definition step_linear (name : string) (gs : gradients F tensor)
    (u : update_rule F tensor) (l : Linear F) : Linear F :=
  MkLinear (in_features l) (out_features l)
    (step_param (grad_weight (head_grads gs name)) (update_weight u name)
                (weight l))
    (step_param (grad_bias (head_grads gs name)) (update_bias u name)
                (bias l)).

(** [optimizer.zero_grad(); ...; loss.backward(); optimizer.step()] on
    all of [model.parameters()]. *)
Definition train_step (gs : gradients F tensor) (u : update_rule F tensor)
    (m : MultitaskBERT F tensor) : MultitaskBERT F tensor :=
  MkModel
    (imap (fun i p => step_param (default None (bert_grads gs !! i))
                                 (update_bert u i) p) (bert m))
    (m_num_labels m) (dropout m)
    (step_linear "sst_dense" gs u (sst_dense m))
    (step_linear "para_dense" gs u (para_dense m))
    (step_linear "para_dense_siamese" gs u (para_dense_siamese m))
    (step_linear "sts_dense" gs u (sts_dense m))
    (step_linear "sts_dense_siamese" gs u (sts_dense_siamese m))
    (siamese m) (training m).
End TrainStep.

(* ===================================================================== *)
(** ** Checkpoints and the epoch loop of [train_multitask] *)

Record Args : Type := MkArgs {
  epochs : Z;
  batch_size : Z;
  args_fine_tune_mode : string;
  args_siamese : bool;
  filepath : string
}.

Inductive output (F : Type) : Type :=
  | SaveMsg (path : string)                       (* "save the model to ..." *)
  | EpochMsg (epoch : Z) (sst para sts avg : F).  (* "Epoch e:  dev acc - ..." *)
Arguments SaveMsg {F} path.
Arguments EpochMsg {F} epoch sst para sts avg.

Record rng_states (G : Type) : Type := MkRngs {
  system_rng : G;      (* random.getstate() *)
  numpy_rng : G;       (* np.random.get_state() *)
  torch_rng : G        (* torch.random.get_rng_state() *)
}.
Arguments MkRngs {G} _ _ _.
Arguments system_rng {G} _.
Arguments numpy_rng {G} _.
Arguments torch_rng {G} _.

Record save_info (M O C G : Type) : Type := MkSaveInfo {
  si_model : M;
  si_optim : O;
  si_args : Args;
  si_model_config : C;
  si_system_rng : G;
  si_numpy_rng : G;
  si_torch_rng : G
}.
Arguments MkSaveInfo {M O C G} _ _ _ _ _ _ _.
Arguments si_model {M O C G} _.
Arguments si_optim {M O C G} _.

Record loop_state (F M O C G : Type) : Type := MkLoop {
  model : M;
  optimizer : O;
  rngs : rng_states G;
  best_avg_dev_acc : F;
  files : gmap string (save_info M O C G);
  stdout : list (output F)
}.
Arguments MkLoop {F M O C G} _ _ _ _ _ _.
Arguments model {F M O C G} _.
Arguments optimizer {F M O C G} _.
Arguments rngs {F M O C G} _.
Arguments best_avg_dev_acc {F M O C G} _.
Arguments files {F M O C G} _.
Arguments stdout {F M O C G} _.

Section TrainingLoop.
Context {F : Type} (ops : arith F).
Context {M O C G : Type}.

(** The steps of one epoch (sampling a task, pulling its batch, the
    optimisation step), given the epoch and the task probabilities. *)
Variable train_steps :
  Z -> list F -> M * O * rng_states G -> M * O * rng_states G.
(** The external evaluator on the train ([false]) or dev ([true])
    loaders: sentiment accuracy, paraphrase accuracy, similarity
    correlation. *)
Variable model_eval_multitask :
  bool -> M -> rng_states G -> (F * F * F) * rng_states G.

(** [torch.save] replaces the file at [filepath]. *)
Definition save_model (model : M) (optimizer : O) (args : Args) (config : C)
    (path : string) (g : rng_states G)
    (fs : gmap string (save_info M O C G)) (out : list (output F))
    : gmap string (save_info M O C G) * list (output F) :=
  let info := MkSaveInfo model optimizer args config
                (system_rng g) (numpy_rng g) (torch_rng g) in
  (<[path := info]> fs, out ++ [SaveMsg path]).

Definition avg3 (a b c : F) : F :=
  fdiv ops (fadd ops (fadd ops a b) c) (of_int ops 3).

(** The body of [for epoch in range(args.epochs)]. *)
Definition train_epoch (args : Args) (config : C) (sizes : list Z)
    (epoch : Z) (st : loop_state F M O C G)
    : py_result (loop_state F M O C G) :=
  alpha ← compute_alpha ops epoch (epochs args)
            (of_int ops 1) (decimal ops 2 10) true;
  let probs := get_task_probs ops alpha sizes in
  let '(m1, o1, g1) := train_steps epoch probs (model st, optimizer st, rngs st) in
  let '(_, g2) := model_eval_multitask false m1 g1 in
  let '((dev_sst, dev_para, dev_sts), g3) := model_eval_multitask true m1 g2 in
  let avg_dev_acc := avg3 dev_sst dev_para dev_sts in
  let report := EpochMsg epoch dev_sst dev_para dev_sts avg_dev_acc in
  if fgtb ops avg_dev_acc (best_avg_dev_acc st) then
    let '(fs, out) := save_model m1 o1 args config (filepath args) g3
                        (files st) (stdout st) in
    mret (MkLoop m1 o1 g3 avg_dev_acc fs (out ++ [report]))
  else
    mret (MkLoop m1 o1 g3 (best_avg_dev_acc st) (files st)
                 (stdout st ++ [report])).

Fixpoint train_epochs (args : Args) (config : C) (sizes : list Z)
    (todo : list Z) (st : loop_state F M O C G)
    : py_result (loop_state F M O C G) :=
  match todo with
  | [] => Return st
  | epoch :: rest =>
      st' ← train_epoch args config sizes epoch st;
      train_epochs args config sizes rest st'
  end.

(** [range(n)]. *)
Definition py_range (n : Z) : list Z := map Z.of_nat (seq 0 (Z.to_nat n)).

(** [train_multitask] from the model and optimizer it has built. *)
Definition train_multitask (args : Args) (config : C) (sizes : list Z)
    (model0 : M) (optimizer0 : O) (g0 : rng_states G)
    (fs0 : gmap string (save_info M O C G))
    : py_result (loop_state F M O C G) :=
  train_epochs args config sizes (py_range (epochs args))
    (MkLoop model0 optimizer0 g0 (of_int ops 0) fs0 []).
End TrainingLoop.

(* ===================================================================== *)
(** ** The cyclic batch streams *)

Record DataLoader : Type := MkLoader {
  dataset_len : nat;        (* examples are the indices 0 .. len-1 *)
  dl_batch_size : nat
}.

(** The batch sampler of a [DataLoader]: fill a batch, yield it when full,
    yield the last partial batch. *)
Fixpoint batch_sampler (bs : nat) (batch : list nat) (idxs : list nat)
    : list (list nat) :=
  match idxs with
  | [] => if 0 <? length batch then [batch] else []
  | i :: rest =>
      let batch' := batch ++ [i] in
      if length batch' =? bs then batch' :: batch_sampler bs [] rest
      else batch_sampler bs batch' rest
  end.

(** One iteration over the loader, in the order [RandomSampler] drew. *)
Definition loader_iter (dl : DataLoader) (order : list nat) : list (list nat) :=
  batch_sampler (dl_batch_size dl) [] order.

(** The state of the generator [cycle(loader)]: how many iterators over the
    loader it has started, and what is left of the current one. *)
Record cycle_gen : Type := MkCycle {
  started : nat;
  pending : list (list nat)
}.

Definition cycle_init : cycle_gen := MkCycle 0 [].

Section Streams.
(** [orders k] is the order drawn for the [k]-th iterator the generator
    starts on its loader. *)
Variable orders : nat -> list nat.
Variable dl : DataLoader.

(** [next(gen)]: the [for] loop yields the next batch; when the iterator
    is exhausted, [while True] starts a new one.  [None]: the fuel ran
    out with nothing yielded. *)
Fixpoint cycle_next (fuel : nat) (g : cycle_gen)
    : option (list nat * cycle_gen) :=
  match fuel with
  | O => None
  | S f =>
      match pending g with
      | b :: rest => Some (b, MkCycle (started g) rest)
      | [] => cycle_next f (MkCycle (S (started g))
                                    (loader_iter dl (orders (started g))))
      end
  end.

(** [n] successive calls of [next]. *)
Fixpoint pull (fuel n : nat) (g : cycle_gen)
    : option (list (list nat) * cycle_gen) :=
  match n with
  | O => Some ([], g)
  | S k =>
      '(b, g1) ← cycle_next fuel g;
      '(bs, g2) ← pull fuel k g1;
      Some (b :: bs, g2)
  end.
End Streams.

(** The sampler draws without replacement: each order is a permutation of
    the dataset. *)
Definition random_sampler (orders : nat -> list nat) (dl : DataLoader) : Prop :=
  forall k, Permutation (orders k) (seq 0 (dataset_len dl)).

(** "Between any two occurrences of the same example, every other example
    occurs." *)
Definition between_repeats_all (n : nat) (xs : list nat) : Prop :=
  forall i j x, i < j -> xs !! i = Some x -> xs !! j = Some x ->
  forall y, y < n -> y <> x -> exists k, i < k < j /\ xs !! k = Some y.

(** "Every example is visited before any example repeats." *)
Definition all_before_repeat (n : nat) (xs : list nat) : Prop :=
  NoDup xs \/ forall y, y < n -> y ∈ xs.

(** Two passes over three examples, shuffled differently. *)
Definition orders_example (k : nat) : list nat :=
  match k with
  | O => [0; 1; 2]
  | _ => [1; 0; 2]
  end.
Definition loader_example : DataLoader := MkLoader 3 1.

(* ===================================================================== *)
(** ** Constants, modes and a small concrete instance *)

Definition BERT_HIDDEN_SIZE : nat := 768.
Definition N_SENTIMENT_CLASSES : nat := 5.

(** [model.train()] and [model.eval()]. *)
Definition set_training {F tensor} (b : bool) (m : MultitaskBERT F tensor)
    : MultitaskBERT F tensor :=
  MkModel (bert m) (m_num_labels m) (dropout m) (sst_dense m) (para_dense m)
          (para_dense_siamese m) (sts_dense m) (sts_dense_siamese m)
          (siamese m) b.

(** A tensor of shape [(B, W)]. *)
Definition shape2 {F} (B W : nat) (t : list (list F)) : Prop :=
  length t = B /\ Forall (fun row => length row = W) t.

(** The encoder's interface: one pooled vector of width [H] per sequence. *)
Definition encoder_contract {F rng tensor}
    (BertModel : list (nn_Parameter tensor) -> bool -> list (list Z) ->
                 list (list Z) -> rng -> BertOutput F * rng)
    (H : nat) : Prop :=
  forall ps tr ids mask g,
    shape2 (length ids) H (pooler_output (BertModel ps tr ids mask g).1).

(** The instance: binary64 without elementary functions (none is called by
    the heads), an encoder that pools a sequence into its sum and its
    length, a counter as random state. *)
Definition libm_absent : libm :=
  Libm (fun _ _ => nan) (fun _ => nan) (fun _ => nan).

Definition toy_arith : arith float := float_arith libm_absent.

Definition toy_bert (ps : list (nn_Parameter (list float))) (tr : bool)
    (ids mask : list (list Z)) (g : nat) : BertOutput float * nat :=
  (MkBertOutput []
     (map (fun row => [float_of_Z (fold_right Z.add 0%Z row);
                       float_of_Z (Z.of_nat (length row))]) ids), g).

Definition toy_uniform (g : nat) : float * nat :=
  (float_of_Z (Z.of_nat g), S g).

Definition toy_bernoulli (p : float) (g : nat) : bool * nat :=
  (Nat.even g, S g).

Definition toy_config (mode : string) (siam : bool) : Config float :=
  MkConfig 0.5%float N_SENTIMENT_CLASSES 2 "." mode siam.

Definition toy_pretrained : list (nn_Parameter (list float)) :=
  [Param [1%float] true None; Param [2%float; 3%float] false None].

Definition toy_gradients : gradients float (list float) :=
  MkGradients [Some [1%float]; Some [1%float; 1%float]]
              (fun _ => MkLinearGrad None None).

Definition toy_update : update_rule float (list float) :=
  MkUpdate (fun _ d g => zip_with PrimFloat.sub d g)
           (fun _ d _ => d) (fun _ d _ => d).

(** A layer whose parameters have the shapes its features announce, and a
    model whose heads have the widths of its configuration. *)
Definition linear_shaped {F} (l : Linear F) : Prop :=
  shape2 (out_features l) (in_features l) (data (weight l)) /\
  length (data (bias l)) = out_features l.

Definition head_shaped {F} (inf outf : nat) (l : Linear F) : Prop :=
  in_features l = inf /\ out_features l = outf /\ linear_shaped l.

Definition model_shaped {F tensor} (H : nat) (m : MultitaskBERT F tensor)
    : Prop :=
  head_shaped H (m_num_labels m) (sst_dense m) /\
  head_shaped H 1 (para_dense m) /\
  head_shaped (H * 2) 1 (para_dense_siamese m) /\
  head_shaped H 1 (sts_dense m) /\
  head_shaped (H * 2) 1 (sts_dense_siamese m).

(** The heads with their attribute names. *)
Definition named_heads {F tensor} (m : MultitaskBERT F tensor)
    : list (string * Linear F) :=
  [("sst_dense", sst_dense m); ("para_dense", para_dense m);
   ("para_dense_siamese", para_dense_siamese m); ("sts_dense", sts_dense m);
   ("sts_dense_siamese", sts_dense_siamese m)]%string.

Definition toy_init (mode : string) (siam : bool)
    : py_result (MultitaskBERT float (list float) * nat) :=
  MultitaskBERT_init toy_arith toy_uniform (toy_config mode siam)
    toy_pretrained 0.

(** A label that indexes a class of the row. *)
Definition label_in_range (row : list R) (y : Z) : Prop :=
  (0 <= y < Z.of_nat (length row))%Z.

(** What the run printed about checkpoints and dev averages. *)
Definition is_save {F} (o : output F) : bool :=
  match o with
  | SaveMsg _ => true
  | EpochMsg _ _ _ _ _ => false
  end.

Definition reported_avgs {F} (out : list (output F)) : list F :=
  omap (fun o => match o with
                 | EpochMsg _ _ _ _ avg => Some avg
                 | SaveMsg _ => None
                 end) out.

(** The best average seen so far, in the words of the specification: the
    running best of the averages under [>], from a starting value. *)
Definition best_seen {F} (ops : arith F) (start : F) (avgs : list F) : F :=
  fold_left (fun best avg => if fgtb ops avg best then avg else best)
            avgs start.

(** A report carries the unweighted average of its three metrics. *)
Definition reports_average {F} (ops : arith F) (o : output F) : Prop :=
  match o with
  | EpochMsg _ sst para sts avg =>
      avg = fdiv ops (fadd ops (fadd ops sst para) sts) (of_int ops 3)
  | SaveMsg _ => True
  end.

(** The record [save_model] writes for a state of the loop. *)
Definition snapshot {F M O C G} (args : Args) (config : C)
    (st : loop_state F M O C G) : save_info M O C G :=
  MkSaveInfo (model st) (optimizer st) args config
             (system_rng (rngs st)) (numpy_rng (rngs st)) (torch_rng (rngs st)).

(** A small run: the model is a step counter [m], the dev metrics are two
    accuracies of 0.25 and the correlation [(m - 4) / 4]. *)
Definition toy_args (n : Z) : Args := MkArgs n 8 "full-model" false "model.pt".

Definition toy_steps (epoch : Z) (probs : list float)
    (s : Z * unit * rng_states nat) : Z * unit * rng_states nat :=
  let '(m, o, g) := s in ((m + 1)%Z, o, g).

Definition toy_eval (dev : bool) (m : Z) (g : rng_states nat)
    : (float * float * float) * rng_states nat :=
  ((0.25, 0.25, (float_of_Z m - 4) * 0.25)%float, g).

Definition toy_state (m : Z) (best : float)
    : loop_state float Z unit unit nat :=
  MkLoop m tt (MkRngs 0 0 0) best ∅ [].

(** The batches of the [j] iterations over the loader from the [k]-th on. *)
Definition passes (orders : nat -> list nat) (dl : DataLoader) (k j : nat)
    : list (list nat) :=
  concat (map (fun i => loader_iter dl (orders i)) (seq k j)).

(* ===================================================================== *)
(** ** Several steps, state dicts, the test run, the streams of the loop *)

(** Successive training steps, each with its gradients and update rule. *)
Definition train_steps_seq {F tensor}
    (steps : list (gradients F tensor * update_rule F tensor))
    (m : MultitaskBERT F tensor) : MultitaskBERT F tensor :=
  fold_left (fun m s => train_step s.1 s.2 m) steps m.

(** [model.state_dict()]: the values of the parameters; the encoder's by
    position, the heads' by attribute name. *)
Record StateDict (F tensor : Type) : Type := MkStateDict {
  sd_bert : list tensor;
  sd_heads : gmap string (list (list F) * list F)
}.
Arguments MkStateDict {F tensor} _ _.
Arguments sd_bert {F tensor} _.
Arguments sd_heads {F tensor} _.

Definition state_dict {F tensor} (m : MultitaskBERT F tensor)
    : StateDict F tensor :=
  MkStateDict (map data (bert m))
    (list_to_map (map (fun nl => (nl.1, (data (weight nl.2), data (bias nl.2))))
                      (named_heads m))).

(** The shape of a matrix, row by row, and of a vector. *)
Definition same_shape_mat {F} (a b : list (list F)) : bool :=
  bool_decide (map length a = map length b).

Definition same_shape_vec {F} (a b : list F) : bool :=
  length a =? length b.

(** [param.copy_(input_param)], refused when the shapes differ. *)
Definition load_param {T} (same_shape : T -> T -> bool) (p : nn_Parameter T)
    (d : T) : py_result (nn_Parameter T) :=
  if same_shape (data p) d
  then Return (Param d (requires_grad p) (grad p))
  else Raise RuntimeError.

(** One head; a missing key is a [RuntimeError]. *)
Definition load_linear {F} (name : string)
    (heads : gmap string (list (list F) * list F)) (l : Linear F)
    : py_result (Linear F) :=
  match heads !! name with
  | None => Raise RuntimeError
  | Some (w, b) =>
      w' ← load_param same_shape_mat (weight l) w;
      b' ← load_param same_shape_vec (bias l) b;
      mret (MkLinear (in_features l) (out_features l) w' b')
  end.

Section LoadStateDict.
Context {F tensor : Type}.
(** Whether the shapes of two encoder tensors agree. *)
Variable same_shape_tensor : tensor -> tensor -> bool.

(** The encoder's parameters; a missing or unexpected one is a
    [RuntimeError]. *)
Fixpoint load_bert (ps : list (nn_Parameter tensor)) (ds : list tensor)
    : py_result (list (nn_Parameter tensor)) :=
  match ps, ds with
  | [], [] => Return []
  | p :: ps', d :: ds' =>
      p' ← load_param same_shape_tensor p d;
      rest ← load_bert ps' ds';
      mret (p' :: rest)
  | _, _ => Raise RuntimeError
  end.

(** [model.load_state_dict(sd)] (strict: no unexpected key either). *)
Definition load_state_dict (sd : StateDict F tensor)
    (m : MultitaskBERT F tensor) : py_result (MultitaskBERT F tensor) :=
  if negb (bool_decide (dom (sd_heads sd)
                        ⊆ list_to_set (map fst (named_heads m))))
  then Raise RuntimeError else
  bert' ← load_bert (bert m) (sd_bert sd);
  sst ← load_linear "sst_dense" (sd_heads sd) (sst_dense m);
  para ← load_linear "para_dense" (sd_heads sd) (para_dense m);
  para_s ← load_linear "para_dense_siamese" (sd_heads sd) (para_dense_siamese m);
  sts ← load_linear "sts_dense" (sd_heads sd) (sts_dense m);
  sts_s ← load_linear "sts_dense_siamese" (sd_heads sd) (sts_dense_siamese m);
  mret (MkModel bert' (m_num_labels m) (dropout m) sst para para_s sts sts_s
                (siamese m) (training m)).
End LoadStateDict.

(** The test run reads a file: besides the exceptions of the computation,
    the file may be missing. *)
Inductive io_exception : Set :=
  | FileNotFoundError
  | PyException (e : py_exception).

Inductive io_result (A : Type) : Type :=
  | Loaded (a : A)
  | Failed (e : io_exception).
Arguments Loaded {A} a.
Arguments Failed {A} e.

Definition lift_result {A} (c : py_result A) : io_result A :=
  match c with
  | Return a => Loaded a
  | Raise e => Failed (PyException e)
  end.

Section TestRun.
Context {F : Type} (ops : arith F) {rng tensor O G : Type}.
Variable uniform : rng -> F * rng.
Variable same_shape_tensor : tensor -> tensor -> bool.

(** The head of [test_multitask]: [torch.load(args.filepath)], a model
    built from the saved configuration, the saved weights loaded into it.
    The loop keeps the model object; its saved entry is read through its
    state dict. *)
Definition test_multitask_model (pretrained : list (nn_Parameter tensor))
    (args : Args)
    (fs : gmap string (save_info (MultitaskBERT F tensor) O (Config F) G))
    (g : rng) : io_result (MultitaskBERT F tensor * rng) :=
  match fs !! filepath args with
  | None => Failed FileNotFoundError
  | Some saved =>
      lift_result
        (mg ← MultitaskBERT_init ops uniform (si_model_config _ _ _ _ saved)
                pretrained g;
         m ← load_state_dict same_shape_tensor (state_dict (si_model saved))
               mg.1;
         mret (m, mg.2))
  end.
End TestRun.

Section Main.
Context {F : Type} (ops : arith F) {M O C G T : Type}.
Variable train_steps :
  Z -> list F -> M * O * rng_states G -> M * O * rng_states G.
Variable model_eval_multitask :
  bool -> M -> rng_states G -> (F * F * F) * rng_states G.
(** What [test_multitask] does with the files it finds. *)
Variable test_multitask : gmap string (save_info M O C G) -> io_result T.

(** [if not args.test_only: train_multitask(args)] then
    [test_multitask(args)]. *)
Definition main (test_only : bool) (args : Args) (config : C)
    (sizes : list Z) (model0 : M) (optimizer0 : O) (g0 : rng_states G)
    (fs0 : gmap string (save_info M O C G)) : io_result T :=
  if negb test_only then
    match train_multitask ops train_steps model_eval_multitask args config
            sizes model0 optimizer0 g0 fs0 with
    | Raise e => Failed (PyException e)
    | Return st => test_multitask (files st)
    end
  else test_multitask fs0.
End Main.

(** The epochs a run reported, in order. *)
Definition reported_epochs {F} (out : list (output F)) : list Z :=
  omap (fun o => match o with
                 | EpochMsg epoch _ _ _ _ => Some epoch
                 | SaveMsg _ => None
                 end) out.

(** [task_ids] and [loaders = dict(zip(task_ids, loaders))]. *)
Definition task_ids : list string := ["sst"; "para"; "sts"]%string.

Definition make_loaders (gens : list cycle_gen) : gmap string cycle_gen :=
  list_to_map (zip task_ids gens).

(** What [next(loaders[task_id])] can do: the key is missing, nothing is
    yielded within the fuel, or a batch comes out and the generator kept in
    the dict has advanced. *)
Inductive fetched : Type :=
  | KeyError
  | NoYield
  | Batch (b : list nat) (loaders : gmap string cycle_gen).

Section LoopStreams.
(** Per task: the orders drawn for its passes, and its loader. *)
Variable orders : string -> nat -> list nat.
Variable loaders_orig : string -> DataLoader.

Definition next_batch (fuel : nat) (task_id : string)
    (loaders : gmap string cycle_gen) : fetched :=
  match loaders !! task_id with
  | None => KeyError
  | Some gen =>
      match cycle_next (orders task_id) (loaders_orig task_id) fuel gen with
      | None => NoYield
      | Some (b, gen') => Batch b (<[task_id := gen']> loaders)
      end
  end.

(** The fetches of the step loop, for the task ids [np.random.choice]
    drew: the batches with their task, and the dict at the end.  The error
    cases stop the loop. *)
Inductive fetches : Type :=
  | FetchKeyError
  | FetchNoYield
  | Fetched (batches : list (string * list nat))
            (loaders : gmap string cycle_gen).

Fixpoint fetch_all (fuel : nat) (choices : list string)
    (loaders : gmap string cycle_gen) : fetches :=
  match choices with
  | [] => Fetched [] loaders
  | task_id :: rest =>
      match next_batch fuel task_id loaders with
      | KeyError => FetchKeyError
      | NoYield => FetchNoYield
      | Batch b loaders1 =>
          match fetch_all fuel rest loaders1 with
          | Fetched batches loaders2 => Fetched ((task_id, b) :: batches) loaders2
          | err => err
          end
      end
  end.

(** The batches a task received, in order. *)
Definition batches_of (task_id : string) (batches : list (string * list nat))
    : list (list nat) :=
  map snd (List.filter (fun tb => String.eqb tb.1 task_id) batches).
End LoopStreams.

(** The checkpoint path of a run:
    [f'{siamese}-{args.fine_tune_mode}-{args.epochs}-{args.lr}-multitask.pt']
    with [epochs] and [lr] already formatted. *)
Definition checkpoint_path (siamese_flag : bool) (mode epochs_str lr_str : string)
    : string :=
  ((if siamese_flag then "siamese" else "concate") ++ "-" ++ mode ++ "-"
   ++ epochs_str ++ "-" ++ lr_str ++ "-multitask.pt")%string.

(** A string of decimal digits. *)
Fixpoint all_digits (s : string) : bool :=
  match s with
  | EmptyString => true
  | String c rest =>
      (Nat.leb 48 (Ascii.nat_of_ascii c) && Nat.leb (Ascii.nat_of_ascii c) 57)
      && all_digits rest
  end.

(** The encoder reads the values of its parameters, not their gradient
    bookkeeping. *)
Definition encoder_reads_data {F rng tensor}
    (BertModel : list (nn_Parameter tensor) -> bool -> list (list Z) ->
                 list (list Z) -> rng -> BertOutput F * rng) : Prop :=
  forall ps ps', map data ps = map data ps' -> BertModel ps = BertModel ps'.

(** Two layers, two models, with the same features and parameter values. *)
Definition same_linear {F} (l l' : Linear F) : Prop :=
  in_features l = in_features l' /\ out_features l = out_features l' /\
  data (weight l) = data (weight l') /\ data (bias l) = data (bias l').

Definition same_weights {F tensor} (m m' : MultitaskBERT F tensor) : Prop :=
  map data (bert m) = map data (bert m') /\
  same_linear (sst_dense m) (sst_dense m') /\
  same_linear (para_dense m) (para_dense m') /\
  same_linear (para_dense_siamese m) (para_dense_siamese m') /\
  same_linear (sts_dense m) (sts_dense m') /\
  same_linear (sts_dense_siamese m) (sts_dense_siamese m') /\
  siamese m = siamese m'.

(* ===================================================================== *)
(** * Properties *)

#[local] Set Warnings "-inexact-float".

(** ** The result monad *)

Lemma returns_not_raises {A} (c : py_result A) : returns c <-> ~ raises c.
Proof.
  unfold returns, raises. destruct c as [a|e]; split.
  - intros _ [e He]. discriminate.
  - intros _. eauto.
  - intros [a Ha]. discriminate.
  - intros H. exfalso. apply H. eauto.
Qed.

Lemma py_assert_true (b : bool) : b = true -> py_assert b = Return tt.
Proof. intros ->. reflexivity. Qed.

Lemma py_assert_false (b : bool) : b = false -> py_assert b = Raise AssertionError.
Proof. intros ->. reflexivity. Qed.

(** ** Binary64 *)

Lemma digits2_pos_size (p : positive) : digits2_pos p = Pos.size p.
Proof. induction p as [p IH|p IH|]; cbn; rewrite ?IH; reflexivity. Qed.

Lemma digits2_pos_bounds (p : positive) :
  (2 ^ (Z.pos (digits2_pos p) - 1) <= Z.pos p < 2 ^ Z.pos (digits2_pos p))%Z.
Proof.
  rewrite digits2_pos_size. split.
  - pose proof (Pos.size_le p) as H.
    assert (H' : (2 ^ Z.pos (Pos.size p) <= 2 * Z.pos p)%Z).
    { change 2%Z with (Z.pos 2) at 1. rewrite <- Pos2Z.inj_pow.
      change (2 * Z.pos p)%Z with (Z.pos p~0). apply Pos2Z.pos_le_pos. exact H. }
    replace (Z.pos (Pos.size p)) with (Z.pos (Pos.size p) - 1 + 1)%Z in H' by lia.
    rewrite Z.pow_add_r in H' by lia. lia.
  - pose proof (Pos.size_gt p) as H.
    change 2%Z with (Z.pos 2). rewrite <- Pos2Z.inj_pow.
    apply Pos2Z.pos_lt_pos. exact H.
Qed.

Lemma digits2_pos_unique (p : positive) (d : Z) :
  (2 ^ (d - 1) <= Z.pos p < 2 ^ d)%Z -> (0 < d)%Z -> Z.pos (digits2_pos p) = d.
Proof.
  intros [H1 H2] Hd. pose proof (digits2_pos_bounds p) as [H3 H4].
  destruct (Z.lt_trichotomy (Z.pos (digits2_pos p)) d) as [Hlt|[Heq|Hgt]];
    [|exact Heq|].
  - assert (2 ^ Z.pos (digits2_pos p) <= 2 ^ (d - 1))%Z
      by (apply Z.pow_le_mono_r; lia). lia.
  - assert (2 ^ d <= 2 ^ (Z.pos (digits2_pos p) - 1))%Z
      by (apply Z.pow_le_mono_r; lia). lia.
Qed.

Lemma shr_1_m (mrs : shr_record) :
  (0 <= shr_m mrs)%Z -> shr_m (shr_1 mrs) = (shr_m mrs / 2)%Z.
Proof.
  destruct mrs as [m r s]. cbn [shr_m]. intros H.
  rewrite <- Z.div2_div.
  destruct m as [|[q|q|]|q]; try reflexivity. lia.
Qed.

Lemma iter_pos_shr_m (k : positive) (mrs : shr_record) :
  (0 <= shr_m mrs)%Z ->
  shr_m (SpecFloat.iter_pos shr_1 k mrs) = (shr_m mrs / 2 ^ Z.pos k)%Z.
Proof.
  revert mrs. induction k as [k IH|k IH|]; intros mrs H; cbn [SpecFloat.iter_pos].
  - assert (H1 : (0 <= shr_m (shr_1 mrs))%Z)
      by (rewrite shr_1_m by exact H; apply Z.div_pos; lia).
    assert (H2 : (0 <= shr_m (SpecFloat.iter_pos shr_1 k (shr_1 mrs)))%Z)
      by (rewrite IH by exact H1; apply Z.div_pos; lia).
    rewrite IH by exact H2. rewrite IH by exact H1. rewrite shr_1_m by exact H.
    rewrite !Z.div_div by lia. f_equal.
    replace (Z.pos k~1) with (1 + Z.pos k + Z.pos k)%Z by lia.
    rewrite !Z.pow_add_r by lia. change (2 ^ 1)%Z with 2%Z. ring.
  - assert (H2 : (0 <= shr_m (SpecFloat.iter_pos shr_1 k mrs))%Z)
      by (rewrite IH by exact H; apply Z.div_pos; lia).
    rewrite IH by exact H2. rewrite IH by exact H.
    rewrite !Z.div_div by lia. f_equal.
    replace (Z.pos k~0) with (Z.pos k + Z.pos k)%Z by lia.
    rewrite !Z.pow_add_r by lia. reflexivity.
  - rewrite shr_1_m by exact H. reflexivity.
Qed.

Lemma digits2_pos_iter_xO (p : positive) (k : positive) :
  Z.pos (digits2_pos (Pos.iter xO p k)) = (Z.pos (digits2_pos p) + Z.pos k)%Z.
Proof.
  induction k as [|k IH] using Pos.peano_ind.
  - cbn. lia.
  - rewrite Pos.iter_succ. cbn [digits2_pos]. lia.
Qed.

Lemma fexp_53 (x : Z) : (-1021 <= x)%Z -> SpecFloat.fexp prec emax x = (x - 53)%Z.
Proof. unfold SpecFloat.fexp, SpecFloat.emin, prec, emax. lia. Qed.

(** Rounding a mantissa that is already canonical changes nothing. *)
Lemma binary_round_aux_canonical (sx : bool) (m : positive) (e : Z) :
  SpecFloat.fexp prec emax (Z.pos (digits2_pos m) + e) = e -> (e <= emax - prec)%Z ->
  binary_round_aux prec emax sx (Z.pos m) e loc_Exact = S754_finite sx m e.
Proof.
  intros Hc He. unfold binary_round_aux, shr_fexp. cbn [Zdigits2].
  rewrite Hc, Z.sub_diag.
  cbn [shr_record_of_loc shr shr_m loc_of_shr_record round_nearest_even Zdigits2].
  rewrite Hc, Z.sub_diag. cbn [shr shr_m].
  apply Z.leb_le in He. rewrite He. reflexivity.
Qed.

Lemma round_nearest_even_bounds (m : Z) (l : location) :
  (m <= round_nearest_even m l <= m + 1)%Z.
Proof.
  unfold round_nearest_even.
  destruct l as [|[| |]]; try lia. destruct (Z.even m); lia.
Qed.

(** Rounding a mantissa of more than 53 digits. *)
Lemma binary_round_aux_long (sx : bool) (p : positive) (lx : location) :
  (53 < Z.pos (digits2_pos p))%Z ->
  exists sf, binary_round_aux prec emax sx (Z.pos p) 0 lx = sf /\
    (sf = S754_infinity sx \/
     exists m e, sf = S754_finite sx m e /\ bounded prec emax m e = true).
Proof.
  intros Hlong. pose proof (digits2_pos_bounds p) as Hd.
  set (d := Z.pos (digits2_pos p)) in *.
  unfold binary_round_aux, shr_fexp at 1. cbn [Zdigits2]. fold d.
  rewrite Z.add_0_r, fexp_53, Z.sub_0_r by lia.
  destruct (d - 53)%Z as [|k|k] eqn:Hk; try lia.
  cbn [shr].
  set (mrs := SpecFloat.iter_pos shr_1 k (shr_record_of_loc (Z.pos p) lx)).
  assert (Hm : shr_m mrs = (Z.pos p / 2 ^ Z.pos k)%Z).
  { unfold mrs. rewrite iter_pos_shr_m.
    - destruct lx as [|[| |]]; reflexivity.
    - destruct lx as [|[| |]]; cbn; lia. }
  assert (Hb : (2 ^ 52 <= shr_m mrs < 2 ^ 53)%Z).
  { rewrite Hm. replace d with (53 + Z.pos k)%Z in Hd by lia.
    replace (53 + Z.pos k - 1)%Z with (52 + Z.pos k)%Z in Hd by lia.
    rewrite !Z.pow_add_r in Hd by lia.
    assert (0 < 2 ^ Z.pos k)%Z by lia. split.
    - apply Z.div_le_lower_bound; lia.
    - apply Z.div_lt_upper_bound; lia. }
  pose proof (round_nearest_even_bounds (shr_m mrs) (loc_of_shr_record mrs)) as Hr.
  set (m1 := round_nearest_even (shr_m mrs) (loc_of_shr_record mrs)) in *.
  destruct m1 as [|q|q] eqn:Hq; try lia.
  destruct (Z.eq_dec (Z.pos q) (2 ^ 53)%Z) as [Htop|Hlow].
  - (* the mantissa was rounded up to 2^53 *)
    assert (q = 9007199254740992%positive) as -> by (apply Pos2Z.inj; exact Htop).
    unfold shr_fexp. cbn [Zdigits2].
    change (Z.pos (digits2_pos 9007199254740992)) with 54%Z.
    rewrite Z.add_0_l.
    rewrite fexp_53 by lia.
    replace (54 + Z.pos k - 53 - Z.pos k)%Z with 1%Z by lia.
    cbn [shr shr_record_of_loc SpecFloat.iter_pos shr_1 shr_m orb].
    destruct (Z.pos k + 1 <=? emax - prec)%Z eqn:He;
      (eexists; split; [reflexivity|]); [right|left; reflexivity].
    eexists _, _. split; [reflexivity|].
    unfold bounded, canonical_mantissa. rewrite He.
    change (Z.pos (digits2_pos 4503599627370496)) with 53%Z.
    rewrite fexp_53 by lia.
    rewrite andb_true_r. apply Z.eqb_eq. lia.
  - assert (Hdq : Z.pos (digits2_pos q) = 53%Z).
    { apply digits2_pos_unique; lia. }
    unfold shr_fexp. cbn [Zdigits2]. rewrite Hdq, Z.add_0_l.
    rewrite fexp_53 by lia.
    replace (53 + Z.pos k - 53 - Z.pos k)%Z with 0%Z by lia.
    cbn [shr shr_record_of_loc shr_m].
    destruct (Z.pos k <=? emax - prec)%Z eqn:He;
      (eexists; split; [reflexivity|]); [right|left; reflexivity].
    eexists _, _. split; [reflexivity|].
    unfold bounded, canonical_mantissa. rewrite He, Hdq.
    rewrite fexp_53 by lia.
    rewrite andb_true_r. apply Z.eqb_eq. lia.
Qed.

(** The conversion of a positive integer is a positive float, finite or
    infinite. *)
Lemma binary_normalize_pos (p : positive) :
  exists sf, binary_normalize prec emax (Z.pos p) 0 false = sf /\
    SpecFloat.valid_binary prec emax sf = true /\
    (sf = S754_infinity false \/ exists m e, sf = S754_finite false m e).
Proof.
  cbn [binary_normalize]. unfold binary_round.
  pose proof (digits2_pos_bounds p) as Hd.
  set (d := Z.pos (digits2_pos p)) in *.
  assert (Hd0 : (0 < d)%Z) by (unfold d; lia).
  rewrite Z.add_0_r, fexp_53 by lia. unfold shl_align.
  destruct (d - 53 - 0)%Z as [|k|k] eqn:Hk.
  - rewrite binary_round_aux_canonical.
    + eexists. split; [reflexivity|]. split; [|eauto].
      cbn. unfold bounded, canonical_mantissa. fold d.
      rewrite Z.add_0_r, fexp_53 by lia.
      replace (d - 53)%Z with 0%Z by lia. reflexivity.
    + fold d. rewrite Z.add_0_r, fexp_53 by lia. lia.
    + unfold emax, prec. lia.
  - destruct (binary_round_aux_long false p loc_Exact)
      as (sf & H & [->|(m & e & -> & Hv)]); [fold d; lia| |];
      rewrite H; eexists; (split; [reflexivity|]).
    + split; [reflexivity|auto].
    + split; [exact Hv|eauto].
  - assert (Hdz : Z.pos (digits2_pos (Pos.iter xO p k)) = 53%Z).
    { rewrite digits2_pos_iter_xO. fold d. lia. }
    rewrite binary_round_aux_canonical.
    + eexists. split; [reflexivity|]. split; [|eauto].
      cbn. unfold bounded, canonical_mantissa. rewrite Hdz.
      rewrite fexp_53 by lia.
      replace (53 + (d - 53) - 53 =? d - 53)%Z with true
        by (symmetry; apply Z.eqb_eq; lia).
      cbn. apply Z.leb_le. unfold emax, prec. lia.
    + rewrite Hdz, fexp_53 by lia. lia.
    + unfold emax, prec. lia.
Qed.

Lemma float_of_Z_pos (n : Z) :
  (0 < n)%Z ->
  Prim2SF (float_of_Z n) = S754_infinity false \/
  exists m e, Prim2SF (float_of_Z n) = S754_finite false m e.
Proof.
  intros Hn. destruct n as [|p|p]; try lia.
  destruct (binary_normalize_pos p) as (sf & Hsf & Hv & Hc).
  unfold float_of_Z. rewrite Hsf, Prim2SF_SF2Prim by exact Hv.
  exact Hc.
Qed.

Lemma Z_truediv_examples :
  Z_truediv 1 3 = (1 / 3)%float /\
  Z_truediv 2 10 = 0.2%float /\
  Z_truediv (-7) 2 = (-3.5)%float /\
  Z_truediv 0 (-5) = neg_zero /\
  Z_truediv (10 ^ 400) (10 ^ 399) = 10%float /\
  Z_truediv (2 ^ 53 + 1) 1 = 9007199254740992%float /\
  Z_truediv (2 ^ 53 + 3) 1 = 9007199254740996%float /\
  Z_truediv 1 (2 ^ 1074) = 5e-324%float /\
  Z_truediv 1 (2 ^ 1075) = 0%float /\
  Z_truediv 3 (2 ^ 1075) = 1e-323%float /\
  Z_truediv (2 ^ 1024 - 2 ^ 970 - 1) 1 = 1.7976931348623157e308%float /\
  Z_truediv (2 ^ 1024 - 2 ^ 970) 1 = infinity /\
  float_of_Z (2 ^ 1024 - 2 ^ 970 - 1) = 1.7976931348623157e308%float /\
  float_of_Z (2 ^ 1024 - 2 ^ 970) = infinity.
Proof. repeat split; vm_compute; reflexivity. Qed.

Lemma Z_truediv_same (n : Z) : (0 < n)%Z -> Z_truediv n n = 1%float.
Proof.
  intros Hn. destruct n as [|p|p]; try lia.
  unfold Z_truediv. change (Z.pos p =? 0)%Z with false.
  change (Z.pos p <? 0)%Z with false. change (Z.abs (Z.pos p)) with (Z.pos p).
  cbn [xorb]. unfold SFdiv_core_binary.
  rewrite ?Z.add_0_r, !Z.sub_diag.
  change (SpecFloat.fexp prec emax 0) with (-53)%Z.
  change (Z.min (-53) 0) with (-53)%Z.
  change (0 - -53)%Z with 53%Z. cbv iota.
  rewrite Z.shiftl_mul_pow2 by lia.
  pose proof (Z.div_eucl_eq (Z.pos p * 2 ^ 53) (Z.pos p) ltac:(lia)) as Heq.
  pose proof (Z.mod_pos_bound (Z.pos p * 2 ^ 53) (Z.pos p) ltac:(lia)) as Hb.
  unfold Z.modulo in Hb.
  destruct (Z.div_eucl (Z.pos p * 2 ^ 53) (Z.pos p)) as [q r].
  assert (Hq : q = (2 ^ 53)%Z) by nia.
  assert (Hr : r = 0%Z) by nia.
  subst q r.
  replace (new_location (Z.pos p) 0) with loc_Exact
    by (unfold new_location; destruct (Z.even (Z.pos p)); reflexivity).
  vm_compute. reflexivity.
Qed.

(** Float facts for the end points. *)
Lemma is_finite_SF (x : float) :
  PrimFloat.is_finite x = true ->
  (exists s, Prim2SF x = S754_zero s) \/ exists s m e, Prim2SF x = S754_finite s m e.
Proof.
  unfold PrimFloat.is_finite, PrimFloat.is_nan, PrimFloat.is_infinity.
  rewrite !FloatAxioms.eqb_spec, abs_spec.
  change (Prim2SF infinity) with (S754_infinity false).
  destruct (Prim2SF x) as [s|s| |s m e]; cbn; intros H; eauto 6;
    try discriminate; destruct s; discriminate.
Qed.

Lemma mul_zero_r (x : float) :
  PrimFloat.is_finite x = true -> exists s, Prim2SF (x * 0) = S754_zero s.
Proof.
  intros H. rewrite mul_spec. change (Prim2SF 0) with (S754_zero false).
  destruct (is_finite_SF x H) as [[s ->]|(s & m & e & ->)]; cbn; eauto.
Qed.

Lemma div_zero_l (z t : float) :
  (exists s, Prim2SF z = S754_zero s) ->
  (Prim2SF t = S754_infinity false \/ exists m e, Prim2SF t = S754_finite false m e) ->
  exists s, Prim2SF (z / t) = S754_zero s.
Proof.
  intros [s Hz] Ht. rewrite div_spec, Hz.
  destruct Ht as [->|(m & e & ->)]; cbn; eauto.
Qed.

Lemma sub_zero_r (x z : float) :
  PrimFloat.is_nan x = false -> (exists s, Prim2SF z = S754_zero s) ->
  PrimFloat.eqb (x - z) x = true.
Proof.
  intros Hx [s Hz]. rewrite FloatAxioms.eqb_spec, sub_spec, Hz.
  unfold PrimFloat.is_nan in Hx. rewrite FloatAxioms.eqb_spec in Hx.
  apply negb_false_iff in Hx.
  destruct (Prim2SF x) as [sx|sx| |sx m e]; cbn in *; try exact Hx.
  destruct sx, s; reflexivity.
Qed.

(** Multiplying by one is exact. *)
Lemma mul_one_r (x : float) : (x * 1)%float = x.
Proof.
  apply Prim2SF_inj. rewrite mul_spec.
  change (Prim2SF 1) with (S754_finite false 4503599627370496 (-52)).
  pose proof (Prim2SF_valid x) as Hv.
  destruct (Prim2SF x) as [s|s| |s m e]; cbn [SF64mul SFmul xorb];
    rewrite ?xorb_false_r; try reflexivity.
  cbn in Hv. unfold bounded, canonical_mantissa in Hv.
  apply andb_true_iff in Hv as [Hc He].
  apply Z.eqb_eq in Hc. apply Z.leb_le in He.
  rewrite Pos.mul_comm.
  change (4503599627370496 * m)%positive with (Pos.iter xO m 52).
  unfold binary_round_aux, shr_fexp at 1. cbn [Zdigits2].
  rewrite digits2_pos_iter_xO.
  replace (Z.pos (digits2_pos m) + 52 + (e + -52))%Z
    with (Z.pos (digits2_pos m) + e)%Z by lia.
  rewrite Hc. replace (e - (e + -52))%Z with 52%Z by lia.
  cbn [shr shr_record_of_loc].
  change (SpecFloat.iter_pos shr_1 52
            {| shr_m := Z.pos (Pos.iter xO m 52); shr_r := false; shr_s := false |})
    with {| shr_m := Z.pos m; shr_r := false; shr_s := false |}.
  cbn [shr_m loc_of_shr_record round_nearest_even].
  unfold shr_fexp. cbn [Zdigits2].
  replace (e + -52 + 52)%Z with e by lia.
  rewrite Hc, Z.sub_diag. cbn [shr shr_record_of_loc shr_m].
  apply Z.leb_le in He. rewrite He. reflexivity.
Qed.

Lemma float_int_bound_large : (2 <= float_int_bound)%Z.
Proof. apply Z.leb_le. vm_compute. reflexivity. Qed.

Lemma float_fits_iff (n : Z) :
  float_fits n = true <-> (Z.abs n < float_int_bound)%Z.
Proof. unfold float_fits. apply Z.ltb_lt. Qed.

(** The quotient of an epoch in range by [total_epoch - 1] is at most 1. *)
Lemma Z_truediv_fits_ratio (epoch total_epoch : Z) :
  (0 <= epoch < total_epoch)%Z -> (1 < total_epoch)%Z ->
  Z_truediv_fits epoch (total_epoch - 1) = true.
Proof.
  intros Hr HT. unfold Z_truediv_fits. apply Z.ltb_lt.
  pose proof float_int_bound_large. nia.
Qed.

Lemma is_finite_sub_not_nan (x y : float) :
  PrimFloat.is_finite (x - y) = true -> PrimFloat.is_nan x = false.
Proof.
  intros H. destruct (is_finite_SF _ H) as [[s Hs]|(s & m & e & Hs)];
    rewrite sub_spec in Hs; unfold PrimFloat.is_nan;
    rewrite FloatAxioms.eqb_spec;
    destruct (Prim2SF x) as [sx|sx| |sx mx ex]; try discriminate;
    try reflexivity.
  all: try (destruct sx; reflexivity).
  all: cbn; unfold SFeqb, SFcompare;
    destruct sx; rewrite Z.compare_refl, Pos.compare_cont_refl; reflexivity.
Qed.

(** ** Scheduler *)

Section SchedulerFacts.
Context {F : Type} (ops : arith F).

Lemma epoch_in_range (epoch total_epoch : Z) :
  ((0 <=? epoch) && (epoch <? total_epoch))%Z = true <->
  (0 <= epoch < total_epoch)%Z.
Proof. rewrite andb_true_iff, Z.leb_le, Z.ltb_lt. tauto. Qed.

Lemma compute_alpha_out_of_range epoch total_epoch (a_s a_e : F) lin :
  ~ (0 <= epoch < total_epoch)%Z ->
  compute_alpha ops epoch total_epoch a_s a_e lin = Raise AssertionError.
Proof.
  intros H. unfold compute_alpha.
  rewrite py_assert_false; [reflexivity|].
  apply not_true_is_false. rewrite epoch_in_range. exact H.
Qed.

Lemma compute_alpha_single_epoch (a_s a_e : F) lin :
  int_fits ops 0 = true ->
  compute_alpha ops 0 1 a_s a_e lin = Raise ZeroDivisionError.
Proof.
  intros H. destruct lin; [|reflexivity].
  unfold compute_alpha, mul_int, truediv_int, float_of_int.
  change (1 - 1)%Z with 0%Z. rewrite H. reflexivity.
Qed.

(** At epoch 0 of a single epoch the call raises, whatever converts. *)
Lemma compute_alpha_single_epoch_raises (a_s a_e : F) lin :
  raises (compute_alpha ops 0 1 a_s a_e lin).
Proof.
  destruct (int_fits ops 0) eqn:H.
  - exists ZeroDivisionError. apply compute_alpha_single_epoch. exact H.
  - destruct lin; [|exists ZeroDivisionError; reflexivity].
    exists OverflowError.
    unfold compute_alpha, mul_int, float_of_int.
    change (1 - 1)%Z with 0%Z. rewrite H. reflexivity.
Qed.

Lemma compute_alpha_linear epoch total_epoch (a_s a_e : F) :
  (0 <= epoch < total_epoch)%Z -> (1 < total_epoch)%Z ->
  int_fits ops epoch = true -> int_fits ops (total_epoch - 1) = true ->
  compute_alpha ops epoch total_epoch a_s a_e true =
  Return (fsub ops a_s
            (fdiv ops (fmul ops (fsub ops a_s a_e) (of_int ops epoch))
                      (of_int ops (total_epoch - 1)))).
Proof.
  intros Hr HT He Ht. unfold compute_alpha, mul_int, truediv_int, float_of_int.
  rewrite py_assert_true by (apply epoch_in_range; exact Hr).
  cbn. rewrite He. cbn. rewrite Ht. cbn.
  replace (total_epoch - 1 =? 0)%Z with false
    by (symmetry; apply Z.eqb_neq; lia).
  reflexivity.
Qed.

Lemma compute_alpha_linear_overflow epoch total_epoch (a_s a_e : F) :
  (0 <= epoch < total_epoch)%Z ->
  int_fits ops epoch = false \/ int_fits ops (total_epoch - 1) = false ->
  compute_alpha ops epoch total_epoch a_s a_e true = Raise OverflowError.
Proof.
  intros Hr Hov. unfold compute_alpha, mul_int, truediv_int, float_of_int.
  rewrite py_assert_true by (apply epoch_in_range; exact Hr).
  cbn. destruct (int_fits ops epoch); [|reflexivity].
  destruct Hov as [Hov|Hov]; [discriminate|]. cbn. rewrite Hov. reflexivity.
Qed.

Lemma compute_alpha_exponential epoch total_epoch (a_s a_e : F) :
  (0 <= epoch < total_epoch)%Z -> (1 < total_epoch)%Z ->
  truediv_fits ops epoch (total_epoch - 1) = true ->
  is_zero ops a_s = false ->
  compute_alpha ops epoch total_epoch a_s a_e false =
  Return (fmul ops a_s
            (fpow ops (fdiv ops a_e a_s)
               (int_truediv ops epoch (total_epoch - 1)))).
Proof.
  intros Hr HT Hf Hz. unfold compute_alpha, truediv_ints, truediv.
  rewrite py_assert_true by (apply epoch_in_range; exact Hr).
  replace (total_epoch - 1 =? 0)%Z with false
    by (symmetry; apply Z.eqb_neq; lia).
  cbn. rewrite Hf. cbn. rewrite Hz. reflexivity.
Qed.

Lemma compute_alpha_exponential_zero epoch total_epoch (a_s a_e : F) :
  (0 <= epoch < total_epoch)%Z -> (1 < total_epoch)%Z ->
  truediv_fits ops epoch (total_epoch - 1) = true ->
  is_zero ops a_s = true ->
  compute_alpha ops epoch total_epoch a_s a_e false = Raise ZeroDivisionError.
Proof.
  intros Hr HT Hf Hz. unfold compute_alpha, truediv_ints, truediv.
  rewrite py_assert_true by (apply epoch_in_range; exact Hr).
  replace (total_epoch - 1 =? 0)%Z with false
    by (symmetry; apply Z.eqb_neq; lia).
  cbn. rewrite Hf. cbn. rewrite Hz. reflexivity.
Qed.

(** Outside the precondition every call raises. *)
Lemma compute_alpha_violation epoch total_epoch (a_s a_e : F) lin :
  ~ ((0 <= epoch < total_epoch)%Z /\ (1 < total_epoch)%Z) ->
  raises (compute_alpha ops epoch total_epoch a_s a_e lin).
Proof.
  intros Hv. destruct (decide (0 <= epoch < total_epoch)%Z) as [Hr|Hr].
  - assert (epoch = 0%Z /\ total_epoch = 1%Z) as [-> ->] by lia.
    apply compute_alpha_single_epoch_raises.
  - exists AssertionError. apply compute_alpha_out_of_range. exact Hr.
Qed.
End SchedulerFacts.

Lemma R_is_zero_false (x : R) : x <> 0%R -> is_zero R_arith x = false.
Proof. intros H. cbn. destruct (Req_dec_T x 0); [contradiction|reflexivity]. Qed.

Lemma Rpower_0_r (x : R) : Rpower x 0 = 1%R.
Proof. unfold Rpower. rewrite Rmult_0_l. apply exp_0. Qed.

Lemma R_pow_0_r (x : R) : R_pow x 0 = 1%R.
Proof. unfold R_pow. destruct (Req_dec_T 0 0); [reflexivity|contradiction]. Qed.

Lemma R_pow_pos (x y : R) : (0 < x)%R -> R_pow x y = Rpower x y.
Proof.
  intros Hx. unfold R_pow. destruct (Req_dec_T y 0) as [->|Hy].
  - symmetry. apply Rpower_0_r.
  - destruct (total_order_T x 0) as [[Hlt|Heq]|Hgt]; [lra|lra|reflexivity].
Qed.

Lemma Int_part_1 : Int_part 1 = 1%Z.
Proof.
  unfold Int_part. rewrite <- (tech_up 1 2); [reflexivity|lra|lra].
Qed.

Lemma R_pow_1_r (x : R) : R_pow x 1 = x.
Proof.
  unfold R_pow. destruct (Req_dec_T 1 0) as [H|_]; [lra|].
  destruct (total_order_T x 0) as [[Hlt|Heq]|Hgt].
  - rewrite Int_part_1. destruct (Req_dec_T 1 1) as [_|H]; [|contradiction].
    apply powerRZ_1.
  - symmetry. exact Heq.
  - apply Rpower_1. exact Hgt.
Qed.

Lemma IZR_pred_nonzero (T : Z) : (1 < T)%Z -> IZR (T - 1) <> 0%R.
Proof. intros H. apply not_0_IZR. lia. Qed.

(** The literal [0.2] is the float nearest to 2/10, and [1.0] is [float(1)]. *)
Lemma decimal_float_0_2 (m : libm) : decimal (float_arith m) 2 10 = 0.2%float.
Proof. reflexivity. Qed.

Lemma of_int_float_1 (m : libm) : of_int (float_arith m) 1 = 1%float.
Proof. reflexivity. Qed.

(** In exact arithmetic the two schedules, for an epoch in range. *)
Lemma compute_alpha_linear_R (epoch T : Z) (a_s a_e : R) :
  (0 <= epoch < T)%Z -> (1 < T)%Z ->
  compute_alpha R_arith epoch T a_s a_e true
  = Return (a_s - (a_s - a_e) * IZR epoch / IZR (T - 1))%R.
Proof. intros Hr HT. apply compute_alpha_linear; auto. Qed.

Lemma compute_alpha_exponential_R (epoch T : Z) (a_s a_e : R) :
  (0 <= epoch < T)%Z -> (1 < T)%Z -> a_s <> 0%R ->
  compute_alpha R_arith epoch T a_s a_e false
  = Return (a_s * R_pow (a_e / a_s) (IZR epoch / IZR (T - 1)))%R.
Proof.
  intros Hr HT Hs. apply compute_alpha_exponential; auto.
  apply R_is_zero_false. exact Hs.
Qed.

(** In binary64, for an epoch in range and a [total_epoch - 1] that
    converts. *)
Lemma compute_alpha_linear_float (m : libm) (epoch T : Z) (a_s a_e : float) :
  (0 <= epoch < T)%Z -> (1 < T)%Z -> (T - 1 < float_int_bound)%Z ->
  compute_alpha (float_arith m) epoch T a_s a_e true
  = Return (a_s - (a_s - a_e) * float_of_Z epoch / float_of_Z (T - 1))%float.
Proof.
  intros Hr HT Hb.
  apply (compute_alpha_linear (float_arith m)); auto;
    apply float_fits_iff; lia.
Qed.

Lemma compute_alpha_exponential_float (m : libm) (epoch T : Z)
    (a_s a_e : float) :
  (0 <= epoch < T)%Z -> (1 < T)%Z -> PrimFloat.eqb a_s 0 = false ->
  compute_alpha (float_arith m) epoch T a_s a_e false
  = Return (a_s * float_pow m (a_e / a_s) (Z_truediv epoch (T - 1)))%float.
Proof.
  intros Hr HT Hs.
  apply (compute_alpha_exponential (float_arith m)); auto.
  apply Z_truediv_fits_ratio; assumption.
Qed.

Lemma sub_zero_r_finite (x z : float) :
  (exists s m e, Prim2SF x = S754_finite s m e) ->
  (exists s, Prim2SF z = S754_zero s) ->
  (x - z)%float = x.
Proof.
  intros (s & m & e & Hx) [sz Hz]. apply Prim2SF_inj.
  rewrite sub_spec, Hz, Hx. reflexivity.
Qed.

Lemma Z_truediv_zero (b : Z) : (0 < b)%Z -> Z_truediv 0 b = 0%float.
Proof.
  intros Hb. unfold Z_truediv. cbn [Z.eqb Z.ltb Z.compare xorb].
  replace (b <? 0)%Z with false by (symmetry; apply Z.ltb_ge; lia).
  reflexivity.
Qed.

(** *** Endpoints and interpolation ([compute_alpha]) *)

(** C1, as stated, fails.  In the arithmetic the code runs on, at the last
    of five epochs the linear schedule from 1.0 to 0.2 returns
    [1.0 - 0.8 = 0.19999999999999996], which is not [== 0.2]; in exponential
    mode the end point is rounded too ([49 * (1/49)] is not 1, whatever a
    correct [pow] returns).  In exponential mode a zero [alpha_start] has
    no end points at all: the call raises [ZeroDivisionError], in real
    arithmetic as in binary64.  And in binary64 the start point of the
    linear mode is not met for every [T > 1] and every pair of floats: a
    [T - 1] out of the floats' range raises [OverflowError], and when
    [alpha_start - alpha_end] overflows the result is NaN. *)
Lemma compute_alpha_last_epoch_inexact :
  (forall m, compute_alpha (float_arith m) 4 5 1%float 0.2%float true
             = Return 0.19999999999999996%float) /\
  PrimFloat.eqb 0.19999999999999996%float 0.2%float = false /\
  (forall m, libm_pow m (1 / 49)%float 1%float = (1 / 49)%float ->
             compute_alpha (float_arith m) 4 5 49%float 1%float false
             = Return 0.9999999999999999%float) /\
  PrimFloat.eqb 0.9999999999999999%float 1%float = false /\
  compute_alpha R_arith 0 5 0%R (2 / 10)%R false = Raise ZeroDivisionError /\
  compute_alpha R_arith 4 5 0%R (2 / 10)%R false = Raise ZeroDivisionError /\
  (forall m, compute_alpha (float_arith m) 0 5 0%float 0.2%float false
             = Raise ZeroDivisionError) /\
  (forall m, compute_alpha (float_arith m) 4 5 0%float 0.2%float false
             = Raise ZeroDivisionError) /\
  (forall m, compute_alpha (float_arith m) 0 (2 ^ 1024 + 1) 1%float 0.2%float
               true
             = Raise OverflowError) /\
  (forall m, compute_alpha (float_arith m) 0 5 1e308%float (-1e308)%float true
             = Return nan).
Proof.
  split; [intros m; vm_compute; reflexivity|].
  split; [reflexivity|].
  split.
  { intros m H.
    rewrite compute_alpha_exponential_float by (try lia; reflexivity).
    unfold float_pow.
    replace (Z_truediv 4 (5 - 1)) with 1%float by reflexivity.
    replace (PrimFloat.eqb 1 0) with false by reflexivity.
    rewrite H. vm_compute. reflexivity. }
  split; [reflexivity|].
  assert (Hz : is_zero R_arith 0%R = true)
    by (cbn; destruct (Req_dec_T 0 0); [reflexivity|contradiction]).
  split; [apply (compute_alpha_exponential_zero R_arith); try lia;
          try reflexivity; exact Hz|].
  split; [apply (compute_alpha_exponential_zero R_arith); try lia;
          try reflexivity; exact Hz|].
  repeat split; intros m; vm_compute; reflexivity.
Qed.

(** C1 (amended): the linear mode is the linear interpolation between
    [alpha_start] at epoch 0 and [alpha_end] at epoch [T-1], and for every
    [T > 1] both end points are met exactly in real arithmetic, in linear
    mode and, for an [alpha_start] that is not zero, in exponential mode.
    In binary64 the linear schedule is the same expression with every
    operation rounded; the start point is met exactly in both modes, for every [T]
    whose [T-1] converts and a finite [alpha_start - alpha_end] in linear
    mode, for a non-zero [alpha_start] in exponential mode; the scenario
    gives exactly 1.0 at epoch 0 and 0.6 at epoch 2; the end point is met
    up to rounding only: the scenario gives 0.19999999999999996 at epoch 4
    in linear mode, and 0.2 in exponential mode (for every [T], when libm's
    [pow(0.2, 1.0)] is 0.2). *)
Theorem compute_alpha_endpoints (T : Z) (a_s a_e : R) (m : libm)
    (x_s x_e : float) :
  (1 < T)%Z ->
  (forall epoch, (0 <= epoch < T)%Z ->
     compute_alpha R_arith epoch T a_s a_e true
     = Return (a_s + (a_e - a_s) * (IZR epoch / IZR (T - 1)))%R) /\
  compute_alpha R_arith 0 T a_s a_e true = Return a_s /\
  compute_alpha R_arith (T - 1) T a_s a_e true = Return a_e /\
  (a_s <> 0%R -> compute_alpha R_arith 0 T a_s a_e false = Return a_s) /\
  (a_s <> 0%R -> compute_alpha R_arith (T - 1) T a_s a_e false = Return a_e) /\
  (forall epoch, (0 <= epoch < T)%Z -> (T - 1 < float_int_bound)%Z ->
     compute_alpha (float_arith m) epoch T x_s x_e true
     = Return (x_s - (x_s - x_e) * float_of_Z epoch / float_of_Z (T - 1))%float) /\
  compute_alpha R_arith 0 5 1%R (decimal R_arith 2 10) true = Return 1%R /\
  compute_alpha R_arith 4 5 1%R (decimal R_arith 2 10) true = Return (2 / 10)%R /\
  compute_alpha R_arith 2 5 1%R (decimal R_arith 2 10) true = Return (6 / 10)%R /\
  (forall m, compute_alpha (float_arith m) 0 5 1%float 0.2%float true = Return 1%float) /\
  (forall m, compute_alpha (float_arith m) 2 5 1%float 0.2%float true = Return 0.6%float) /\
  (forall m, compute_alpha (float_arith m) 4 5 1%float 0.2%float true
             = Return 0.19999999999999996%float) /\
  (forall m, compute_alpha (float_arith m) 0 5 1%float 0.2%float false = Return 1%float) /\
  (forall m, libm_pow m 0.2%float 1%float = 0.2%float ->
             compute_alpha (float_arith m) 4 5 1%float 0.2%float false = Return 0.2%float) /\
  ((T - 1 < float_int_bound)%Z -> PrimFloat.is_finite (x_s - x_e) = true ->
   exists v, compute_alpha (float_arith m) 0 T x_s x_e true = Return v /\
             PrimFloat.eqb v x_s = true) /\
  ((T - 1 < float_int_bound)%Z ->
   compute_alpha (float_arith m) 0 T 1%float 0.2%float true = Return 1%float) /\
  (PrimFloat.eqb x_s 0 = false ->
   compute_alpha (float_arith m) 0 T x_s x_e false = Return x_s) /\
  (libm_pow m 0.2%float 1%float = 0.2%float ->
   compute_alpha (float_arith m) (T - 1) T 1%float 0.2%float false
   = Return 0.2%float).
Proof.
  intros HT.
  pose proof (IZR_pred_nonzero T HT) as Hnz.
  assert (Hlin : forall epoch, (0 <= epoch < T)%Z ->
     compute_alpha R_arith epoch T a_s a_e true
     = Return (a_s + (a_e - a_s) * (IZR epoch / IZR (T - 1)))%R).
  { intros epoch Hr. rewrite compute_alpha_linear_R by assumption.
    f_equal. field. exact Hnz. }
  split; [exact Hlin|].
  split. { rewrite Hlin by lia. f_equal. unfold Rdiv. rewrite Rmult_0_l. lra. }
  split. { rewrite Hlin by lia. f_equal. field. exact Hnz. }
  split.
  { intros Hs. rewrite compute_alpha_exponential_R by (try lia; exact Hs).
    f_equal. unfold Rdiv at 2. rewrite Rmult_0_l, R_pow_0_r. lra. }
  split.
  { intros Hs. rewrite compute_alpha_exponential_R by (try lia; exact Hs).
    f_equal.
    replace (IZR (T - 1) / IZR (T - 1))%R with 1%R by (field; exact Hnz).
    rewrite R_pow_1_r. field. exact Hs. }
  split.
  { intros epoch Hr Hb. apply compute_alpha_linear_float; assumption. }
  split. { rewrite compute_alpha_linear_R by lia. cbn. change (5 - 1)%Z with 4%Z. f_equal. lra. }
  split. { rewrite compute_alpha_linear_R by lia. cbn. change (5 - 1)%Z with 4%Z. f_equal. lra. }
  split. { rewrite compute_alpha_linear_R by lia. cbn. change (5 - 1)%Z with 4%Z. f_equal. lra. }
  split. { intros m'. vm_compute. reflexivity. }
  split. { intros m'. vm_compute. reflexivity. }
  split. { intros m'. vm_compute. reflexivity. }
  split. { intros m'. vm_compute. reflexivity. }
  split.
  { intros m' Hpow.
    rewrite compute_alpha_exponential_float by (try lia; reflexivity).
    unfold float_pow.
    replace (Z_truediv 4 (5 - 1)) with 1%float by reflexivity.
    replace (0.2 / 1)%float with 0.2%float by reflexivity.
    replace (PrimFloat.eqb 1 0) with false by reflexivity.
    rewrite Hpow. reflexivity. }
  assert (Ht : Prim2SF (float_of_Z (T - 1)) = S754_infinity false \/
               exists mt et, Prim2SF (float_of_Z (T - 1)) = S754_finite false mt et)
    by (apply float_of_Z_pos; lia).
  split.
  { intros Hb Hfin. rewrite compute_alpha_linear_float by (try lia; exact Hb).
    eexists. split; [reflexivity|].
    apply sub_zero_r; [apply (is_finite_sub_not_nan _ _ Hfin)|].
    apply div_zero_l; [|exact Ht].
    change (float_of_Z 0) with 0%float. apply mul_zero_r. exact Hfin. }
  split.
  { intros Hb. rewrite compute_alpha_linear_float by (try lia; exact Hb).
    f_equal. apply sub_zero_r_finite.
    - exists false, 4503599627370496%positive, (-52)%Z. reflexivity.
    - apply div_zero_l; [|exact Ht].
      change (float_of_Z 0) with 0%float. apply mul_zero_r. reflexivity. }
  split.
  { intros Hs. rewrite compute_alpha_exponential_float by (try lia; exact Hs).
    rewrite Z_truediv_zero by lia. unfold float_pow.
    replace (PrimFloat.eqb 0 0) with true by reflexivity.
    rewrite mul_one_r. reflexivity. }
  intros Hpow.
  rewrite compute_alpha_exponential_float by (try lia; reflexivity).
  rewrite Z_truediv_same by lia. unfold float_pow.
  replace (0.2 / 1)%float with 0.2%float by reflexivity.
  replace (PrimFloat.eqb 1 0) with false by reflexivity.
  rewrite Hpow. reflexivity.
Qed.

Lemma compute_alpha_endpoints_witness :
  (1 < 5)%Z /\
  compute_alpha R_arith (5 - 1) 5 1%R (2 / 10)%R true = Return (2 / 10)%R /\
  compute_alpha (float_arith libm_absent) 0 5 1%float 0.2%float false
  = Return 1%float.
Proof.
  split; [lia|].
  pose proof (compute_alpha_endpoints 5 1%R (2 / 10)%R libm_absent 1%float
                0.2%float ltac:(lia)) as H.
  split; [exact (proj1 (proj2 (proj2 H)))|].
  apply H. reflexivity.
Defined.

(** *** Task probabilities ([get_task_probs]) *)

Lemma fold_left_Rplus (xs : list R) (a : R) :
  fold_left Rplus xs a = (a + Rsum xs)%R.
Proof.
  revert a. induction xs as [|x xs IH]; intros a; cbn.
  - lra.
  - rewrite IH. lra.
Qed.

Lemma sum_seq_R (xs : list R) : sum_seq R_arith xs = Rsum xs.
Proof. unfold sum_seq. cbn. rewrite fold_left_Rplus. lra. Qed.

Lemma Rsum_app (xs ys : list R) : Rsum (xs ++ ys) = (Rsum xs + Rsum ys)%R.
Proof. induction xs as [|x xs IH]; cbn; [lra|]. rewrite IH. lra. Qed.

Lemma Rsum_take_drop (n : nat) (xs : list R) :
  (Rsum (take n xs) + Rsum (drop n xs))%R = Rsum xs.
Proof. rewrite <- Rsum_app, take_drop. reflexivity. Qed.

Lemma Rsum_zip_with_plus (r x : list R) :
  length r = length x -> Rsum (zip_with Rplus r x) = (Rsum r + Rsum x)%R.
Proof.
  revert x. induction r as [|a r IH]; intros [|b x] H; cbn in *;
    try discriminate; [lra|].
  rewrite IH by lia. lra.
Qed.

Lemma half_block_bounds (n : nat) :
  128 < n ->
  0 < n / 2 - (n / 2) mod 8 /\ n / 2 - (n / 2) mod 8 < n /\
  n - (n / 2 - (n / 2) mod 8) < n.
Proof.
  intros H.
  pose proof (Nat.div_mod_eq n 2) as H2.
  pose proof (Nat.mod_upper_bound n 2 ltac:(lia)) as H2'.
  pose proof (Nat.mod_upper_bound (n / 2) 8 ltac:(lia)) as H8.
  lia.
Qed.

Lemma full_blocks_bound (n : nat) : 8 <= n -> 8 * (n / 8 - 1) <= n - 8.
Proof. intros H. pose proof (Nat.div_mod_eq n 8) as H8. lia. Qed.

(** The length of the array is fuel enough for the pairwise sum. *)
Lemma pairwise_sum_fuel {F} (ops : arith F) (f1 f2 : nat) (a : list F) :
  length a <= f1 -> length a <= f2 ->
  pairwise_sum ops f1 a = pairwise_sum ops f2 a.
Proof.
  revert f2 a. induction f1 as [|f1 IH]; intros f2 a H1 H2.
  - destruct a; [|cbn in H1; lia]. destruct f2; reflexivity.
  - destruct f2 as [|f2]; [destruct a; [reflexivity|cbn in H2; lia]|].
    cbn [pairwise_sum].
    destruct (length a <? 8) eqn:E8; [reflexivity|].
    destruct (length a <=? 128) eqn:E128; [reflexivity|].
    apply Nat.leb_gt in E128.
    destruct (half_block_bounds (length a) E128) as (Hp & Hl & Hr).
    f_equal; apply IH; rewrite ?length_take, ?length_drop; lia.
Qed.

Lemma sum_lanes_R (k : nat) (r a : list R) :
  length r = 8 -> 8 * k <= length a ->
  length (sum_lanes R_arith k r a).1 = 8 /\
  (Rsum (sum_lanes R_arith k r a).1 + Rsum (sum_lanes R_arith k r a).2
   = Rsum r + Rsum a)%R.
Proof.
  revert r a. induction k as [|k IH]; intros r a Hr Ha; cbn [sum_lanes].
  - split; [exact Hr|reflexivity].
  - assert (Ht : length (take 8 a) = 8) by (rewrite length_take; lia).
    destruct (IH (zip_with (fadd R_arith) r (take 8 a)) (drop 8 a)) as [Hl Hs].
    + rewrite length_zip_with. lia.
    + rewrite length_drop. lia.
    + split; [exact Hl|]. rewrite Hs. cbn [fadd R_arith].
      rewrite Rsum_zip_with_plus by lia.
      rewrite <- (Rsum_take_drop 8 a). lra.
Qed.

Lemma sum_tree_R (r : list R) : length r = 8 -> sum_tree R_arith r = Rsum r.
Proof.
  intros H. do 9 (destruct r as [|? r]; try discriminate). cbn. lra.
Qed.

Lemma sum_block_R (a : list R) : 8 <= length a -> sum_block R_arith a = Rsum a.
Proof.
  intros H. unfold sum_block.
  destruct (sum_lanes_R (length a / 8 - 1) (take 8 a) (drop 8 a)) as [Hl Hs].
  - rewrite length_take. lia.
  - rewrite length_drop. apply full_blocks_bound. exact H.
  - destruct (sum_lanes R_arith (length a / 8 - 1) (take 8 a) (drop 8 a))
      as [r rest]. cbn [fst snd] in Hl, Hs.
    cbn [fadd R_arith]. rewrite fold_left_Rplus, sum_tree_R by exact Hl.
    rewrite Hs. apply Rsum_take_drop.
Qed.

Lemma pairwise_sum_R (fuel : nat) (a : list R) :
  pairwise_sum R_arith fuel a = Rsum a.
Proof.
  revert a. induction fuel as [|fuel IH]; intros a; cbn [pairwise_sum];
    destruct (length a <? 8) eqn:E8; try apply sum_seq_R;
    apply Nat.ltb_ge in E8;
    destruct (length a <=? 128); try (apply sum_block_R; exact E8).
  rewrite !IH. cbn [fadd R_arith]. apply Rsum_take_drop.
Qed.

Lemma np_sum_R (xs : list R) : np_sum R_arith xs = Rsum xs.
Proof. unfold np_sum. rewrite pairwise_sum_R. cbn. lra. Qed.

(** Below 8 entries numpy's sum is the sum in index order. *)
Lemma np_sum_short {F} (ops : arith F) (xs : list F) :
  length xs < 8 -> np_sum ops xs = fadd ops (of_int ops 0) (sum_seq ops xs).
Proof.
  intros H. unfold np_sum. destruct xs as [|x xs]; [reflexivity|].
  cbn [length pairwise_sum].
  replace (S (length xs) <? 8) with true
    by (symmetry; apply Nat.ltb_lt; exact H).
  reflexivity.
Qed.


Lemma Rsum_pos (xs : list R) :
  xs <> [] -> Forall (fun x => (0 < x)%R) xs -> (0 < Rsum xs)%R.
Proof.
  intros Hne H. destruct xs as [|x xs]; [contradiction|].
  inversion H as [|? ? Hx Hxs]; subst. cbn.
  assert (0 <= Rsum xs)%R.
  { clear -Hxs. induction Hxs; cbn; lra. }
  lra.
Qed.



Lemma scaled_positive (alpha : R) (sizes : list Z) :
  Forall (fun x => (0 < x)%R) (map (fun s => Rpower (IZR s) alpha) sizes).
Proof.
  apply Forall_map, Forall_forall. intros s _. unfold Rpower. apply exp_pos.
Qed.

Lemma get_task_probs_R (alpha : R) (sizes : list Z) :
  Forall (fun s => (0 < s)%Z) sizes ->
  get_task_probs R_arith alpha sizes =
  map (fun x => x / Rsum (map (fun s => Rpower (IZR s) alpha) sizes))%R
      (map (fun s => Rpower (IZR s) alpha) sizes).
Proof.
  intros Hpos. unfold get_task_probs. rewrite np_sum_R.
  cbn [fpow of_int fdiv R_arith].
  assert (H : map (fun s => R_pow (IZR s) alpha) sizes
              = map (fun s => Rpower (IZR s) alpha) sizes).
  { clear -Hpos. induction Hpos as [|s l Hs _ IH]; [reflexivity|]. cbn.
    rewrite IH, R_pow_pos by (apply IZR_lt; exact Hs). reflexivity. }
  rewrite H. reflexivity.
Qed.




(** ** Layers and heads *)

Section LayerShapes.
Context {F : Type} (ops : arith F) {rng : Type}.
Variable uniform : rng -> F * rng.
Variable bernoulli : F -> rng -> bool * rng.

Lemma rand_vector_length n g : length (rand_vector uniform n g).1 = n.
Proof.
  revert g. induction n as [|n IH]; intros g; cbn; [reflexivity|].
  destruct (uniform g) as [x g1]. specialize (IH g1).
  destruct (rand_vector uniform n g1) as [xs g2]. cbn in IH |- *. lia.
Qed.

Lemma rand_matrix_shape rows cols g :
  shape2 rows cols (rand_matrix uniform rows cols g).1.
Proof.
  revert g. induction rows as [|rows IH]; intros g; cbn.
  - split; [reflexivity|constructor].
  - pose proof (rand_vector_length cols g) as Hv.
    destruct (rand_vector uniform cols g) as [r g1].
    specialize (IH g1).
    destruct (rand_matrix uniform rows cols g1) as [rs g2].
    destruct IH as [Hl Hr]. cbn in Hv, Hl, Hr |- *. split; [cbn; lia|].
    constructor; assumption.
Qed.

Lemma Linear_new_shaped inf outf g :
  let l := (Linear_new uniform inf outf g).1 in
  head_shaped inf outf l /\
  requires_grad (weight l) = true /\ requires_grad (bias l) = true.
Proof.
  unfold Linear_new.
  pose proof (rand_matrix_shape outf inf g) as Hm.
  destruct (rand_matrix uniform outf inf g) as [w g1].
  pose proof (rand_vector_length outf g1) as Hb.
  destruct (rand_vector uniform outf g1) as [b g2].
  cbn in Hm, Hb |- *. unfold head_shaped, linear_shaped. cbn. auto.
Qed.

Lemma Linear_forward_shape (l : Linear F) (x : list (list F)) :
  linear_shaped l -> Forall (fun row => length row = in_features l) x ->
  exists y, Linear_forward ops l x = Return y /\
            shape2 (length x) (out_features l) y.
Proof.
  intros [[Hw _] Hb] Hx. unfold Linear_forward.
  replace (forallb (fun row => length row =? in_features l) x) with true.
  2:{ symmetry. apply forallb_forall. intros row Hin.
      apply Nat.eqb_eq. rewrite Forall_forall in Hx. apply Hx.
      apply list_elem_of_In. exact Hin. }
  eexists. split; [reflexivity|]. split.
  - apply length_map.
  - apply Forall_map, Forall_forall. intros row _. cbn.
    rewrite length_zip_with, length_map. lia.
Qed.

Lemma dropout_vec_length p xs g :
  length (dropout_vec ops bernoulli p xs g).1 = length xs.
Proof.
  revert g. induction xs as [|x xs IH]; intros g; cbn; [reflexivity|].
  destruct (bernoulli _ g) as [keep g1]. specialize (IH g1).
  destruct (dropout_vec ops bernoulli p xs g1) as [r g2]. cbn in IH |- *. lia.
Qed.

Lemma dropout_mat_shape p B W x g :
  shape2 B W x -> shape2 B W (dropout_mat ops bernoulli p x g).1.
Proof.
  revert B g. induction x as [|row x IH]; intros B g [Hl Hr]; cbn.
  - split; [exact Hl|constructor].
  - pose proof (dropout_vec_length p row g) as Hv.
    destruct (dropout_vec ops bernoulli p row g) as [row' g1].
    inversion Hr as [|? ? Hrow Hrest]; subst.
    destruct (IH (length x) g1 (conj eq_refl Hrest)) as [Hl' Hr'].
    destruct (dropout_mat ops bernoulli p x g1) as [rest' g2].
    cbn in Hv, Hl', Hr' |- *. split; [cbn; lia|]. constructor; [lia|exact Hr'].
Qed.

Lemma Dropout_forward_shape {tensor} (m : MultitaskBERT F tensor) B W x g :
  shape2 B W x -> shape2 B W (Dropout_forward ops bernoulli m x g).1.
Proof.
  intros H. unfold Dropout_forward. destruct (training m); [|exact H].
  apply dropout_mat_shape. exact H.
Qed.

Lemma cat_dim1_shape B W1 W2 (a b : list (list F)) :
  shape2 B W1 a -> shape2 B W2 b ->
  exists c, cat_dim1 a b = Return c /\ shape2 B (W1 + W2) c.
Proof.
  intros [Hla Hra] [Hlb Hrb]. unfold cat_dim1.
  replace (length a =? length b) with true
    by (symmetry; apply Nat.eqb_eq; lia).
  eexists. split; [reflexivity|]. split.
  - rewrite length_zip_with. lia.
  - clear Hla Hlb. revert b Hrb.
    induction Hra as [|r a Hr _ IH]; intros b Hrb; [constructor|].
    destruct Hrb as [|r' b Hr' Hrb]; [constructor|].
    cbn. constructor; [rewrite length_app; lia|apply IH; exact Hrb].
Qed.

Lemma squeeze_last_vector B (t : list (list F)) :
  shape2 B 1 t -> exists v, squeeze_last 1 t = Vec v /\ length v = B.
Proof.
  intros [Hl Hr]. exists (concat t). split; [reflexivity|].
  subst B. induction Hr as [|r t Hrow _ IH]; [reflexivity|].
  cbn. rewrite length_app, IH, Hrow. reflexivity.
Qed.
End LayerShapes.

Section Heads.
Context {F : Type} (ops : arith F) {rng tensor : Type}.
Variable BertModel :
  list (nn_Parameter tensor) -> bool -> list (list Z) -> list (list Z) -> rng ->
  BertOutput F * rng.
Variable uniform : rng -> F * rng.
Variable bernoulli : F -> rng -> bool * rng.

Lemma init_returns (config : Config F)
    (pretrained : list (nn_Parameter tensor)) g
    (m : MultitaskBERT F tensor) g1 :
  MultitaskBERT_init ops uniform config pretrained g = Return (m, g1) ->
  (fine_tune_mode config = "last-linear-layer"
   \/ fine_tune_mode config = "full-model")%string /\
  bert m = map (set_fine_tune_mode (fine_tune_mode config)) pretrained /\
  m_num_labels m = num_labels config /\
  siamese m = cfg_siamese config /\
  training m = true /\
  model_shaped (hidden_size config) m /\
  Forall (fun nl => requires_grad (weight nl.2) = true /\
                    requires_grad (bias nl.2) = true) (named_heads m) /\
  dropout m = hidden_dropout_prob config /\
  Dropout_new ops (hidden_dropout_prob config)
  = Return (hidden_dropout_prob config).
Proof using ops uniform.
  clear BertModel bernoulli.
  unfold MultitaskBERT_init. intros H.
  destruct (String.eqb (fine_tune_mode config) "last-linear-layer"
            || String.eqb (fine_tune_mode config) "full-model") eqn:Hmode;
    [|discriminate].
  cbn in H.
  assert (Hp : Dropout_new ops (hidden_dropout_prob config)
               = Return (hidden_dropout_prob config)).
  { unfold Dropout_new in *.
    destruct (fgtb ops (of_int ops 0) (hidden_dropout_prob config)
              || fgtb ops (hidden_dropout_prob config) (of_int ops 1));
      [discriminate|reflexivity]. }
  rewrite Hp in H. cbn in H.
  pose proof (Linear_new_shaped uniform (hidden_size config)
                (num_labels config) g) as H1.
  destruct (Linear_new uniform (hidden_size config) (num_labels config) g)
    as [sst g2].
  pose proof (Linear_new_shaped uniform (hidden_size config) 1 g2) as H2.
  destruct (Linear_new uniform (hidden_size config) 1 g2) as [para g3].
  pose proof (Linear_new_shaped uniform (hidden_size config * 2) 1 g3) as H3.
  destruct (Linear_new uniform (hidden_size config * 2) 1 g3) as [para_s g4].
  pose proof (Linear_new_shaped uniform (hidden_size config) 1 g4) as H4.
  destruct (Linear_new uniform (hidden_size config) 1 g4) as [sts g5].
  pose proof (Linear_new_shaped uniform (hidden_size config * 2) 1 g5) as H5.
  destruct (Linear_new uniform (hidden_size config * 2) 1 g5) as [sts_s g6].
  cbn in H1, H2, H3, H4, H5, H. injection H as <- <-. cbn.
  split.
  { apply orb_true_iff in Hmode. destruct Hmode as [E|E];
      apply String.eqb_eq in E; auto. }
  do 4 (split; [reflexivity|]).
  split; [unfold model_shaped; cbn; tauto|].
  split; [repeat constructor; cbn; tauto|].
  split; [reflexivity|exact Hp].
Qed.

Lemma init_rejects_mode (config : Config F)
    (pretrained : list (nn_Parameter tensor)) g :
  fine_tune_mode config <> "last-linear-layer"%string ->
  fine_tune_mode config <> "full-model"%string ->
  MultitaskBERT_init ops uniform config pretrained g = Raise AssertionError.
Proof.
  intros H1 H2. unfold MultitaskBERT_init.
  apply String.eqb_neq in H1, H2. rewrite H1, H2. reflexivity.
Qed.

Lemma init_accepts (config : Config F)
    (pretrained : list (nn_Parameter tensor)) g :
  fine_tune_mode config = "last-linear-layer"%string \/
  fine_tune_mode config = "full-model"%string ->
  fgtb ops (of_int ops 0) (hidden_dropout_prob config)
  || fgtb ops (hidden_dropout_prob config) (of_int ops 1) = false ->
  returns (MultitaskBERT_init ops uniform config pretrained g).
Proof using ops uniform.
  clear BertModel bernoulli.
  intros Hmode Hp. unfold MultitaskBERT_init, Dropout_new.
  replace (String.eqb (fine_tune_mode config) "last-linear-layer"
           || String.eqb (fine_tune_mode config) "full-model") with true.
  2:{ symmetry. apply orb_true_iff. destruct Hmode as [E|E]; rewrite E; auto. }
  rewrite Hp. cbn.
  destruct (Linear_new uniform (hidden_size config) (num_labels config) g)
    as [sst g2].
  destruct (Linear_new uniform (hidden_size config) 1 g2) as [para g3].
  destruct (Linear_new uniform (hidden_size config * 2) 1 g3) as [para_s g4].
  destruct (Linear_new uniform (hidden_size config) 1 g4) as [sts g5].
  destruct (Linear_new uniform (hidden_size config * 2) 1 g5) as [sts_s g6].
  eexists. reflexivity.
Qed.

Lemma init_rejects_dropout (config : Config F)
    (pretrained : list (nn_Parameter tensor)) g :
  fine_tune_mode config = "last-linear-layer"%string \/
  fine_tune_mode config = "full-model"%string ->
  fgtb ops (of_int ops 0) (hidden_dropout_prob config)
  || fgtb ops (hidden_dropout_prob config) (of_int ops 1) = true ->
  MultitaskBERT_init ops uniform config pretrained g = Raise ValueError.
Proof using ops uniform.
  clear BertModel bernoulli.
  intros Hmode Hp. unfold MultitaskBERT_init, Dropout_new.
  replace (String.eqb (fine_tune_mode config) "last-linear-layer"
           || String.eqb (fine_tune_mode config) "full-model") with true.
  2:{ symmetry. apply orb_true_iff. destruct Hmode as [E|E]; rewrite E; auto. }
  rewrite Hp. reflexivity.
Qed.

Lemma set_training_shaped H b (m : MultitaskBERT F tensor) :
  model_shaped H m -> model_shaped H (set_training b m).
Proof. intros Hm. exact Hm. Qed.

Lemma predict_sentiment_shape H (m : MultitaskBERT F tensor) ids mask g :
  model_shaped H m -> encoder_contract BertModel H ->
  exists t g', predict_sentiment ops BertModel bernoulli m ids mask g
               = Return (t, g') /\
               shape2 (length ids) (m_num_labels m) t.
Proof.
  intros [[Hin [Hout Hsh]] _] Henc. unfold predict_sentiment, forward.
  specialize (Henc (bert m) (training m) ids mask g).
  destruct (BertModel (bert m) (training m) ids mask g) as [out g1].
  cbn in Henc.
  pose proof (Dropout_forward_shape ops bernoulli m _ _ _ g1 Henc) as Hd.
  destruct (Dropout_forward ops bernoulli m (pooler_output out) g1)
    as [d g2]. cbn in Hd. destruct Hd as [Hdl Hdr].
  destruct (Linear_forward_shape ops (sst_dense m) d Hsh) as [y [Hy Hys]].
  { rewrite Hin. exact Hdr. }
  rewrite Hy. cbn. exists y, g2. split; [reflexivity|].
  rewrite Hdl, Hout in Hys. exact Hys.
Qed.

Lemma predict_paraphrase_pair (m : MultitaskBERT F tensor) :
  predict_paraphrase ops BertModel bernoulli m
  = predict_pair ops BertModel bernoulli m (para_dense m)
                 (para_dense_siamese m).
Proof. reflexivity. Qed.

Lemma predict_similarity_pair (m : MultitaskBERT F tensor) :
  predict_similarity ops BertModel bernoulli m
  = predict_pair ops BertModel bernoulli m (sts_dense m)
                 (sts_dense_siamese m).
Proof. reflexivity. Qed.

Lemma predict_pair_shape H (m : MultitaskBERT F tensor) dense dense_siamese
    ids1 mask1 ids2 mask2 g :
  head_shaped H 1 dense -> head_shaped (H * 2) 1 dense_siamese ->
  encoder_contract BertModel H -> length ids1 = length ids2 ->
  exists v g', predict_pair ops BertModel bernoulli m dense dense_siamese
                 ids1 mask1 ids2 mask2 g = Return (Vec v, g') /\
               length v = length ids1.
Proof.
  intros [Hin [Hout Hsh]] [Hin' [Hout' Hsh']] Henc Hlen.
  unfold predict_pair, forward. destruct (siamese m); cbn [negb].
  - pose proof (Henc (bert m) (training m) ids1 mask1 g) as He1.
    destruct (BertModel (bert m) (training m) ids1 mask1 g) as [out1 g1].
    pose proof (Henc (bert m) (training m) ids2 mask2 g1) as He2.
    destruct (BertModel (bert m) (training m) ids2 mask2 g1) as [out2 g2].
    cbn in He1, He2. rewrite <- Hlen in He2.
    destruct (cat_dim1_shape _ _ _ _ _ He1 He2) as [c [Hc Hcs]].
    rewrite Hc. cbn.
    pose proof (Dropout_forward_shape ops bernoulli m _ _ _ g2 Hcs) as Hd.
    destruct (Dropout_forward ops bernoulli m c g2) as [d g3].
    cbn in Hd. destruct Hd as [Hdl Hdr].
    destruct (Linear_forward_shape ops dense_siamese d Hsh') as [y [Hy Hys]].
    { rewrite Hin'. replace (H * 2) with (H + H) by lia. exact Hdr. }
    rewrite Hy. cbn. rewrite Hout' in Hys |- *.
    destruct (squeeze_last_vector _ y Hys) as [v [Hv Hvl]].
    rewrite Hv. exists v, g3. split; [reflexivity|]. lia.
  - pose proof (Henc (bert m) (training m) ids1 mask1 g) as He1.
    destruct (BertModel (bert m) (training m) ids1 mask1 g) as [out1 g1].
    cbn in He1.
    pose proof (Dropout_forward_shape ops bernoulli m _ _ _ g1 He1) as Hd.
    destruct (Dropout_forward ops bernoulli m (pooler_output out1) g1)
      as [d g2].
    cbn in Hd. destruct Hd as [Hdl Hdr].
    destruct (Linear_forward_shape ops dense d Hsh) as [y [Hy Hys]].
    { rewrite Hin. exact Hdr. }
    rewrite Hy. cbn. rewrite Hout in Hys |- *.
    destruct (squeeze_last_vector _ y Hys) as [v [Hv Hvl]].
    rewrite Hv. exists v, g2. split; [reflexivity|]. lia.
Qed.
End Heads.

Lemma toy_bert_contract : encoder_contract toy_bert 2.
Proof.
  intros ps tr ids mask g. cbn. split.
  - apply length_map.
  - apply Forall_map, Forall_forall. intros row _. reflexivity.
Qed.

(** *** Output shapes *)

(** C8: for a model built by the constructor and a batch of [B] sequences
    (pairs of sequences for the paired tasks), [predict_sentiment] returns
    a [B x num_labels] tensor of logits, that is [B x 5] for the five
    sentiment classes, and [predict_paraphrase], [predict_similarity] return
    a vector of length [B], whatever the encoding mode of the configuration
    and in training as in evaluation mode. *)
Theorem head_output_shapes {F : Type} (ops : arith F) {rng tensor : Type}
    (BertModel : list (nn_Parameter tensor) -> bool -> list (list Z) ->
                 list (list Z) -> rng -> BertOutput F * rng)
    (uniform : rng -> F * rng) (bernoulli : F -> rng -> bool * rng)
    (config : Config F) (pretrained : list (nn_Parameter tensor))
    (g0 g1 : rng) (m : MultitaskBERT F tensor) (tr : bool)
    (ids1 mask1 ids2 mask2 : list (list Z)) (g : rng) (B : nat) :
  MultitaskBERT_init ops uniform config pretrained g0 = Return (m, g1) ->
  encoder_contract BertModel (hidden_size config) ->
  length ids1 = B -> length ids2 = B ->
  (exists t g', predict_sentiment ops BertModel bernoulli (set_training tr m)
                  ids1 mask1 g = Return (t, g') /\
                shape2 B (num_labels config) t /\
                (num_labels config = N_SENTIMENT_CLASSES -> shape2 B 5 t)) /\
  (exists v g', predict_paraphrase ops BertModel bernoulli (set_training tr m)
                  ids1 mask1 ids2 mask2 g = Return (Vec v, g') /\
                length v = B) /\
  (exists v g', predict_similarity ops BertModel bernoulli (set_training tr m)
                  ids1 mask1 ids2 mask2 g = Return (Vec v, g') /\
                length v = B).
Proof.
  intros Hinit Henc H1 H2.
  destruct (init_returns ops uniform config pretrained g0 m g1 Hinit)
    as (_ & _ & Hn & _ & _ & Hsh & _).
  pose proof (set_training_shaped _ tr m Hsh) as Hsh'.
  destruct Hsh' as (Hsst & Hpara & Hpara_s & Hsts & Hsts_s).
  split; [|split].
  - destruct (predict_sentiment_shape ops BertModel bernoulli _
                (set_training tr m) ids1 mask1 g
                (set_training_shaped _ tr m Hsh) Henc) as (t & g' & Ht & Hs).
    exists t, g'. split; [exact Ht|].
    cbn in Hs. rewrite Hn, H1 in Hs. split; [exact Hs|].
    intros Hcls. rewrite Hcls in Hs. exact Hs.
  - rewrite predict_paraphrase_pair.
    destruct (predict_pair_shape ops BertModel bernoulli _ (set_training tr m)
                _ _ ids1 mask1 ids2 mask2 g Hpara Hpara_s Henc)
      as (v & g' & Hv & Hl); [lia|].
    exists v, g'. split; [exact Hv|lia].
  - rewrite predict_similarity_pair.
    destruct (predict_pair_shape ops BertModel bernoulli _ (set_training tr m)
                _ _ ids1 mask1 ids2 mask2 g Hsts Hsts_s Henc)
      as (v & g' & Hv & Hl); [lia|].
    exists v, g'. split; [exact Hv|lia].
Qed.

Lemma head_output_shapes_witness :
  exists m g1, toy_init "full-model" true = Return (m, g1) /\
  exists v g', predict_paraphrase toy_arith toy_bert toy_bernoulli
                 (set_training false m)
                 [[1; 2]; [3]]%Z [[1; 1]; [1]]%Z [[4]; [5; 6]]%Z [[1]; [1; 1]]%Z 7
               = Return (Vec v, g') /\ length v = 2.
Proof.
  eexists _, _. split; [reflexivity|].
  refine (proj1 (proj2 (head_output_shapes toy_arith toy_bert toy_uniform
            toy_bernoulli (toy_config "full-model" true) toy_pretrained 0 _ _
            false [[1; 2]; [3]]%Z [[1; 1]; [1]]%Z [[4]; [5; 6]]%Z
            [[1]; [1; 1]]%Z 7 2 eq_refl toy_bert_contract
            eq_refl eq_refl))).
Defined.

(** *** The second sequence in single-encoding mode *)

(** C3: when the model is not siamese, [predict_paraphrase] and
    [predict_similarity] do not depend on the second sequence: two calls
    with the same first sequence, parameters and random state return the
    same result (the same logits and the same final random state), whatever
    the second token ids and masks. *)
Theorem single_encoding_ignores_second_sequence {F : Type} (ops : arith F)
    {rng tensor : Type}
    (BertModel : list (nn_Parameter tensor) -> bool -> list (list Z) ->
                 list (list Z) -> rng -> BertOutput F * rng)
    (bernoulli : F -> rng -> bool * rng) (m : MultitaskBERT F tensor)
    (ids1 mask1 ids2 mask2 ids2' mask2' : list (list Z)) (g : rng) :
  siamese m = false ->
  predict_paraphrase ops BertModel bernoulli m ids1 mask1 ids2 mask2 g
  = predict_paraphrase ops BertModel bernoulli m ids1 mask1 ids2' mask2' g /\
  predict_similarity ops BertModel bernoulli m ids1 mask1 ids2 mask2 g
  = predict_similarity ops BertModel bernoulli m ids1 mask1 ids2' mask2' g.
Proof.
  intros Hs. unfold predict_paraphrase, predict_similarity.
  rewrite Hs. cbn [negb]. split; reflexivity.
Qed.

Lemma single_encoding_witness :
  exists m g1, toy_init "full-model" false = Return (m, g1) /\
  predict_similarity toy_arith toy_bert toy_bernoulli m
    [[1; 2]; [3]]%Z [[1; 1]; [1]]%Z [[4]; [5; 6]]%Z [[1]; [1; 1]]%Z 7
  = predict_similarity toy_arith toy_bert toy_bernoulli m
    [[1; 2]; [3]]%Z [[1; 1]; [1]]%Z [[9; 9; 9]]%Z [[0; 0; 0]]%Z 7.
Proof.
  eexists _, _. split; [reflexivity|].
  eapply single_encoding_ignores_second_sequence. reflexivity.
Defined.

(** In siamese mode the second sequence does matter. *)
Example siamese_reads_second_sequence :
  exists m g1, toy_init "full-model" true = Return (m, g1) /\
  exists v v' g',
    predict_similarity toy_arith toy_bert toy_bernoulli (set_training false m)
      [[1; 2]]%Z [[1; 1]]%Z [[4]]%Z [[1]]%Z 7 = Return (Vec [v], g') /\
    predict_similarity toy_arith toy_bert toy_bernoulli (set_training false m)
      [[1; 2]]%Z [[1; 1]]%Z [[5]]%Z [[1]]%Z 7 = Return (Vec [v'], g') /\
    PrimFloat.eqb v v' = false.
Proof.
  eexists _, _. split; [reflexivity|].
  eexists _, _, _. split; [reflexivity|]. split; reflexivity.
Qed.

(** *** Encoder trainability *)

Lemma step_param_frozen {T} (g : option T) (update : T -> T -> T)
    (p : nn_Parameter T) :
  requires_grad p = false ->
  step_param g update p = Param (data p) false None.
Proof.
  intros Hp. unfold step_param, backward_param, zero_grad_param,
    AdamW_step_param. cbn. rewrite Hp. destruct g; reflexivity.
Qed.

Lemma step_param_trainable {T} (d : T) (update : T -> T -> T)
    (p : nn_Parameter T) :
  requires_grad p = true ->
  step_param (Some d) update p = Param (update (data p) d) true (Some d).
Proof.
  intros Hp. unfold step_param, backward_param, zero_grad_param,
    AdamW_step_param. cbn. rewrite Hp. reflexivity.
Qed.

Lemma set_fine_tune_mode_frozen {tensor} (ps : list (nn_Parameter tensor)) :
  Forall (fun p => requires_grad p = false)
         (map (set_fine_tune_mode "last-linear-layer") ps).
Proof. apply Forall_map, Forall_forall. intros p _. reflexivity. Qed.

Lemma set_fine_tune_mode_full {tensor} (ps : list (nn_Parameter tensor)) :
  Forall (fun p => requires_grad p = true)
         (map (set_fine_tune_mode "full-model") ps).
Proof. apply Forall_map, Forall_forall. intros p _. reflexivity. Qed.

Lemma imap_frozen {T} (f : nat -> nn_Parameter T -> nn_Parameter T)
    (ps : list (nn_Parameter T)) :
  (forall i p, requires_grad p = false -> f i p = Param (data p) false None) ->
  Forall (fun p => requires_grad p = false) ps ->
  map data (imap f ps) = map data ps /\
  Forall (fun p => requires_grad p = false) (imap f ps).
Proof.
  intros Hf Hps. revert f Hf.
  induction Hps as [|p ps Hp _ IH]; intros f Hf; [split; constructor|].
  cbn [imap map]. rewrite Hf by exact Hp.
  destruct (IH (f ∘ S)) as [IH1 IH2].
  { intros i q Hq. apply Hf. exact Hq. }
  split.
  - cbn. f_equal. exact IH1.
  - constructor; [reflexivity|exact IH2].
Qed.

Lemma frozen_encoder_step {F tensor} (gs : gradients F tensor)
    (u : update_rule F tensor) (m : MultitaskBERT F tensor) :
  Forall (fun p => requires_grad p = false) (bert m) ->
  map data (bert (train_step gs u m)) = map data (bert m) /\
  Forall (fun p => requires_grad p = false) (bert (train_step gs u m)).
Proof.
  intros Hf. cbn [train_step bert]. apply imap_frozen; [|exact Hf].
  intros i p Hp. apply step_param_frozen. exact Hp.
Qed.

(** C4: a model built with fine-tune mode "last-linear-layer" has no
    encoder parameter that requires a gradient, and a training step, with
    any gradients and any update rule, leaves the value of every encoder
    parameter as it was (and the encoder frozen); built with "full-model",
    every encoder parameter requires a gradient and is updated with the
    gradient it receives.  The constructor accepts no other mode, so the
    encoder is frozen as a whole or trainable as a whole.  The parameters
    of the heads are updated in both modes. *)
Theorem fine_tune_mode_all_or_nothing {F rng tensor : Type} (ops : arith F)
    (uniform : rng -> F * rng) (config : Config F)
    (pretrained : list (nn_Parameter tensor)) (g0 g1 : rng)
    (m : MultitaskBERT F tensor) :
  MultitaskBERT_init ops uniform config pretrained g0 = Return (m, g1) ->
  (Forall (fun p => requires_grad p = false) (bert m) \/
   Forall (fun p => requires_grad p = true) (bert m)) /\
  (fine_tune_mode config = "last-linear-layer"%string ->
     Forall (fun p => requires_grad p = false) (bert m) /\
     forall gs u,
       map data (bert (train_step gs u m)) = map data (bert m) /\
       Forall (fun p => requires_grad p = false) (bert (train_step gs u m))) /\
  (fine_tune_mode config = "full-model"%string ->
     Forall (fun p => requires_grad p = true) (bert m) /\
     forall gs (u : update_rule F tensor) i p d,
       bert m !! i = Some p -> bert_grads gs !! i = Some (Some d) ->
       bert (train_step gs u m) !! i
       = Some (Param (update_bert u i (data p) d) true (Some d))) /\
  (forall gs (u : update_rule F tensor),
     named_heads (train_step gs u m)
     = map (fun nl => (nl.1, step_linear nl.1 gs u nl.2)) (named_heads m)) /\
  (forall name l gs (u : update_rule F tensor),
     (name, l) ∈ named_heads m ->
     (forall d, grad_weight (head_grads gs name) = Some d ->
        data (weight (step_linear name gs u l))
        = update_weight u name (data (weight l)) d) /\
     (forall d, grad_bias (head_grads gs name) = Some d ->
        data (bias (step_linear name gs u l))
        = update_bias u name (data (bias l)) d)).
Proof.
  intros Hinit.
  destruct (init_returns ops uniform config pretrained g0 m g1 Hinit)
    as (Hmode & Hbert & _ & _ & _ & _ & Hheads & _).
  assert (Hfrozen : fine_tune_mode config = "last-linear-layer"%string ->
            Forall (fun p => requires_grad p = false) (bert m)).
  { intros E. rewrite Hbert, E. apply set_fine_tune_mode_frozen. }
  assert (Hfull : fine_tune_mode config = "full-model"%string ->
            Forall (fun p => requires_grad p = true) (bert m)).
  { intros E. rewrite Hbert, E. apply set_fine_tune_mode_full. }
  split; [destruct Hmode; auto|].
  split.
  { intros E. split; [auto|]. intros gs u. apply frozen_encoder_step. auto. }
  split.
  { intros E. split; [auto|]. intros gs u i p d Hp Hg.
    cbn [train_step bert]. rewrite list_lookup_imap, Hp. cbn.
    rewrite Hg. cbn. f_equal. apply step_param_trainable.
    specialize (Hfull E). rewrite Forall_forall in Hfull. apply Hfull.
    eapply list_elem_of_lookup_2. exact Hp. }
  split; [reflexivity|].
  intros name l gs u Hin.
  rewrite Forall_forall in Hheads. destruct (Hheads _ Hin) as [Hw Hb].
  cbn in Hw, Hb. split; intros d Hd; unfold step_linear; cbn; rewrite Hd.
  - rewrite step_param_trainable by exact Hw. reflexivity.
  - rewrite step_param_trainable by exact Hb. reflexivity.
Qed.

Lemma fine_tune_mode_witness :
  exists m g1, toy_init "last-linear-layer" false = Return (m, g1) /\
  map data (bert (train_step toy_gradients toy_update m)) = map data (bert m).
Proof.
  eexists _, _. split; [reflexivity|].
  eapply (fine_tune_mode_all_or_nothing toy_arith toy_uniform
            (toy_config "last-linear-layer" false) toy_pretrained 0);
    reflexivity.
Defined.

(** With "full-model" the same step changes the encoder. *)
Example full_model_step_changes_encoder :
  exists m g1, toy_init "full-model" false = Return (m, g1) /\
  map data (bert m) = [[1%float]; [2%float; 3%float]] /\
  map data (bert (train_step toy_gradients toy_update m))
  = [[0%float]; [1%float; 2%float]].
Proof. eexists _, _. split; [reflexivity|]. split; reflexivity. Qed.

(** ** Sentiment loss *)

Lemma sst_loss_of_sum {F} (ops : arith F) logits labels batch_size s :
  cross_entropy ops logits labels "sum" = Return s ->
  sst_loss ops logits labels batch_size
  = Return (fdiv ops s (of_int ops batch_size)).
Proof. intros H. unfold sst_loss. rewrite H. reflexivity. Qed.

Lemma cross_entropy_example_R (row : list R) (y : Z) :
  label_in_range row y ->
  cross_entropy_example R_arith row y = Return (spec_example_loss row y).
Proof.
  intros [Hy0 Hy1]. unfold cross_entropy_example.
  replace (y =? -100)%Z with false by (symmetry; apply Z.eqb_neq; lia).
  replace (0 <=? y)%Z with true by (symmetry; apply Z.leb_le; lia).
  assert (Hlt : Z.to_nat y < length row) by lia.
  destruct (lookup_lt_is_Some_2 row (Z.to_nat y) Hlt) as [ly Hly].
  rewrite Hly, sum_seq_R. cbn. unfold spec_example_loss.
  rewrite (nth_lookup_Some _ _ 0%R _ Hly). reflexivity.
Qed.

Lemma mapM_cross_entropy_R (logits : list (list R)) (labels : list Z) :
  Forall2 label_in_range logits labels ->
  mapM (fun rt => cross_entropy_example R_arith rt.1 rt.2) (zip logits labels)
  = Return (map (fun rt => spec_example_loss rt.1 rt.2) (zip logits labels)).
Proof.
  induction 1 as [|row y logits labels Hy _ IH]; [reflexivity|].
  cbn. rewrite cross_entropy_example_R by exact Hy. cbn.
  rewrite IH. reflexivity.
Qed.

Lemma labels_all_counted (logits : list (list R)) (labels : list Z) :
  Forall2 label_in_range logits labels ->
  filter (fun y => negb (y =? -100)%Z) labels = labels.
Proof.
  induction 1 as [|row y logits labels [Hy _] _ IH]; [reflexivity|].
  rewrite filter_cons. 
  destruct (decide (negb (y =? -100)%Z)) as [_|Hn].
  - rewrite IH. reflexivity.
  - exfalso. apply Hn. apply Is_true_true, negb_true_iff, Z.eqb_neq. lia.
Qed.

Lemma cross_entropy_R (logits : list (list R)) (labels : list Z) :
  Forall2 label_in_range logits labels ->
  let s := Rsum (map (fun rt => spec_example_loss rt.1 rt.2)
                     (zip logits labels)) in
  cross_entropy R_arith logits labels "sum" = Return s /\
  cross_entropy R_arith logits labels "mean"
  = Return (s / INR (length logits))%R.
Proof.
  intros H s. pose proof (Forall2_length _ _ _ H) as Hlen.
  unfold cross_entropy.
  replace (length logits =? length labels) with true
    by (symmetry; apply Nat.eqb_eq; exact Hlen).
  cbn [negb]. rewrite mapM_cross_entropy_R by exact H. cbn.
  rewrite sum_seq_R. split; [reflexivity|].
  rewrite (labels_all_counted _ _ H), <- Hlen, <- INR_IZR_INZ. reflexivity.
Qed.

Lemma Rsum_exp_pos (row : list R) : row <> [] -> (0 < Rsum (map exp row))%R.
Proof.
  intros H. apply Rsum_pos.
  - destruct row; [contradiction|discriminate].
  - apply Forall_map, Forall_forall. intros x _. apply exp_pos.
Qed.

Lemma exp_nth_lt_Rsum (row : list R) (n : nat) :
  n < length row -> 2 <= length row ->
  (exp (nth n row 0) < Rsum (map exp row))%R.
Proof.
  revert n. induction row as [|x row IH]; intros n Hn H2; cbn in Hn, H2; [lia|].
  assert (Hne : row <> []) by (destruct row; [cbn in H2; lia|discriminate]).
  pose proof (Rsum_exp_pos row Hne) as Hpos.
  destruct n as [|n]; cbn.
  - lra.
  - pose proof (exp_pos x).
    destruct (decide (2 <= length row)) as [Hl|Hl].
    + specialize (IH n ltac:(lia) Hl). lra.
    + destruct row as [|z [|z' row']]; [contradiction| |cbn in Hl; lia].
      destruct n; [cbn; lra|cbn in Hn; lia].
Qed.

Lemma spec_example_loss_pos (row : list R) (y : Z) :
  label_in_range row y -> 2 <= length row -> (0 < spec_example_loss row y)%R.
Proof.
  intros [Hy0 Hy1] H2. unfold spec_example_loss.
  assert (Hlt : (exp (nth (Z.to_nat y) row 0) < Rsum (map exp row))%R)
    by (apply exp_nth_lt_Rsum; lia).
  apply ln_increasing in Hlt; [|apply exp_pos].
  rewrite ln_exp in Hlt. lra.
Qed.

(** C5: the loss of a sentiment step is the cross-entropy of the logits
    against the integer labels, summed over the batch and divided by the
    configured batch size; with [reduction='mean'] the same sum would be
    divided by the number of examples.  So for a partial batch (fewer
    examples than [batch_size], at least two classes) the loss is strictly
    smaller than the per-example mean. *)
Theorem sentiment_loss_normalization (logits : list (list R))
    (labels : list Z) (batch_size : Z) :
  Forall2 label_in_range logits labels ->
  let s := Rsum (map (fun rt => spec_example_loss rt.1 rt.2)
                     (zip logits labels)) in
  cross_entropy R_arith logits labels "sum" = Return s /\
  sst_loss R_arith logits labels batch_size = Return (s / IZR batch_size)%R /\
  sst_loss R_arith logits labels batch_size
  = Return (spec_sentiment_loss logits labels batch_size) /\
  cross_entropy R_arith logits labels "mean"
  = Return (s / INR (length logits))%R /\
  (logits <> [] -> Forall (fun row => 2 <= length row) logits ->
   (Z.of_nat (length logits) < batch_size)%Z ->
   (s / IZR batch_size < s / INR (length logits))%R).
Proof.
  intros H s. destruct (cross_entropy_R logits labels H) as [Hsum Hmean].
  fold s in Hsum, Hmean.
  split; [exact Hsum|].
  split; [apply (sst_loss_of_sum R_arith); exact Hsum|].
  split; [apply (sst_loss_of_sum R_arith); exact Hsum|].
  split; [exact Hmean|].
  intros Hne H2 Hpart.
  assert (Hs : (0 < s)%R).
  { unfold s. apply Rsum_pos.
    - destruct H; [contradiction|discriminate].
    - clear -H H2. induction H as [|row y logits labels Hy _ IH];
        [constructor|].
      inversion H2; subst. cbn. constructor.
      + apply spec_example_loss_pos; assumption.
      + apply IH. assumption. }
  assert (Hn : (0 < INR (length logits))%R).
  { apply lt_0_INR. destruct logits; [contradiction|cbn; lia]. }
  assert (Hb : (INR (length logits) < IZR batch_size)%R).
  { rewrite INR_IZR_INZ. apply IZR_lt. exact Hpart. }
  unfold Rdiv. apply Rmult_lt_compat_l; [exact Hs|].
  apply Rinv_lt_contravar; [|exact Hb].
  apply Rmult_lt_0_compat; lra.
Qed.

Lemma sentiment_loss_witness :
  sst_loss R_arith [[0; 0]; [1; 0]]%R [1; 0]%Z 8
  = Return (spec_sentiment_loss [[0; 0]; [1; 0]]%R [1; 0]%Z 8).
Proof.
  refine (proj1 (proj2 (proj2
    (sentiment_loss_normalization [[0; 0]; [1; 0]]%R [1; 0]%Z 8 _)))).
  repeat constructor; cbn; lia.
Defined.

(** ** The epoch loop and its checkpoints *)

Section LoopFacts.
Context {F : Type} (ops : arith F) {M O C G : Type}.
Variable train_steps :
  Z -> list F -> M * O * rng_states G -> M * O * rng_states G.
Variable model_eval_multitask :
  bool -> M -> rng_states G -> (F * F * F) * rng_states G.

Abbreviation epoch_body := (train_epoch ops train_steps model_eval_multitask).
Abbreviation run := (train_epochs ops train_steps model_eval_multitask).
Abbreviation state := (loop_state F M O C G).

(** What one epoch does once the scheduler has returned. *)
Lemma train_epoch_cases (args : Args) (config : C) sizes epoch (st st' : state) :
  epoch_body args config sizes epoch st = Return st' ->
  exists dev_sst dev_para dev_sts g,
    model_eval_multitask true (model st') g
    = ((dev_sst, dev_para, dev_sts), rngs st') /\
    let avg := avg3 ops dev_sst dev_para dev_sts in
    let report := EpochMsg epoch dev_sst dev_para dev_sts avg in
    (fgtb ops avg (best_avg_dev_acc st) = true /\
     files st' = <[filepath args := snapshot args config st']> (files st) /\
     best_avg_dev_acc st' = avg /\
     stdout st' = stdout st ++ [SaveMsg (filepath args); report])
    \/
    (fgtb ops avg (best_avg_dev_acc st) = false /\
     files st' = files st /\
     best_avg_dev_acc st' = best_avg_dev_acc st /\
     stdout st' = stdout st ++ [report]).
Proof.
  unfold train_epoch.
  destruct (compute_alpha ops epoch (epochs args) (of_int ops 1)
              (decimal ops 2 10) true) as [alpha|e]; [|discriminate].
  cbn.
  destruct (train_steps epoch (get_task_probs ops alpha sizes)
              (model st, optimizer st, rngs st)) as [[m1 o1] g1].
  destruct (model_eval_multitask false m1 g1) as [tm g2].
  destruct (model_eval_multitask true m1 g2) as [[[dsst dpara] dsts] g3]
    eqn:Hdev.
  destruct (fgtb ops (avg3 ops dsst dpara dsts) (best_avg_dev_acc st))
    eqn:Hgt; cbn; intros [= <-]; exists dsst, dpara, dsts, g2;
    (split; [exact Hdev|]); cbn.
  - left. rewrite <- app_assoc. auto.
  - right. auto.
Qed.

Lemma train_epoch_raises (args : Args) (config : C) sizes epoch (st : state) e :
  compute_alpha ops epoch (epochs args) (of_int ops 1) (decimal ops 2 10) true
  = Raise e ->
  epoch_body args config sizes epoch st = Raise e.
Proof. intros H. unfold train_epoch. rewrite H. reflexivity. Qed.

Lemma train_epoch_returns (args : Args) (config : C) sizes epoch (st : state) :
  (0 <= epoch < epochs args)%Z -> (1 < epochs args)%Z ->
  int_fits ops epoch = true -> int_fits ops (epochs args - 1) = true ->
  returns (epoch_body args config sizes epoch st).
Proof.
  intros Hr HT He Ht. unfold train_epoch.
  rewrite compute_alpha_linear by assumption. cbn.
  destruct (train_steps _ _ _) as [[m1 o1] g1].
  destruct (model_eval_multitask false m1 g1) as [tm g2].
  destruct (model_eval_multitask true m1 g2) as [[[dsst dpara] dsts] g3].
  destruct (fgtb ops _ _); cbn; eexists; reflexivity.
Qed.

Lemma train_epochs_raises (args : Args) (config : C) sizes epoch rest
    (st : state) e :
  compute_alpha ops epoch (epochs args) (of_int ops 1) (decimal ops 2 10) true
  = Raise e ->
  run args config sizes (epoch :: rest) st = Raise e.
Proof.
  intros H. cbn. rewrite (train_epoch_raises _ _ _ _ _ _ H). reflexivity.
Qed.

Lemma train_epochs_returns (args : Args) (config : C) sizes todo (st : state) :
  (1 < epochs args)%Z -> int_fits ops (epochs args - 1) = true ->
  Forall (fun epoch => (0 <= epoch < epochs args)%Z
                       /\ int_fits ops epoch = true) todo ->
  returns (run args config sizes todo st).
Proof.
  intros HT Ht Htodo. revert st.
  induction Htodo as [|epoch todo [He Hf] _ IH]; intros st; cbn.
  - eexists; reflexivity.
  - destruct (train_epoch_returns args config sizes epoch st He HT Hf Ht)
      as [st' Hst']. rewrite Hst'. cbn. apply IH.
Qed.

Lemma py_range_bounds (n : Z) :
  Forall (fun i => (0 <= i < n)%Z) (py_range n).
Proof.
  unfold py_range. apply Forall_map, Forall_forall. intros i Hi.
  apply list_elem_of_In, in_seq in Hi. cbn. lia.
Qed.

(** Over a run: either nothing was saved, or the first save came with an
    average above the best value the run started from. *)
Lemma train_epochs_first_save (args : Args) (config : C) sizes todo
    (st st' : state) :
  run args config sizes todo st = Return st' ->
  exists out, stdout st' = stdout st ++ out /\
    ((forallb (fun o => negb (is_save o)) out = true /\
      files st' = files st /\
      best_avg_dev_acc st' = best_avg_dev_acc st /\
      Forall (fun avg => fgtb ops avg (best_avg_dev_acc st) = false)
             (reported_avgs out))
     \/
     (exists pre epoch dsst dpara dsts post,
        out = pre ++ [SaveMsg (filepath args);
                      EpochMsg epoch dsst dpara dsts
                               (avg3 ops dsst dpara dsts)] ++ post /\
        forallb (fun o => negb (is_save o)) pre = true /\
        fgtb ops (avg3 ops dsst dpara dsts) (best_avg_dev_acc st) = true)).
Proof.
  revert st. induction todo as [|epoch todo IH]; intros st; cbn.
  - intros [= <-]. exists []. split; [rewrite app_nil_r; reflexivity|].
    left. repeat split; constructor.
  - destruct (epoch_body args config sizes epoch st) as [st1|e] eqn:H1;
      [|discriminate].
    cbn. intros Hrun.
    destruct (train_epoch_cases _ _ _ _ _ _ H1)
      as (dsst & dpara & dsts & g & _ & Hcase). cbn zeta in Hcase.
    destruct (IH st1 Hrun) as (out & Hout & Hrest).
    destruct Hcase as [(Hgt & Hf & Hb & Ho) | (Hgt & Hf & Hb & Ho)].
    + eexists. split; [rewrite Hout, Ho, <- app_assoc; reflexivity|].
      right. exists [], epoch, dsst, dpara, dsts, out.
      split; [reflexivity|]. split; [reflexivity|exact Hgt].
    + eexists. split; [rewrite Hout, Ho, <- app_assoc; reflexivity|].
      rewrite Hf, Hb in Hrest.
      destruct Hrest as [(Hns & Hfs & Hbs & Havg) |
        (pre & e' & a & b & c & post & Hsplit & Hpre & Hgt')].
      * left. cbn. repeat split; try assumption.
        constructor; assumption.
      * right. exists (EpochMsg epoch dsst dpara dsts
                         (avg3 ops dsst dpara dsts) :: pre),
                      e', a, b, c, post.
        rewrite Hsplit. split; [reflexivity|]. split; [exact Hpre|exact Hgt'].
Qed.

(** Only the file at [args.filepath] is ever written. *)
Lemma train_epochs_other_files (args : Args) (config : C) sizes todo
    (st st' : state) (p : string) :
  run args config sizes todo st = Return st' ->
  p <> filepath args -> files st' !! p = files st !! p.
Proof.
  intros Hrun Hp. revert st Hrun.
  induction todo as [|epoch todo IH]; intros st; cbn.
  - intros [= <-]. reflexivity.
  - destruct (epoch_body args config sizes epoch st) as [st1|e] eqn:H1;
      [|discriminate].
    cbn. intros Hrun. rewrite (IH st1 Hrun).
    destruct (train_epoch_cases _ _ _ _ _ _ H1)
      as (dsst & dpara & dsts & g & _ & Hcase). cbn zeta in Hcase.
    destruct Hcase as [(_ & Hf & _) | (_ & Hf & _)]; rewrite Hf.
    + apply lookup_insert_ne. congruence.
    + reflexivity.
Qed.

(** A run over [pre ++ post] is the run over [pre] followed by the run
    over [post]. *)
Lemma train_epochs_app (args : Args) (config : C) sizes pre post (st : state) :
  run args config sizes (pre ++ post) st
  = (st1 ← run args config sizes pre st; run args config sizes post st1).
Proof.
  revert st. induction pre as [|epoch pre IH]; intros st; cbn; [reflexivity|].
  destruct (epoch_body args config sizes epoch st) as [st1|e]; cbn;
    [apply IH|reflexivity].
Qed.

(** The value the loop keeps is the best seen so far from the value it
    started with, and every report carries the average of its metrics. *)
Lemma train_epochs_best_seen (args : Args) (config : C) sizes todo
    (st st' : state) :
  run args config sizes todo st = Return st' ->
  exists out, stdout st' = stdout st ++ out /\
    best_avg_dev_acc st'
    = best_seen ops (best_avg_dev_acc st) (reported_avgs out) /\
    Forall (reports_average ops) out.
Proof.
  revert st. induction todo as [|epoch todo IH]; intros st; cbn.
  - intros [= <-]. exists []. rewrite app_nil_r. repeat split. constructor.
  - destruct (epoch_body args config sizes epoch st) as [st1|e] eqn:H1;
      [|discriminate].
    cbn. intros Hrun.
    destruct (train_epoch_cases _ _ _ _ _ _ H1)
      as (dsst & dpara & dsts & g & _ & Hcase). cbn zeta in Hcase.
    destruct (IH st1 Hrun) as (out & Hout & Hbest & Havg).
    destruct Hcase as [(Hgt & _ & Hb & Ho) | (Hgt & _ & Hb & Ho)];
      (eexists; split; [rewrite Hout, Ho, <- app_assoc; reflexivity|]);
      (split; [|repeat constructor; exact Havg]);
      rewrite Hbest, Hb; cbn; rewrite Hgt; reflexivity.
Qed.
End LoopFacts.

(** In exact arithmetic the kept best value is the running maximum of 0
    and the dev averages reported so far. *)
Lemma best_is_running_max {M O C G : Type}
    (train_steps : Z -> list R -> M * O * rng_states G -> M * O * rng_states G)
    (model_eval_multitask :
       bool -> M -> rng_states G -> (R * R * R) * rng_states G)
    (args : Args) (config : C) (sizes todo : list Z)
    (st st' : loop_state R M O C G) :
  train_epochs R_arith train_steps model_eval_multitask args config sizes
    todo st = Return st' ->
  exists out, stdout st' = stdout st ++ out /\
    best_avg_dev_acc st'
    = fold_left Rmax (reported_avgs out) (best_avg_dev_acc st).
Proof.
  revert st. induction todo as [|epoch todo IH]; intros st; cbn.
  - intros [= <-]. exists []. rewrite app_nil_r. split; reflexivity.
  - destruct (train_epoch R_arith train_steps model_eval_multitask args config
                sizes epoch st) as [st1|e] eqn:H1; [|discriminate].
    cbn. intros Hrun.
    destruct (train_epoch_cases _ _ _ _ _ _ _ _ _ H1)
      as (a & b & c & g & _ & Hcase). cbn zeta in Hcase.
    remember (avg3 R_arith a b c) as avg eqn:Havg. clear Havg.
    destruct (IH st1 Hrun) as (out & Hout & Hbest).
    destruct Hcase as [(Hgt & _ & Hb & Ho) | (Hgt & _ & Hb & Ho)];
      (eexists; split; [rewrite Hout, Ho, <- app_assoc; reflexivity|]);
      rewrite Hbest, Hb; unfold reported_avgs; rewrite omap_app; cbn;
      f_equal; cbn in Hgt;
      destruct (Rgt_dec avg (best_avg_dev_acc st))
        as [Hlt|Hge]; try discriminate.
    + rewrite Rmax_right; [reflexivity|lra].
    + rewrite Rmax_left; [reflexivity|lra].
Qed.

(** C6, as stated, fails: the value an average is compared with starts at
    0, not at the first average.  In this run of two epochs the dev
    averages are -0.0833... and 0.0; the second strictly exceeds the best
    average seen so far in the run, and no checkpoint is written. *)
Lemma checkpoint_not_at_best_seen :
  exists st' avg1 avg2,
    train_multitask toy_arith toy_steps toy_eval (toy_args 2) tt
      [100; 300; 600]%Z 0%Z tt (MkRngs 0 0 0) ∅ = Return st' /\
    reported_avgs (stdout st') = [avg1; avg2] /\
    fgtb toy_arith avg2 avg1 = true /\
    forallb (fun o => negb (is_save o)) (stdout st') = true /\
    files st' = ∅.
Proof.
  eexists _, _, _. split; [vm_compute; reflexivity|].
  split; [reflexivity|]. split; [reflexivity|]. split; reflexivity.
Qed.

(** C6 (amended): at the end of every epoch of a run the checkpoint is
    written exactly when the unweighted average of the three dev metrics,
    [(sst + para + sts) / 3], is strictly greater than the best value seen
    so far, which starts at 0: the running best of 0 and the averages of
    the earlier epochs.  When it is written, the record of the current
    model replaces whatever the file at [args.filepath] held, no other file
    changes, and the best value becomes the new average; otherwise files
    and best value stay as they were. *)
Theorem checkpoint_iff_improvement {F : Type} (ops : arith F)
    {M O C G : Type}
    (train_steps : Z -> list F -> M * O * rng_states G -> M * O * rng_states G)
    (model_eval_multitask :
       bool -> M -> rng_states G -> (F * F * F) * rng_states G)
    (args : Args) (config : C) (sizes : list Z) (model0 : M) (optimizer0 : O)
    (g0 : rng_states G) (fs0 : gmap string (save_info M O C G))
    (st' : loop_state F M O C G) (pre : list Z) (epoch : Z) (post : list Z) :
  train_multitask ops train_steps model_eval_multitask args config sizes
    model0 optimizer0 g0 fs0 = Return st' ->
  py_range (epochs args) = pre ++ epoch :: post ->
  exists st1 st2 dev_sst dev_para dev_sts g,
    train_epochs ops train_steps model_eval_multitask args config sizes pre
      (MkLoop model0 optimizer0 g0 (of_int ops 0) fs0 []) = Return st1 /\
    train_epoch ops train_steps model_eval_multitask args config sizes epoch
      st1 = Return st2 /\
    train_epochs ops train_steps model_eval_multitask args config sizes post
      st2 = Return st' /\
    model_eval_multitask true (model st2) g
    = ((dev_sst, dev_para, dev_sts), rngs st2) /\
    Forall (reports_average ops) (stdout st1) /\
    let avg_dev_acc :=
      fdiv ops (fadd ops (fadd ops dev_sst dev_para) dev_sts) (of_int ops 3) in
    let best := best_seen ops (of_int ops 0) (reported_avgs (stdout st1)) in
    let written :=
      SaveMsg (filepath args) ∈ drop (length (stdout st1)) (stdout st2) in
    best_avg_dev_acc st1 = best /\
    last (stdout st2)
    = Some (EpochMsg epoch dev_sst dev_para dev_sts avg_dev_acc) /\
    (written <-> fgtb ops avg_dev_acc best = true) /\
    (written ->
       files st2 !! filepath args = Some (snapshot args config st2) /\
       files st2 = <[filepath args := snapshot args config st2]> (files st1) /\
       best_avg_dev_acc st2 = avg_dev_acc) /\
    (~ written ->
       files st2 = files st1 /\ best_avg_dev_acc st2 = best) /\
    (forall p, p <> filepath args -> files st2 !! p = files st1 !! p).
Proof.
  unfold train_multitask. intros Hrun Hsplit.
  rewrite Hsplit, train_epochs_app in Hrun.
  destruct (train_epochs ops train_steps model_eval_multitask args config
              sizes pre _) as [st1|e1] eqn:Hpre; [|discriminate].
  cbn in Hrun.
  destruct (train_epoch ops train_steps model_eval_multitask args config
              sizes epoch st1) as [st2|e2] eqn:Hep; [|discriminate].
  cbn in Hrun.
  destruct (train_epochs_best_seen ops train_steps model_eval_multitask
              _ _ _ _ _ _ Hpre) as (out & Hout & Hbest & Havg).
  cbn in Hout, Hbest. subst out.
  destruct (train_epoch_cases ops train_steps model_eval_multitask
              _ _ _ _ _ _ Hep) as (dsst & dpara & dsts & g & Hdev & Hcase).
  exists st1, st2, dsst, dpara, dsts, g.
  do 4 (split; [first [reflexivity | assumption]|]).
  split; [exact Havg|].
  cbn zeta in Hcase |- *. unfold avg3 in Hcase. rewrite <- Hbest.
  split; [reflexivity|].
  destruct Hcase as [(Hgt & Hf & Hb & Ho) | (Hgt & Hf & Hb & Ho)];
    rewrite Ho, drop_app_length.
  - split; [rewrite last_app; reflexivity|].
    assert (Hw : SaveMsg (filepath args)
                 ∈ [SaveMsg (filepath args);
                    EpochMsg epoch dsst dpara dsts
                      (fdiv ops (fadd ops (fadd ops dsst dpara) dsts)
                                (of_int ops 3))])
      by (apply list_elem_of_here).
    split; [tauto|]. split; [|split].
    + intros _. rewrite Hf at 1. rewrite lookup_insert_eq. auto.
    + intros Hn. contradiction.
    + intros p Hp. rewrite Hf. apply lookup_insert_ne. congruence.
  - split; [rewrite last_app; reflexivity|].
    assert (Hw : ~ SaveMsg (filepath args)
                 ∈ [EpochMsg epoch dsst dpara dsts
                      (fdiv ops (fadd ops (fadd ops dsst dpara) dsts)
                                (of_int ops 3))]).
    { intros Hin. apply list_elem_of_singleton in Hin. discriminate. }
    split; [split; [tauto|congruence]|]. split; [|split].
    + intros Hn. contradiction.
    + auto.
    + intros p _. rewrite Hf. reflexivity.
Qed.

Lemma checkpoint_iff_improvement_witness :
  exists st', train_multitask toy_arith toy_steps toy_eval (toy_args 5) tt
                [100; 300; 600]%Z 0%Z tt (MkRngs 0 0 0) ∅ = Return st' /\
  exists st1 st2,
    train_epochs toy_arith toy_steps toy_eval (toy_args 5) tt
      [100; 300; 600]%Z [0; 1]%Z (MkLoop 0%Z tt (MkRngs 0 0 0) 0%float ∅ [])
    = Return st1 /\
    train_epoch toy_arith toy_steps toy_eval (toy_args 5) tt
      [100; 300; 600]%Z 2 st1 = Return st2 /\
    best_avg_dev_acc st1
    = best_seen toy_arith 0%float (reported_avgs (stdout st1)).
Proof.
  assert (Hrun : exists st',
            train_multitask toy_arith toy_steps toy_eval (toy_args 5) tt
              [100; 300; 600]%Z 0%Z tt (MkRngs 0 0 0) ∅ = Return st')
    by (eexists; vm_compute; reflexivity).
  destruct Hrun as [st' Hrun]. exists st'. split; [exact Hrun|].
  destruct (checkpoint_iff_improvement toy_arith toy_steps toy_eval
              (toy_args 5) tt [100; 300; 600]%Z 0%Z tt (MkRngs 0 0 0) ∅ st'
              [0; 1]%Z 2%Z [3; 4]%Z Hrun eq_refl)
    as (st1 & st2 & a & b & c & g & H1 & H2 & _ & _ & _ & Hb & _).
  exists st1, st2. split; [exact H1|]. split; [exact H2|exact Hb].
Defined.

(** C10: the best average starts at 0.  Along a run that returns, if no
    reported dev average is strictly greater than 0, nothing is saved and
    the files are those the run started with; and whenever something is
    saved, the first save comes with an average strictly greater than 0.
    Every reported average is the unweighted average of its three
    metrics. *)
Theorem first_checkpoint_needs_positive_average {F : Type} (ops : arith F)
    {M O C G : Type}
    (train_steps : Z -> list F -> M * O * rng_states G -> M * O * rng_states G)
    (model_eval_multitask :
       bool -> M -> rng_states G -> (F * F * F) * rng_states G)
    (args : Args) (config : C) (sizes : list Z) (model0 : M) (optimizer0 : O)
    (g0 : rng_states G) (fs0 : gmap string (save_info M O C G))
    (st' : loop_state F M O C G) :
  train_multitask ops train_steps model_eval_multitask args config sizes
    model0 optimizer0 g0 fs0 = Return st' ->
  (Forall (fun avg => fgtb ops avg (of_int ops 0) = false)
          (reported_avgs (stdout st')) ->
   files st' = fs0 /\ best_avg_dev_acc st' = of_int ops 0 /\
   forallb (fun o => negb (is_save o)) (stdout st') = true) /\
  (forallb (fun o => negb (is_save o)) (stdout st') = false ->
   exists pre epoch dev_sst dev_para dev_sts post,
     stdout st' = pre ++ [SaveMsg (filepath args);
                         EpochMsg epoch dev_sst dev_para dev_sts
                                  (avg3 ops dev_sst dev_para dev_sts)] ++ post /\
     forallb (fun o => negb (is_save o)) pre = true /\
     fgtb ops (avg3 ops dev_sst dev_para dev_sts) (of_int ops 0) = true).
Proof.
  unfold train_multitask. intros Hrun.
  destruct (train_epochs_first_save ops train_steps model_eval_multitask
              _ _ _ _ _ _ Hrun) as (out & Hout & Hcase).
  cbn in Hout, Hcase. subst out.
  destruct Hcase as [(Hns & Hf & Hb & Havg) |
    (pre & e & a & b & c & post & Hsplit & Hpre & Hgt)].
  - split; [auto|]. intros Hs. congruence.
  - split.
    + intros Hall. exfalso. rewrite Hsplit in Hall. unfold reported_avgs in Hall.
      rewrite omap_app in Hall. apply Forall_app in Hall as [_ Hall].
      cbn in Hall. inversion Hall as [|? ? Hx _]; subst. congruence.
    + intros _. exists pre, e, a, b, c, post. auto.
Qed.

Lemma first_checkpoint_witness :
  exists st', train_multitask toy_arith toy_steps toy_eval (toy_args 2) tt
                [100; 300; 600]%Z 0%Z tt (MkRngs 0 0 0) ∅ = Return st' /\
              files st' = ∅.
Proof.
  eexists. split; [reflexivity|].
  refine (proj1 (proj1 (first_checkpoint_needs_positive_average toy_arith
            toy_steps toy_eval (toy_args 2) tt [100; 300; 600]%Z 0%Z tt
            (MkRngs 0 0 0) ∅ _ eq_refl) _)).
  vm_compute. repeat constructor.
Defined.

(** *** The scheduler's precondition *)

(** C7, as stated, fails: inside the precondition the call is not always
    defined.  In exponential mode it divides by [alpha_start] and raises
    [ZeroDivisionError] when that is zero; in linear mode (the default) it
    converts [epoch] and [total_epoch - 1] to floats and raises
    [OverflowError] when they are out of the floats' range. *)
Lemma compute_alpha_raises_in_precondition :
  (0 <= 2 < 5)%Z /\ (1 < 5)%Z /\
  (forall m, compute_alpha (float_arith m) 2 5 0%float 0.2%float false
             = Raise ZeroDivisionError) /\
  (0 <= 10 ^ 400 < 10 ^ 400 + 1)%Z /\ (1 < 10 ^ 400 + 1)%Z /\
  (forall m, compute_alpha (float_arith m) (10 ^ 400) (10 ^ 400 + 1)
               1%float 0.2%float true
             = Raise OverflowError).
Proof.
  split; [lia|]. split; [lia|]. split; [intros m; vm_compute; reflexivity|].
  split; [split; apply Z.leb_le || apply Z.ltb_lt; vm_compute; reflexivity|].
  split; [apply Z.ltb_lt; vm_compute; reflexivity|].
  intros m. vm_compute. reflexivity.
Qed.

(** C7 (amended): every call that violates the precondition
    [0 <= epoch < total_epoch], [total_epoch > 1] raises, in both modes:
    [AssertionError] when the epoch is out of range (in particular whenever
    [total_epoch <= 0]), [ZeroDivisionError] at epoch 0 of a single epoch.
    Inside the precondition the linear mode returns exactly when [epoch] and
    [total_epoch - 1] convert to floats, and raises [OverflowError]
    otherwise; the exponential mode returns exactly when the quotient is in
    range and [alpha_start] is not zero, and raises [ZeroDivisionError] for
    a zero [alpha_start].  So in binary64 the linear mode returns exactly
    under the precondition with [total_epoch - 1 < 2^1024 - 2^970], the
    exponential mode exactly under the precondition with a non-zero
    [alpha_start]; in real arithmetic the linear mode returns exactly under
    the precondition.  The training loop does not catch the error: the
    epoch, the rest of the run and [train_multitask] raise the same
    exception, so a run of one epoch ends with [ZeroDivisionError]. *)
Theorem compute_alpha_precondition {F : Type} (ops : arith F)
    {M O C G : Type}
    (train_steps : Z -> list F -> M * O * rng_states G -> M * O * rng_states G)
    (model_eval_multitask :
       bool -> M -> rng_states G -> (F * F * F) * rng_states G)
    (args : Args) (config : C) (sizes : list Z)
    (epoch total_epoch : Z) (alpha_start alpha_end : F)
    (m : libm) (x_start x_end : float) (r_start r_end : R) :
  (forall lin,
     (total_epoch <= 1)%Z \/ (epoch < 0)%Z \/ (total_epoch <= epoch)%Z ->
     raises (compute_alpha ops epoch total_epoch alpha_start alpha_end lin)) /\
  (forall lin, ~ (0 <= epoch < total_epoch)%Z ->
     compute_alpha ops epoch total_epoch alpha_start alpha_end lin
     = Raise AssertionError) /\
  (forall lin, epoch = 0%Z -> total_epoch = 1%Z -> int_fits ops 0 = true ->
     compute_alpha ops epoch total_epoch alpha_start alpha_end lin
     = Raise ZeroDivisionError) /\
  ((0 <= epoch < total_epoch)%Z -> (1 < total_epoch)%Z ->
   (returns (compute_alpha ops epoch total_epoch alpha_start alpha_end true)
    <-> int_fits ops epoch = true /\ int_fits ops (total_epoch - 1) = true) /\
   (~ returns (compute_alpha ops epoch total_epoch alpha_start alpha_end true)
    -> compute_alpha ops epoch total_epoch alpha_start alpha_end true
       = Raise OverflowError) /\
   (returns (compute_alpha ops epoch total_epoch alpha_start alpha_end false)
    <-> truediv_fits ops epoch (total_epoch - 1) = true
        /\ is_zero ops alpha_start = false) /\
   (truediv_fits ops epoch (total_epoch - 1) = false ->
    compute_alpha ops epoch total_epoch alpha_start alpha_end false
    = Raise OverflowError) /\
   (truediv_fits ops epoch (total_epoch - 1) = true ->
    is_zero ops alpha_start = true ->
    compute_alpha ops epoch total_epoch alpha_start alpha_end false
    = Raise ZeroDivisionError)) /\
  (returns (compute_alpha (float_arith m) epoch total_epoch x_start x_end true)
   <-> (0 <= epoch < total_epoch)%Z /\ (1 < total_epoch)%Z
       /\ (total_epoch - 1 < float_int_bound)%Z) /\
  (returns (compute_alpha (float_arith m) epoch total_epoch x_start x_end false)
   <-> (0 <= epoch < total_epoch)%Z /\ (1 < total_epoch)%Z
       /\ PrimFloat.eqb x_start 0 = false) /\
  (returns (compute_alpha R_arith epoch total_epoch r_start r_end true)
   <-> (0 <= epoch < total_epoch)%Z /\ (1 < total_epoch)%Z) /\
  (forall e rest (st : loop_state F M O C G),
     compute_alpha ops epoch (epochs args) (of_int ops 1) (decimal ops 2 10)
       true = Raise e ->
     train_epoch ops train_steps model_eval_multitask args config sizes
       epoch st = Raise e /\
     train_epochs ops train_steps model_eval_multitask args config sizes
       (epoch :: rest) st = Raise e) /\
  (forall model0 optimizer0 g0 fs0,
     epochs args = 1%Z -> int_fits ops 0 = true ->
     train_multitask ops train_steps model_eval_multitask args config sizes
       model0 optimizer0 g0 fs0 = Raise ZeroDivisionError) /\
  (forall model0 optimizer0 g0 fs0,
     (1 < epochs args)%Z ->
     (forall e, (0 <= e < epochs args)%Z -> int_fits ops e = true) ->
     returns (train_multitask ops train_steps model_eval_multitask args config
                sizes model0 optimizer0 g0 fs0)).
Proof.
  assert (Hviol : forall {F'} (ops' : arith F') (a_s a_e : F') lin,
     ~ ((0 <= epoch < total_epoch)%Z /\ (1 < total_epoch)%Z) ->
     raises (compute_alpha ops' epoch total_epoch a_s a_e lin))
    by (intros; apply compute_alpha_violation; assumption).
  assert (Hpre : forall {F'} (ops' : arith F') (a_s a_e : F') lin,
     returns (compute_alpha ops' epoch total_epoch a_s a_e lin) ->
     (0 <= epoch < total_epoch)%Z /\ (1 < total_epoch)%Z).
  { intros F' ops' a_s a_e lin Hret. apply returns_not_raises in Hret.
    destruct (decide ((0 <= epoch < total_epoch)%Z /\ (1 < total_epoch)%Z))
      as [Hok|Hno]; [exact Hok|].
    exfalso. apply Hret, Hviol. exact Hno. }
  assert (Hlin : forall {F'} (ops' : arith F') (a_s a_e : F'),
     (0 <= epoch < total_epoch)%Z -> (1 < total_epoch)%Z ->
     (returns (compute_alpha ops' epoch total_epoch a_s a_e true)
      <-> int_fits ops' epoch = true /\ int_fits ops' (total_epoch - 1) = true)).
  { intros F' ops' a_s a_e Hr HT. split.
    - intros [v Hv].
      destruct (int_fits ops' epoch) eqn:He;
        [destruct (int_fits ops' (total_epoch - 1)) eqn:Ht; [auto|]|];
        rewrite compute_alpha_linear_overflow in Hv by auto; discriminate.
    - intros [He Ht]. rewrite compute_alpha_linear by assumption.
      eexists; reflexivity. }
  assert (Hexp : forall {F'} (ops' : arith F') (a_s a_e : F'),
     (0 <= epoch < total_epoch)%Z -> (1 < total_epoch)%Z ->
     truediv_fits ops' epoch (total_epoch - 1) = true ->
     (returns (compute_alpha ops' epoch total_epoch a_s a_e false)
      <-> is_zero ops' a_s = false)).
  { intros F' ops' a_s a_e Hr HT Hf. split.
    - intros [v Hv]. destruct (is_zero ops' a_s) eqn:Hz; [|reflexivity].
      rewrite compute_alpha_exponential_zero in Hv by assumption. discriminate.
    - intros Hz. rewrite compute_alpha_exponential by assumption.
      eexists; reflexivity. }
  assert (Hover : (0 <= epoch < total_epoch)%Z -> (1 < total_epoch)%Z ->
     truediv_fits ops epoch (total_epoch - 1) = false ->
     compute_alpha ops epoch total_epoch alpha_start alpha_end false
     = Raise OverflowError).
  { intros Hr HT Hf. unfold compute_alpha, truediv_ints.
    rewrite py_assert_true by (apply epoch_in_range; exact Hr).
    replace (total_epoch - 1 =? 0)%Z with false
      by (symmetry; apply Z.eqb_neq; lia).
    cbn. rewrite Hf. reflexivity. }
  split. { intros lin Hv. apply Hviol. lia. }
  split; [intros lin Hr; apply compute_alpha_out_of_range; exact Hr|].
  split; [intros lin -> -> H0; apply compute_alpha_single_epoch; exact H0|].
  split.
  { intros Hr HT. split; [apply Hlin; assumption|]. split.
    { intros Hn. apply compute_alpha_linear_overflow; [exact Hr|].
      destruct (int_fits ops epoch) eqn:He; [|auto].
      destruct (int_fits ops (total_epoch - 1)) eqn:Ht; [|auto].
      exfalso. apply Hn. apply Hlin; auto. }
    split.
    { split.
      - intros Hret.
        destruct (truediv_fits ops epoch (total_epoch - 1)) eqn:Hf.
        + split; [reflexivity|]. apply (Hexp _ ops alpha_start alpha_end);
            assumption.
        + destruct Hret as [v Hv]. rewrite (Hover Hr HT eq_refl) in Hv.
          discriminate.
      - intros [Hf Hz]. apply Hexp; assumption. }
    split; [apply Hover; assumption|].
    intros Hf Hz. apply compute_alpha_exponential_zero; assumption. }
  split.
  { split.
    - intros Hret. destruct (Hpre _ _ _ _ _ Hret) as [Hr HT].
      split; [exact Hr|]. split; [exact HT|].
      apply (Hlin _ (float_arith m)) in Hret as [_ Ht]; try assumption.
      apply float_fits_iff in Ht. lia.
    - intros (Hr & HT & Hb). apply Hlin; try assumption.
      split; apply float_fits_iff; lia. }
  split.
  { split.
    - intros Hret. destruct (Hpre _ _ _ _ _ Hret) as [Hr HT].
      split; [exact Hr|]. split; [exact HT|].
      apply (Hexp _ (float_arith m)) in Hret; try assumption.
      apply Z_truediv_fits_ratio; assumption.
    - intros (Hr & HT & Hz). apply Hexp; try assumption.
      apply Z_truediv_fits_ratio; assumption. }
  split.
  { split; [apply Hpre|]. intros [Hr HT]. apply Hlin; auto. }
  split.
  { intros e rest st He. split.
    - apply train_epoch_raises. exact He.
    - apply train_epochs_raises. exact He. }
  split.
  { intros model0 optimizer0 g0 fs0 H1 H0. unfold train_multitask.
    rewrite H1. change (py_range 1) with [0%Z].
    apply train_epochs_raises. rewrite H1.
    apply compute_alpha_single_epoch. exact H0. }
  intros model0 optimizer0 g0 fs0 HT Hfits. unfold train_multitask.
  apply train_epochs_returns; [exact HT|apply Hfits; lia|].
  eapply Forall_impl; [apply py_range_bounds|].
  intros e He. cbn in He. split; [exact He|apply Hfits; exact He].
Qed.

(** ** The cyclic streams *)

Lemma batch_sampler_concat (bs : nat) (batch idxs : list nat) :
  concat (batch_sampler bs batch idxs) = batch ++ idxs.
Proof.
  revert batch. induction idxs as [|i idxs IH]; intros batch; cbn.
  - destruct batch; cbn; [reflexivity|]. rewrite !app_nil_r. reflexivity.
  - destruct (length (batch ++ [i]) =? bs); cbn; rewrite IH.
    + rewrite <- app_assoc. reflexivity.
    + rewrite <- app_assoc. reflexivity.
Qed.

Lemma batch_sampler_nonempty (bs : nat) (batch idxs : list nat) :
  batch ++ idxs <> [] -> batch_sampler bs batch idxs <> [].
Proof.
  intros H E. apply H. rewrite <- (batch_sampler_concat bs), E. reflexivity.
Qed.

Lemma loader_iter_examples (dl : DataLoader) (order : list nat) :
  concat (loader_iter dl order) = order.
Proof. apply batch_sampler_concat. Qed.

Section StreamFacts.
Variable orders : nat -> list nat.
Variable dl : DataLoader.
Hypothesis sampler : random_sampler orders dl.
Hypothesis nonempty : 0 < dataset_len dl.

Abbreviation passes := (passes orders dl).

Lemma order_nonempty (k : nat) : orders k <> [].
Proof using sampler nonempty.
  intros E. pose proof (Permutation_length (sampler k)) as Hl.
  rewrite E, length_seq in Hl. cbn in Hl. lia.
Qed.

Lemma passes_succ_l (k j : nat) :
  passes k (S j) = loader_iter dl (orders k) ++ passes (S k) j.
Proof. reflexivity. Qed.

Lemma cycle_next_spec (fuel : nat) (g : cycle_gen) b g' :
  cycle_next orders dl fuel g = Some (b, g') ->
  exists j, b :: pending g' = pending g ++ passes (started g) j /\
            started g' = started g + j.
Proof.
  revert g. induction fuel as [|fuel IH]; intros g; cbn; [discriminate|].
  destruct (pending g) as [|b0 rest] eqn:Hp.
  - intros H. destruct (IH _ H) as (j & Hj & Hs). cbn in Hj, Hs.
    exists (S j). rewrite passes_succ_l. split; [exact Hj|lia].
  - intros [= <- <-]. exists 0. cbn. rewrite app_nil_r.
    split; [reflexivity|lia].
Qed.

Lemma cycle_next_total (g : cycle_gen) :
  exists b g', cycle_next orders dl 2 g = Some (b, g').
Proof using sampler nonempty.
  cbn. destruct (pending g) as [|b rest]; [|eauto].
  cbn. destruct (loader_iter dl (orders (started g))) as [|b rest] eqn:E;
    [|eauto].
  exfalso. apply (batch_sampler_nonempty (dl_batch_size dl) []
                    (orders (started g))); [|exact E].
  cbn. apply order_nonempty.
Qed.

Lemma passes_app (k j1 j2 : nat) :
  passes k (j1 + j2) = passes k j1 ++ passes (k + j1) j2.
Proof.
  unfold passes. rewrite seq_app, map_app, concat_app. reflexivity.
Qed.

Lemma pull_spec (n : nat) (g : cycle_gen) :
  exists batches g' j,
    pull orders dl 2 n g = Some (batches, g') /\
    length batches = n /\
    batches ++ pending g' = pending g ++ passes (started g) j /\
    started g' = started g + j.
Proof using sampler nonempty.
  revert g. induction n as [|n IH]; intros g.
  - exists [], g, 0. cbn. rewrite app_nil_r. repeat split; lia.
  - destruct (cycle_next_total g) as (b & g1 & H1).
    destruct (cycle_next_spec _ _ _ _ H1) as (j1 & Hj1 & Hs1).
    destruct (IH g1) as (bs & g2 & j2 & H2 & Hl & Hj2 & Hs2).
    exists (b :: bs), g2, (j1 + j2).
    cbn [pull]. rewrite H1. cbn. rewrite H2. cbn.
    split; [reflexivity|]. split; [cbn; lia|]. split; [|lia].
    rewrite passes_app, app_assoc, <- Hj1, <- Hs1. cbn.
    rewrite Hj2. reflexivity.
Qed.

Lemma passes_examples (k j : nat) :
  concat (passes k j) = concat (map orders (seq k j)).
Proof.
  revert k. induction j as [|j IH]; intros k; [reflexivity|].
  rewrite passes_succ_l, concat_app, loader_iter_examples, IH. reflexivity.
Qed.

Lemma prefix_all_before_repeat (xs rest : list nat) (j : nat) :
  xs ++ rest = concat (map orders (seq 0 j)) ->
  all_before_repeat (dataset_len dl) xs.
Proof using sampler.
  clear nonempty. destruct j as [|j]; cbn.
  - intros H. apply app_eq_nil in H as [-> _]. left. constructor.
  - intros H. apply app_eq_app in H as [l [[Hx _]|[Ho _]]].
    + right. intros y Hy. rewrite Hx. apply elem_of_app. left.
      rewrite (sampler 0). apply elem_of_seq. lia.
    + left. assert (Hnd : NoDup (orders 0)).
      { rewrite (sampler 0). apply NoDup_seq. }
      rewrite Ho in Hnd. apply NoDup_app in Hnd as [Hnd _]. exact Hnd.
Qed.
End StreamFacts.

(** C9, as stated, fails: the order is drawn anew for every pass, so an
    example that is last-but-one in one pass and first in the next repeats
    with a single other example in between.  Three examples, batches of
    one, orders 0,1,2 then 1,0,2: the stream is 0,1,2,1,0,2, and between
    the two occurrences of example 1 only example 2 occurs. *)
Lemma cycle_stream_repeat_gap :
  random_sampler orders_example loader_example /\
  exists batches g,
    pull orders_example loader_example 2 6 cycle_init = Some (batches, g) /\
    concat batches = [0; 1; 2; 1; 0; 2] /\
    ~ between_repeats_all (dataset_len loader_example) (concat batches).
Proof.
  split.
  { intros [|k]; cbn; [reflexivity|]. apply perm_swap. }
  eexists _, _. split; [reflexivity|]. split; [reflexivity|].
  cbn. intros H.
  destruct (H 1 3 1 ltac:(lia) eq_refl eq_refl 0 ltac:(lia) ltac:(lia))
    as (k & Hk & Hv).
  assert (k = 2) as -> by lia. discriminate Hv.
Qed.

(** C9 (amended): a stream over a non-empty dataset never runs out: every
    pull returns a batch (two turns of the generator's loop suffice, there
    is no exhausted outcome).  What has been pulled is a prefix of the
    batches of successive passes, each pass holding every example of the
    dataset exactly once in the order drawn for it; so no example repeats
    before every example has been visited. *)
Theorem cycle_stream_complete_passes (orders : nat -> list nat)
    (dl : DataLoader) (n : nat) :
  random_sampler orders dl -> 0 < dataset_len dl ->
  exists batches g j,
    pull orders dl 2 n cycle_init = Some (batches, g) /\
    length batches = n /\
    batches ++ pending g
    = concat (map (fun i => loader_iter dl (orders i)) (seq 0 j)) /\
    concat batches ++ concat (pending g) = concat (map orders (seq 0 j)) /\
    (forall i, Permutation (concat (loader_iter dl (orders i)))
                           (seq 0 (dataset_len dl))) /\
    all_before_repeat (dataset_len dl) (concat batches).
Proof.
  intros Hs Hn.
  destruct (pull_spec orders dl Hs Hn n cycle_init)
    as (bs & g & j & Hpull & Hlen & Hpre & _).
  cbn in Hpre. exists bs, g, j.
  assert (Hex : concat bs ++ concat (pending g) = concat (map orders (seq 0 j))).
  { rewrite <- concat_app, Hpre. apply passes_examples. }
  split; [exact Hpull|]. split; [exact Hlen|]. split; [exact Hpre|].
  split; [exact Hex|]. split.
  - intros i. rewrite loader_iter_examples. apply Hs.
  - eapply prefix_all_before_repeat; [exact Hs|exact Hex].
Qed.

Lemma cycle_stream_witness :
  exists batches g j,
    pull orders_example loader_example 2 6 cycle_init = Some (batches, g) /\
    length batches = 6 /\
    batches ++ pending g
    = concat (map (fun i => loader_iter loader_example (orders_example i))
                  (seq 0 j)) /\
    concat batches ++ concat (pending g)
    = concat (map orders_example (seq 0 j)) /\
    (forall i, Permutation (concat (loader_iter loader_example (orders_example i)))
                           (seq 0 (dataset_len loader_example))) /\
    all_before_repeat (dataset_len loader_example) (concat batches).
Proof.
  apply (cycle_stream_complete_passes orders_example loader_example 6).
  - intros [|k]; cbn; [reflexivity|]. apply perm_swap.
  - cbn. lia.
Defined.

(* ===================================================================== *)
(** * Further properties *)

(** ** The schedule over the epochs *)

Lemma epoch_ratio_bounds (epoch T : Z) :
  (0 <= epoch < T)%Z -> (1 < T)%Z -> (0 <= IZR epoch / IZR (T - 1) <= 1)%R.
Proof.
  intros Hr HT.
  assert (Hpos : (0 < IZR (T - 1))%R) by (apply IZR_lt; lia).
  assert (He : (0 <= IZR epoch)%R) by (apply IZR_le; lia).
  assert (Hle : (IZR epoch <= IZR (T - 1))%R) by (apply IZR_le; lia).
  split.
  - apply Rmult_le_pos; [exact He|]. left. apply Rinv_0_lt_compat. exact Hpos.
  - apply (Rmult_le_reg_r (IZR (T - 1))); [exact Hpos|].
    unfold Rdiv. rewrite Rmult_assoc, Rinv_l by lra. lra.
Qed.

Lemma epoch_ratio_mono (e1 e2 T : Z) :
  (e1 <= e2)%Z -> (1 < T)%Z ->
  (IZR e1 / IZR (T - 1) <= IZR e2 / IZR (T - 1))%R.
Proof.
  intros He HT.
  assert (Hpos : (0 < IZR (T - 1))%R) by (apply IZR_lt; lia).
  apply Rmult_le_compat_r; [|apply IZR_le; exact He].
  left. apply Rinv_0_lt_compat. exact Hpos.
Qed.

(** X1: in exact arithmetic the linear schedule anneals: for
    [alpha_end <= alpha_start] and epochs [e1 <= e2] of a run of more than
    one epoch, both calls return and
    [alpha_end <= alpha(e2) <= alpha(e1) <= alpha_start]. *)
Theorem compute_alpha_linear_anneals (T e1 e2 : Z) (a_s a_e : R) :
  (1 < T)%Z -> (0 <= e1)%Z -> (e1 <= e2)%Z -> (e2 < T)%Z -> (a_e <= a_s)%R ->
  exists v1 v2,
    compute_alpha R_arith e1 T a_s a_e true = Return v1 /\
    compute_alpha R_arith e2 T a_s a_e true = Return v2 /\
    (a_e <= v2)%R /\ (v2 <= v1)%R /\ (v1 <= a_s)%R.
Proof.
  intros HT H0 H12 H2 Hd.
  rewrite !compute_alpha_linear_R by lia.
  eexists _, _. split; [reflexivity|]. split; [reflexivity|].
  pose proof (epoch_ratio_bounds e1 T ltac:(lia) HT) as [Ha1 _].
  pose proof (epoch_ratio_bounds e2 T ltac:(lia) HT) as [_ Hb2].
  pose proof (epoch_ratio_mono e1 e2 T H12 HT) as Hm.
  unfold Rdiv in *. rewrite !Rmult_assoc.
  set (t1 := (IZR e1 * / IZR (T - 1))%R) in *.
  set (t2 := (IZR e2 * / IZR (T - 1))%R) in *.
  assert (Hd' : (0 <= a_s - a_e)%R) by lra.
  repeat split; nra.
Qed.

Lemma compute_alpha_linear_anneals_witness :
  exists v1 v2,
    compute_alpha R_arith 1 5 1%R (2 / 10)%R true = Return v1 /\
    compute_alpha R_arith 3 5 1%R (2 / 10)%R true = Return v2 /\
    (2 / 10 <= v2)%R /\ (v2 <= v1)%R /\ (v1 <= 1)%R.
Proof.
  apply (compute_alpha_linear_anneals 5 1 3 1%R (2 / 10)%R); try lia. lra.
Defined.

(** X2: in exact arithmetic the exponential schedule anneals too: for
    [0 < alpha_end <= alpha_start] and epochs [e1 <= e2] both calls return
    and [alpha_end <= alpha(e2) <= alpha(e1) <= alpha_start]. *)
Theorem compute_alpha_exponential_anneals (T e1 e2 : Z) (a_s a_e : R) :
  (1 < T)%Z -> (0 <= e1)%Z -> (e1 <= e2)%Z -> (e2 < T)%Z ->
  (0 < a_e)%R -> (a_e <= a_s)%R ->
  exists v1 v2,
    compute_alpha R_arith e1 T a_s a_e false = Return v1 /\
    compute_alpha R_arith e2 T a_s a_e false = Return v2 /\
    (a_e <= v2)%R /\ (v2 <= v1)%R /\ (v1 <= a_s)%R.
Proof.
  intros HT H0 H12 H2 He Hd.
  assert (Hs : (0 < a_s)%R) by lra.
  assert (Hb : (0 < a_e / a_s)%R) by (apply Rdiv_lt_0_compat; assumption).
  rewrite !compute_alpha_exponential_R by (try lia; lra).
  rewrite !R_pow_pos by exact Hb.
  eexists _, _. split; [reflexivity|]. split; [reflexivity|].
  pose proof (epoch_ratio_bounds e1 T ltac:(lia) HT) as [Ha1 _].
  pose proof (epoch_ratio_bounds e2 T ltac:(lia) HT) as [_ Hb2].
  pose proof (epoch_ratio_mono e1 e2 T H12 HT) as Hm.
  set (t1 := (IZR e1 / IZR (T - 1))%R) in *.
  set (t2 := (IZR e2 / IZR (T - 1))%R) in *.
  assert (Hb1 : (a_e / a_s <= 1)%R).
  { apply (Rmult_le_reg_r a_s); [exact Hs|].
    unfold Rdiv. rewrite Rmult_assoc, Rinv_l by lra. lra. }
  assert (Hln : (ln (a_e / a_s) <= 0)%R).
  { rewrite <- ln_1. destruct Hb1 as [Hlt| ->]; [|lra].
    left. apply ln_increasing; assumption. }
  unfold Rpower.
  assert (Hmono : forall s t : R, (s <= t)%R ->
            (exp (t * ln (a_e / a_s)) <= exp (s * ln (a_e / a_s)))%R).
  { intros s t Hst.
    destruct (Rle_lt_or_eq_dec _ _ (ltac:(nra) :
                (t * ln (a_e / a_s) <= s * ln (a_e / a_s))%R)) as [Hlt|Heq].
    - left. apply exp_increasing. exact Hlt.
    - rewrite Heq. lra. }
  assert (H1 : (exp (t1 * ln (a_e / a_s)) <= 1)%R).
  { replace 1%R with (exp (0 * ln (a_e / a_s)))
      by (rewrite Rmult_0_l; apply exp_0).
    apply Hmono. exact Ha1. }
  assert (H2' : (a_e / a_s <= exp (t2 * ln (a_e / a_s)))%R).
  { replace (a_e / a_s)%R with (exp (1 * ln (a_e / a_s))) at 1
      by (rewrite Rmult_1_l; apply exp_ln; exact Hb).
    apply Hmono. exact Hb2. }
  pose proof (Hmono t1 t2 Hm) as H12'.
  assert (Hae : (a_s * (a_e / a_s) = a_e)%R) by (field; lra).
  set (x1 := exp (t1 * ln (a_e / a_s))) in *.
  set (x2 := exp (t2 * ln (a_e / a_s))) in *.
  set (b := (a_e / a_s)%R) in *.
  repeat split; nra.
Qed.

Lemma compute_alpha_exponential_anneals_witness :
  exists v1 v2,
    compute_alpha R_arith 1 5 1%R (2 / 10)%R false = Return v1 /\
    compute_alpha R_arith 3 5 1%R (2 / 10)%R false = Return v2 /\
    (2 / 10 <= v2)%R /\ (v2 <= v1)%R /\ (v1 <= 1)%R.
Proof.
  apply (compute_alpha_exponential_anneals 5 1 3 1%R (2 / 10)%R); try lia; lra.
Defined.

(** X3: the exponential schedule divides by [alpha_start]: when it is
    zero the call raises [ZeroDivisionError] although the epoch is in range
    and there is more than one epoch (and the quotient of the two ints is in
    the floats' range, which in binary64 it always is); the linear schedule
    returns for the same arguments when the two ints convert. *)
Theorem compute_alpha_exponential_zero_start {F : Type} (ops : arith F)
    (epoch T : Z) (a_s a_e : F) :
  (0 <= epoch < T)%Z -> (1 < T)%Z -> is_zero ops a_s = true ->
  truediv_fits ops epoch (T - 1) = true ->
  compute_alpha ops epoch T a_s a_e false = Raise ZeroDivisionError /\
  (int_fits ops epoch = true -> int_fits ops (T - 1) = true ->
   returns (compute_alpha ops epoch T a_s a_e true)) /\
  (forall m x_s x_e, PrimFloat.eqb x_s 0 = true ->
     compute_alpha (float_arith m) epoch T x_s x_e false
     = Raise ZeroDivisionError).
Proof.
  intros Hr HT Hz Hf. split; [|split].
  - apply compute_alpha_exponential_zero; assumption.
  - intros He Ht. rewrite compute_alpha_linear by assumption.
    eexists. reflexivity.
  - intros m x_s x_e Hx.
    apply (compute_alpha_exponential_zero (float_arith m)); try assumption.
    apply Z_truediv_fits_ratio; assumption.
Qed.

Lemma compute_alpha_exponential_zero_start_witness :
  compute_alpha toy_arith 2 5 0%float 0.2%float false = Raise ZeroDivisionError
  /\ returns (compute_alpha toy_arith 2 5 0%float 0.2%float true).
Proof.
  pose proof (compute_alpha_exponential_zero_start toy_arith 2 5 0%float
                0.2%float ltac:(lia) ltac:(lia) eq_refl eq_refl) as [H1 [H2 _]].
  split; [exact H1|]. apply H2; reflexivity.
Defined.

(** ** Task probabilities *)

Lemma get_task_probs_lookup (alpha : R) (sizes : list Z) (i : nat) (s : Z) :
  Forall (fun s => (0 < s)%Z) sizes ->
  sizes !! i = Some s ->
  get_task_probs R_arith alpha sizes !! i
  = Some (Rpower (IZR s) alpha
          / Rsum (map (fun s => Rpower (IZR s) alpha) sizes))%R.
Proof.
  intros Hpos Hs. rewrite get_task_probs_R by exact Hpos.
  change (map ?f ?l) with (f <$> l). rewrite !list_lookup_fmap, Hs.
  reflexivity.
Qed.

(** X4: in exact arithmetic, for [alpha >= 0] a task with at least as many
    examples gets at least as high a probability, and a strictly higher one
    when [alpha > 0] and it has strictly more examples. *)
Theorem get_task_probs_favors_larger (alpha : R) (sizes : list Z)
    (i j : nat) (si sj : Z) :
  (0 <= alpha)%R -> Forall (fun s => (0 < s)%Z) sizes ->
  sizes !! i = Some si -> sizes !! j = Some sj -> (si <= sj)%Z ->
  exists p_i p_j,
    get_task_probs R_arith alpha sizes !! i = Some p_i /\
    get_task_probs R_arith alpha sizes !! j = Some p_j /\
    (p_i <= p_j)%R /\
    ((0 < alpha)%R -> (si < sj)%Z -> (p_i < p_j)%R).
Proof.
  intros Ha Hpos Hi Hj Hle.
  rewrite (get_task_probs_lookup _ _ _ _ Hpos Hi),
    (get_task_probs_lookup _ _ _ _ Hpos Hj).
  eexists _, _. split; [reflexivity|]. split; [reflexivity|].
  assert (Htot : (0 < Rsum (map (fun s => Rpower (IZR s) alpha) sizes))%R).
  { apply Rsum_pos; [|apply scaled_positive].
    destruct sizes; [discriminate Hi|discriminate]. }
  assert (Hsi : (0 < IZR si)%R).
  { apply IZR_lt. rewrite Forall_forall in Hpos. apply (Hpos si).
    eapply list_elem_of_lookup_2. exact Hi. }
  assert (Hinv : (0 < / Rsum (map (fun s => Rpower (IZR s) alpha) sizes))%R)
    by (apply Rinv_0_lt_compat; exact Htot).
  split.
  - apply Rmult_le_compat_r; [lra|].
    apply Rle_Rpower_l; [exact Ha|]. split; [exact Hsi|apply IZR_le; exact Hle].
  - intros Ha' Hlt. apply Rmult_lt_compat_r; [exact Hinv|].
    apply Rlt_Rpower_l; [exact Ha'|]. split; [exact Hsi|apply IZR_lt; exact Hlt].
Qed.

Lemma get_task_probs_favors_larger_witness :
  exists p_i p_j,
    get_task_probs R_arith (1 / 2)%R [100; 300; 600]%Z !! 0 = Some p_i /\
    get_task_probs R_arith (1 / 2)%R [100; 300; 600]%Z !! 2 = Some p_j /\
    (p_i <= p_j)%R /\
    ((0 < 1 / 2)%R -> (100 < 600)%Z -> (p_i < p_j)%R).
Proof.
  apply (get_task_probs_favors_larger (1 / 2)%R [100; 300; 600]%Z 0 2 100 600).
  - lra.
  - repeat constructor.
  - reflexivity.
  - reflexivity.
  - lia.
Defined.

(** X5: in exact arithmetic only the ratios of the dataset sizes matter:
    multiplying every size by the same positive factor leaves the
    probabilities unchanged, for every [alpha]. *)
Theorem get_task_probs_scale_invariant (alpha : R) (c : Z) (sizes : list Z) :
  (0 < c)%Z -> sizes <> [] -> Forall (fun s => (0 < s)%Z) sizes ->
  get_task_probs R_arith alpha (map (Z.mul c) sizes)
  = get_task_probs R_arith alpha sizes.
Proof.
  intros Hc Hne Hpos.
  set (k := Rpower (IZR c) alpha).
  assert (Hk : (0 < k)%R) by (unfold k, Rpower; apply exp_pos).
  assert (Hscaled : map (fun s => Rpower (IZR s) alpha) (map (Z.mul c) sizes)
                    = map (fun x => (k * x)%R)
                          (map (fun s => Rpower (IZR s) alpha) sizes)).
  { rewrite !map_map. clear Hne.
    induction Hpos as [|s l Hs _ IH]; [reflexivity|]. cbn. rewrite IH.
    f_equal. rewrite mult_IZR. unfold k.
    symmetry. apply Rpower_mult_distr; apply IZR_lt; lia. }
  assert (Hsum : forall xs, Rsum (map (fun x => (k * x)%R) xs) = (k * Rsum xs)%R).
  { induction xs as [|x xs IH]; cbn; [lra|]. rewrite IH. lra. }
  assert (Htot : (0 < Rsum (map (fun s => Rpower (IZR s) alpha) sizes))%R).
  { apply Rsum_pos; [|apply scaled_positive].
    destruct sizes; [contradiction|discriminate]. }
  assert (Hpos' : Forall (fun s => (0 < s)%Z) (map (Z.mul c) sizes)).
  { apply Forall_map. eapply Forall_impl; [exact Hpos|].
    intros s Hs. apply Z.mul_pos_pos; assumption. }
  rewrite (get_task_probs_R _ _ Hpos'), (get_task_probs_R _ _ Hpos).
  rewrite Hscaled, Hsum, map_map.
  apply map_ext. intros x. field. lra.
Qed.

Lemma get_task_probs_scale_invariant_witness :
  get_task_probs R_arith (2 / 10)%R (map (Z.mul 10) [10; 30; 60]%Z)
  = get_task_probs R_arith (2 / 10)%R [10; 30; 60]%Z.
Proof.
  apply get_task_probs_scale_invariant.
  - lia.
  - discriminate.
  - repeat constructor.
Defined.

(** X6: in binary64, at [alpha = 0] all tasks get one and the same
    probability whatever the sizes are (zero and negative ones included):
    [x ** 0.0] is 1.0 for every [x]. *)
Theorem get_task_probs_float_uniform (m : libm) (sizes : list Z) :
  exists p, get_task_probs (float_arith m) 0%float sizes
            = map (fun _ => p) sizes.
Proof.
  exists (1 / np_sum (float_arith m) (map (fun _ => 1%float) sizes))%float.
  unfold get_task_probs.
  assert (H : map (fun s => fpow (float_arith m) (of_int (float_arith m) s) 0%float)
                  sizes = map (fun _ => 1%float) sizes).
  { apply map_ext. intros s. reflexivity. }
  rewrite H, map_map. reflexivity.
Qed.

(** ** The model: construction, evaluation mode, shape errors *)

(** X7: the constructor checks the fine-tune mode, then the dropout
    probability.  It returns a model exactly when the mode is
    "last-linear-layer" or "full-model" and the probability is neither
    below 0 nor above 1; for any other mode it raises [AssertionError]
    whatever the probability is, and for one of the two modes with a
    probability outside [0, 1] it raises [ValueError]. *)
Theorem init_checks_mode_and_dropout {F rng tensor : Type} (ops : arith F)
    (uniform : rng -> F * rng) (config : Config F)
    (pretrained : list (nn_Parameter tensor)) (g : rng) :
  (returns (MultitaskBERT_init ops uniform config pretrained g) <->
   (fine_tune_mode config = "last-linear-layer"%string \/
    fine_tune_mode config = "full-model"%string) /\
   fgtb ops (of_int ops 0) (hidden_dropout_prob config)
   || fgtb ops (hidden_dropout_prob config) (of_int ops 1) = false) /\
  (~ (fine_tune_mode config = "last-linear-layer"%string \/
      fine_tune_mode config = "full-model"%string) ->
   MultitaskBERT_init ops uniform config pretrained g = Raise AssertionError) /\
  (fine_tune_mode config = "last-linear-layer"%string \/
   fine_tune_mode config = "full-model"%string ->
   fgtb ops (of_int ops 0) (hidden_dropout_prob config)
   || fgtb ops (hidden_dropout_prob config) (of_int ops 1) = true ->
   MultitaskBERT_init ops uniform config pretrained g = Raise ValueError).
Proof.
  split; [split|split].
  - intros [[m g1] H].
    destruct (init_returns ops uniform _ _ _ _ _ H)
      as (Hmode & _ & _ & _ & _ & _ & _ & _ & Hp).
    split; [exact Hmode|]. unfold Dropout_new in Hp.
    destruct (fgtb ops (of_int ops 0) (hidden_dropout_prob config)
              || fgtb ops (hidden_dropout_prob config) (of_int ops 1));
      [discriminate|reflexivity].
  - intros [Hmode Hp]. apply init_accepts; assumption.
  - intros Hn. apply init_rejects_mode; intros E; apply Hn; auto.
  - intros Hmode Hp. apply init_rejects_dropout; assumption.
Qed.

Lemma init_checks_mode_and_dropout_witness :
  MultitaskBERT_init toy_arith toy_uniform
    (MkConfig 1.5%float N_SENTIMENT_CLASSES 2 "." "full-model" false)
    toy_pretrained 0
  = Raise ValueError.
Proof.
  apply (init_checks_mode_and_dropout toy_arith toy_uniform
           (MkConfig 1.5%float N_SENTIMENT_CLASSES 2 "." "full-model" false)
           toy_pretrained 0).
  - right. reflexivity.
  - reflexivity.
Defined.

(** X8: in evaluation mode the heads draw no dropout mask: the results do
    not depend on the Bernoulli source, and the random state handed back by
    [predict_sentiment] is the one the encoder left. *)
Theorem eval_mode_draws_no_mask {F : Type} (ops : arith F)
    {rng tensor : Type}
    (BertModel : list (nn_Parameter tensor) -> bool -> list (list Z) ->
                 list (list Z) -> rng -> BertOutput F * rng)
    (bernoulli bernoulli' : F -> rng -> bool * rng)
    (m : MultitaskBERT F tensor)
    (ids1 mask1 ids2 mask2 : list (list Z)) (g : rng) :
  training m = false ->
  predict_sentiment ops BertModel bernoulli m ids1 mask1 g
  = predict_sentiment ops BertModel bernoulli' m ids1 mask1 g /\
  predict_paraphrase ops BertModel bernoulli m ids1 mask1 ids2 mask2 g
  = predict_paraphrase ops BertModel bernoulli' m ids1 mask1 ids2 mask2 g /\
  predict_similarity ops BertModel bernoulli m ids1 mask1 ids2 mask2 g
  = predict_similarity ops BertModel bernoulli' m ids1 mask1 ids2 mask2 g /\
  (forall t g', predict_sentiment ops BertModel bernoulli m ids1 mask1 g
                = Return (t, g') ->
                g' = (forward BertModel m ids1 mask1 g).2).
Proof.
  intros Ht.
  unfold predict_sentiment, predict_paraphrase, predict_similarity,
    Dropout_forward. rewrite Ht.
  repeat split.
  intros t g'. destruct (forward BertModel m ids1 mask1 g) as [out g1].
  destruct (Linear_forward ops (sst_dense m) (pooler_output out)); cbn;
    [|discriminate].
  intros [= _ <-]. reflexivity.
Qed.

Lemma eval_mode_witness :
  exists m g1, toy_init "full-model" true = Return (m, g1) /\
  predict_paraphrase toy_arith toy_bert toy_bernoulli (set_training false m)
    [[1; 2]; [3]]%Z [[1; 1]; [1]]%Z [[4]; [5; 6]]%Z [[1]; [1; 1]]%Z 7
  = predict_paraphrase toy_arith toy_bert (fun _ g => (false, g))
      (set_training false m)
    [[1; 2]; [3]]%Z [[1; 1]; [1]]%Z [[4]; [5; 6]]%Z [[1]; [1; 1]]%Z 7.
Proof.
  eexists _, _. split; [reflexivity|].
  eapply eval_mode_draws_no_mask. reflexivity.
Defined.

(** X9: in siamese mode the two batches must have the same number of
    sequences: otherwise the concatenation of the pooled vectors fails and
    both paired heads raise [RuntimeError]. *)
Theorem siamese_batch_mismatch {F : Type} (ops : arith F)
    {rng tensor : Type}
    (BertModel : list (nn_Parameter tensor) -> bool -> list (list Z) ->
                 list (list Z) -> rng -> BertOutput F * rng)
    (bernoulli : F -> rng -> bool * rng) (H : nat)
    (m : MultitaskBERT F tensor)
    (ids1 mask1 ids2 mask2 : list (list Z)) (g : rng) :
  encoder_contract BertModel H -> siamese m = true ->
  length ids1 <> length ids2 ->
  predict_paraphrase ops BertModel bernoulli m ids1 mask1 ids2 mask2 g
  = Raise RuntimeError /\
  predict_similarity ops BertModel bernoulli m ids1 mask1 ids2 mask2 g
  = Raise RuntimeError.
Proof.
  intros Henc Hs Hlen.
  unfold predict_paraphrase, predict_similarity, forward. rewrite Hs. cbn [negb].
  pose proof (Henc (bert m) (training m) ids1 mask1 g) as [He1 _].
  destruct (BertModel (bert m) (training m) ids1 mask1 g) as [out1 g1].
  pose proof (Henc (bert m) (training m) ids2 mask2 g1) as [He2 _].
  destruct (BertModel (bert m) (training m) ids2 mask2 g1) as [out2 g2].
  cbn in He1, He2. unfold cat_dim1.
  replace (length (pooler_output out1) =? length (pooler_output out2))
    with false by (symmetry; apply Nat.eqb_neq; lia).
  split; reflexivity.
Qed.

Lemma siamese_batch_mismatch_witness :
  exists m g1, toy_init "full-model" true = Return (m, g1) /\
  predict_similarity toy_arith toy_bert toy_bernoulli m
    [[1; 2]; [3]]%Z [[1; 1]; [1]]%Z [[4]]%Z [[1]]%Z 7 = Raise RuntimeError.
Proof.
  eexists _, _. split; [reflexivity|].
  eapply (siamese_batch_mismatch toy_arith toy_bert toy_bernoulli 2).
  - exact toy_bert_contract.
  - reflexivity.
  - cbn. lia.
Defined.

Lemma Linear_forward_width_mismatch {F} (ops : arith F) (l : Linear F)
    (x : list (list F)) (W : nat) :
  x <> [] -> Forall (fun row => length row = W) x -> W <> in_features l ->
  Linear_forward ops l x = Raise RuntimeError.
Proof.
  intros Hne Hx HW. unfold Linear_forward.
  destruct x as [|row x]; [contradiction|].
  inversion Hx as [|? ? Hrow _]; subst. cbn.
  replace (length row =? in_features l) with false
    by (symmetry; apply Nat.eqb_neq; exact HW).
  reflexivity.
Qed.

(** X10: the constructor does not compare [config.hidden_size] with the
    width of the encoder.  When they differ the model is built all the
    same, and every prediction on a non-empty batch raises [RuntimeError]
    at the head: [predict_sentiment], and the paired heads in
    single-encoding mode. *)
Theorem hidden_size_mismatch {F : Type} (ops : arith F) {rng tensor : Type}
    (BertModel : list (nn_Parameter tensor) -> bool -> list (list Z) ->
                 list (list Z) -> rng -> BertOutput F * rng)
    (uniform : rng -> F * rng) (bernoulli : F -> rng -> bool * rng)
    (config : Config F) (pretrained : list (nn_Parameter tensor))
    (g0 g1 : rng) (m : MultitaskBERT F tensor) (width : nat)
    (ids1 mask1 ids2 mask2 : list (list Z)) (g : rng) :
  MultitaskBERT_init ops uniform config pretrained g0 = Return (m, g1) ->
  encoder_contract BertModel width -> width <> hidden_size config ->
  ids1 <> [] ->
  predict_sentiment ops BertModel bernoulli m ids1 mask1 g
  = Raise RuntimeError /\
  (cfg_siamese config = false ->
   predict_paraphrase ops BertModel bernoulli m ids1 mask1 ids2 mask2 g
   = Raise RuntimeError /\
   predict_similarity ops BertModel bernoulli m ids1 mask1 ids2 mask2 g
   = Raise RuntimeError).
Proof.
  intros Hinit Henc Hw Hne.
  destruct (init_returns ops uniform config pretrained g0 m g1 Hinit)
    as (_ & _ & _ & Hsiam & _ & Hsh & _).
  destruct Hsh as ((Hsst & _) & (Hpara & _) & _ & (Hsts & _) & _).
  pose proof (Henc (bert m) (training m) ids1 mask1 g) as He.
  assert (Hfail : forall l, in_features l = hidden_size config ->
            (let '(out, g1) := forward BertModel m ids1 mask1 g in
             let '(d, g2) := Dropout_forward ops bernoulli m
                               (pooler_output out) g1 in
             Linear_forward ops l d) = Raise RuntimeError).
  { intros l Hl. unfold forward.
    destruct (BertModel (bert m) (training m) ids1 mask1 g) as [out g1'].
    cbn in He.
    pose proof (Dropout_forward_shape ops bernoulli m _ _ _ g1' He) as [Hdl Hdr].
    destruct (Dropout_forward ops bernoulli m (pooler_output out) g1')
      as [d g2]. cbn in Hdl, Hdr.
    apply (Linear_forward_width_mismatch ops l d width); [|exact Hdr|congruence].
    intros ->. destruct ids1; [contradiction|discriminate Hdl]. }
  split.
  - unfold predict_sentiment. specialize (Hfail (sst_dense m) Hsst).
    destruct (forward BertModel m ids1 mask1 g) as [out g1'].
    destruct (Dropout_forward ops bernoulli m (pooler_output out) g1')
      as [d g2]. rewrite Hfail. reflexivity.
  - intros Hs. unfold predict_paraphrase, predict_similarity.
    rewrite Hsiam, Hs. cbn [negb]. split.
    + specialize (Hfail (para_dense m) Hpara).
      destruct (forward BertModel m ids1 mask1 g) as [out g1'].
      destruct (Dropout_forward ops bernoulli m (pooler_output out) g1')
        as [d g2]. rewrite Hfail. reflexivity.
    + specialize (Hfail (sts_dense m) Hsts).
      destruct (forward BertModel m ids1 mask1 g) as [out g1'].
      destruct (Dropout_forward ops bernoulli m (pooler_output out) g1')
        as [d g2]. rewrite Hfail. reflexivity.
Qed.

Lemma hidden_size_mismatch_witness :
  exists m g1,
    MultitaskBERT_init toy_arith toy_uniform
      (MkConfig 0.5%float 5 3 "." "full-model" false) toy_pretrained 0
    = Return (m, g1) /\
    predict_sentiment toy_arith toy_bert toy_bernoulli m
      [[1; 2]; [3]]%Z [[1; 1]; [1]]%Z 7 = Raise RuntimeError.
Proof.
  eexists _, _. split; [reflexivity|].
  eapply (hidden_size_mismatch toy_arith toy_bert toy_uniform toy_bernoulli
            (MkConfig 0.5%float 5 3 "." "full-model" false) toy_pretrained
            0 _ _ 2 _ _ [] []).
  - reflexivity.
  - exact toy_bert_contract.
  - cbn. lia.
  - discriminate.
Defined.

(** X11: with fine-tune mode "last-linear-layer" the encoder keeps the
    pretrained values through any number of training steps, whatever the
    gradients and update rules of the steps. *)
Theorem frozen_encoder_stays_pretrained {F rng tensor : Type} (ops : arith F)
    (uniform : rng -> F * rng) (config : Config F)
    (pretrained : list (nn_Parameter tensor)) (g0 g1 : rng)
    (m : MultitaskBERT F tensor)
    (steps : list (gradients F tensor * update_rule F tensor)) :
  MultitaskBERT_init ops uniform config pretrained g0 = Return (m, g1) ->
  fine_tune_mode config = "last-linear-layer"%string ->
  map data (bert (train_steps_seq steps m)) = map data pretrained.
Proof.
  intros Hinit Hmode.
  destruct (init_returns ops uniform config pretrained g0 m g1 Hinit)
    as (_ & Hbert & _).
  assert (Hfrozen : Forall (fun p => requires_grad p = false) (bert m)).
  { rewrite Hbert, Hmode. apply set_fine_tune_mode_frozen. }
  assert (Hdata : map data (bert m) = map data pretrained).
  { rewrite Hbert, map_map. apply map_ext. intros p.
    rewrite Hmode. reflexivity. }
  rewrite <- Hdata. clear Hbert Hdata Hinit.
  unfold train_steps_seq. revert m Hfrozen.
  induction steps as [|[gs u] steps IH]; intros m Hf; [reflexivity|].
  cbn [fold_left fst snd]. destruct (frozen_encoder_step gs u m Hf) as [Hd Hf'].
  rewrite (IH _ Hf'). exact Hd.
Qed.

Lemma frozen_encoder_stays_pretrained_witness :
  exists m g1, toy_init "last-linear-layer" false = Return (m, g1) /\
  map data (bert (train_steps_seq
                    [(toy_gradients, toy_update); (toy_gradients, toy_update)]
                    m))
  = map data toy_pretrained.
Proof.
  eexists _, _. split; [reflexivity|].
  eapply (frozen_encoder_stays_pretrained toy_arith toy_uniform
            (toy_config "last-linear-layer" false) toy_pretrained 0);
    reflexivity.
Defined.

(** ** Saving and loading *)

Lemma shape2_same_shape {F} (B W : nat) (a b : list (list F)) :
  shape2 B W a -> shape2 B W b -> same_shape_mat a b = true.
Proof.
  intros [Hla Hra] [Hlb Hrb]. apply bool_decide_eq_true.
  subst B. revert b Hlb Hrb.
  induction Hra as [|r a Hr _ IH]; intros b Hlb Hrb.
  - destruct b; [reflexivity|discriminate].
  - destruct Hrb as [|r' b Hr' Hrb]; [discriminate|].
    cbn. f_equal; [congruence|]. apply IH; [|exact Hrb].
    cbn in Hlb. lia.
Qed.

Lemma state_dict_head {F tensor} (m : MultitaskBERT F tensor) (name : string)
    (l : Linear F) :
  (name, l) ∈ named_heads m ->
  sd_heads (state_dict m) !! name
  = Some (data (weight l), data (bias l)).
Proof.
  intros Hin. unfold state_dict, named_heads in *. cbn.
  repeat (apply elem_of_cons in Hin as [[= -> ->]|Hin];
          [repeat (rewrite lookup_insert_ne by discriminate);
           apply lookup_insert_eq|]).
  apply elem_of_nil in Hin. contradiction.
Qed.

Lemma state_dict_keys {F tensor} (m m' : MultitaskBERT F tensor) :
  dom (sd_heads (state_dict m)) ⊆ list_to_set (map fst (named_heads m')).
Proof.
  unfold state_dict. cbn [sd_heads]. rewrite dom_list_to_map_L.
  change (map ?f ?l) with (f <$> l). rewrite <- list_fmap_compose.
  reflexivity.
Qed.

Lemma load_linear_head {F} (heads : gmap string (list (list F) * list F))
    (name : string) (inf outf : nat) (l l0 : Linear F) :
  heads !! name = Some (data (weight l), data (bias l)) ->
  head_shaped inf outf l -> head_shaped inf outf l0 ->
  exists l', load_linear name heads l0 = Return l' /\ same_linear l' l.
Proof.
  intros Hlk (Hin & Hout & Hw & Hb) (Hin0 & Hout0 & Hw0 & Hb0).
  unfold load_linear, load_param. rewrite Hlk.
  rewrite (shape2_same_shape (out_features l0) (in_features l0)).
  2: exact Hw0.
  2:{ rewrite Hin0, Hout0, <- Hin, <- Hout. exact Hw. }
  unfold same_shape_vec.
  replace (length (data (bias l0)) =? length (data (bias l))) with true
    by (symmetry; apply Nat.eqb_eq; congruence).
  cbn. eexists. split; [reflexivity|].
  unfold same_linear. cbn. repeat split; congruence.
Qed.

Lemma load_bert_values {tensor} (same : tensor -> tensor -> bool)
    (ps : list (nn_Parameter tensor)) (ds : list tensor) :
  Forall2 (fun p d => same (data p) d = true) ps ds ->
  exists ps', load_bert same ps ds = Return ps' /\ map data ps' = ds.
Proof.
  induction 1 as [|p d ps ds Hpd _ (ps' & Hps & Hd)].
  - exists []. split; reflexivity.
  - cbn. unfold load_param. rewrite Hpd. cbn. rewrite Hps. cbn.
    eexists. split; [reflexivity|]. cbn. rewrite Hd. reflexivity.
Qed.

Lemma Linear_forward_same {F} (ops : arith F) (l l' : Linear F) x :
  same_linear l l' -> Linear_forward ops l x = Linear_forward ops l' x.
Proof.
  intros (Hin & _ & Hw & Hb). unfold Linear_forward.
  rewrite Hin, Hw, Hb. reflexivity.
Qed.

Lemma eval_predictions_same {F : Type} (ops : arith F) {rng tensor : Type}
    (BertModel : list (nn_Parameter tensor) -> bool -> list (list Z) ->
                 list (list Z) -> rng -> BertOutput F * rng)
    (bernoulli : F -> rng -> bool * rng) (m m' : MultitaskBERT F tensor)
    (ids1 mask1 ids2 mask2 : list (list Z)) (g : rng) :
  encoder_reads_data BertModel -> same_weights m m' ->
  predict_sentiment ops BertModel bernoulli (set_training false m) ids1 mask1 g
  = predict_sentiment ops BertModel bernoulli (set_training false m')
      ids1 mask1 g /\
  predict_paraphrase ops BertModel bernoulli (set_training false m)
    ids1 mask1 ids2 mask2 g
  = predict_paraphrase ops BertModel bernoulli (set_training false m')
      ids1 mask1 ids2 mask2 g /\
  predict_similarity ops BertModel bernoulli (set_training false m)
    ids1 mask1 ids2 mask2 g
  = predict_similarity ops BertModel bernoulli (set_training false m')
      ids1 mask1 ids2 mask2 g.
Proof.
  intros Henc (Hbert & Hsst & Hpara & Hpara_s & Hsts & Hsts_s & Hsiam).
  pose proof (Henc _ _ Hbert) as Hfun.
  unfold predict_sentiment, predict_paraphrase, predict_similarity, forward,
    Dropout_forward. cbn [set_training bert training siamese sst_dense
    para_dense para_dense_siamese sts_dense sts_dense_siamese].
  rewrite Hfun, Hsiam.
  rewrite (proj1 (proj2 Hpara)), (proj1 (proj2 Hpara_s)),
    (proj1 (proj2 Hsts)), (proj1 (proj2 Hsts_s)).
  repeat split;
    repeat match goal with
    | |- context [BertModel ?a ?b ?c ?d ?e] =>
        destruct (BertModel a b c d e) as [? ?]
    | |- context [cat_dim1 ?a ?b] => destruct (cat_dim1 a b); cbn
    end;
    rewrite ?(Linear_forward_same ops _ _ _ Hsst),
      ?(Linear_forward_same ops _ _ _ Hpara),
      ?(Linear_forward_same ops _ _ _ Hpara_s),
      ?(Linear_forward_same ops _ _ _ Hsts),
      ?(Linear_forward_same ops _ _ _ Hsts_s);
    reflexivity.
Qed.

(** X12: a checkpoint restores the model.  When a model whose layers have
    the shapes of its configuration, a configuration whose dropout
    probability the constructor accepts, is saved with [save_model], the
    head of
    [test_multitask] finds the file, builds a model from the saved
    configuration and loads the saved values without error; the loaded
    model has the saved parameter values and, in evaluation mode, returns
    what the saved model returns on every input. *)
Theorem checkpoint_round_trip {F : Type} (ops : arith F)
    {rng tensor O G : Type}
    (BertModel : list (nn_Parameter tensor) -> bool -> list (list Z) ->
                 list (list Z) -> rng -> BertOutput F * rng)
    (uniform : rng -> F * rng) (bernoulli : F -> rng -> bool * rng)
    (same_shape_tensor : tensor -> tensor -> bool)
    (pretrained : list (nn_Parameter tensor)) (args : Args)
    (config : Config F) (m : MultitaskBERT F tensor) (optimizer : O)
    (rngs : rng_states G)
    (fs0 : gmap string (save_info (MultitaskBERT F tensor) O (Config F) G))
    (out : list (output F)) (g : rng) :
  fine_tune_mode config = "last-linear-layer"%string \/
  fine_tune_mode config = "full-model"%string ->
  fgtb ops (of_int ops 0) (hidden_dropout_prob config)
  || fgtb ops (hidden_dropout_prob config) (of_int ops 1) = false ->
  model_shaped (hidden_size config) m ->
  m_num_labels m = num_labels config ->
  siamese m = cfg_siamese config ->
  Forall2 (fun q p => same_shape_tensor (data q) (data p) = true)
          pretrained (bert m) ->
  encoder_reads_data BertModel ->
  exists m' g',
    test_multitask_model ops uniform same_shape_tensor pretrained args
      (save_model m optimizer args config (filepath args) rngs fs0 out).1 g
    = Loaded (m', g') /\
    same_weights m' m /\
    forall ids1 mask1 ids2 mask2 gg,
      predict_sentiment ops BertModel bernoulli (set_training false m')
        ids1 mask1 gg
      = predict_sentiment ops BertModel bernoulli (set_training false m)
          ids1 mask1 gg /\
      predict_paraphrase ops BertModel bernoulli (set_training false m')
        ids1 mask1 ids2 mask2 gg
      = predict_paraphrase ops BertModel bernoulli (set_training false m)
          ids1 mask1 ids2 mask2 gg /\
      predict_similarity ops BertModel bernoulli (set_training false m')
        ids1 mask1 ids2 mask2 gg
      = predict_similarity ops BertModel bernoulli (set_training false m)
          ids1 mask1 ids2 mask2 gg.
Proof.
  intros Hmode Hp Hsh Hn Hsiam Hshape Henc.
  destruct (init_accepts ops uniform config pretrained g Hmode Hp)
    as [[m0 g1] Hinit].
  destruct (init_returns ops uniform config pretrained g m0 g1 Hinit)
    as (_ & Hbert0 & Hn0 & Hsiam0 & _ & Hsh0 & _).
  destruct Hsh as (Hsst & Hpara & Hpara_s & Hsts & Hsts_s).
  destruct Hsh0 as (Hsst0 & Hpara0 & Hpara_s0 & Hsts0 & Hsts_s0).
  rewrite Hn0, <- Hn in Hsst0.
  destruct (load_bert_values same_shape_tensor (bert m0) (map data (bert m)))
    as (bert' & Hlb & Hdata).
  { rewrite Hbert0. clear -Hshape. induction Hshape as [|q p qs ps Hqp _ IH].
    - constructor.
    - cbn. constructor; [|exact IH].
      unfold set_fine_tune_mode.
      destruct (String.eqb _ _); [exact Hqp|].
      destruct (String.eqb _ _); exact Hqp. }
  destruct (load_linear_head (sd_heads (state_dict m)) "sst_dense"
              (hidden_size config) (m_num_labels m)
              (sst_dense m) (sst_dense m0)) as (sst' & Hl1 & Hs1);
    [apply state_dict_head; unfold named_heads;
     repeat first [apply list_elem_of_here|apply list_elem_of_further]
    |assumption..|].
  destruct (load_linear_head (sd_heads (state_dict m)) "para_dense"
              (hidden_size config) 1
              (para_dense m) (para_dense m0)) as (para' & Hl2 & Hs2);
    [apply state_dict_head; unfold named_heads;
     repeat first [apply list_elem_of_here|apply list_elem_of_further]
    |assumption..|].
  destruct (load_linear_head (sd_heads (state_dict m)) "para_dense_siamese"
              (hidden_size config * 2) 1
              (para_dense_siamese m) (para_dense_siamese m0))
    as (para_s' & Hl3 & Hs3);
    [apply state_dict_head; unfold named_heads;
     repeat first [apply list_elem_of_here|apply list_elem_of_further]
    |assumption..|].
  destruct (load_linear_head (sd_heads (state_dict m)) "sts_dense"
              (hidden_size config) 1
              (sts_dense m) (sts_dense m0)) as (sts' & Hl4 & Hs4);
    [apply state_dict_head; unfold named_heads;
     repeat first [apply list_elem_of_here|apply list_elem_of_further]
    |assumption..|].
  destruct (load_linear_head (sd_heads (state_dict m)) "sts_dense_siamese"
              (hidden_size config * 2) 1
              (sts_dense_siamese m) (sts_dense_siamese m0))
    as (sts_s' & Hl5 & Hs5);
    [apply state_dict_head; unfold named_heads;
     repeat first [apply list_elem_of_here|apply list_elem_of_further]
    |assumption..|].
  set (m' := MkModel bert' (m_num_labels m0) (dropout m0) sst' para' para_s'
                     sts' sts_s' (siamese m0) (training m0)).
  assert (Hsame : same_weights m' m).
  { unfold same_weights, m'. cbn. repeat split; try tauto; try congruence;
      first [apply Hs1|apply Hs2|apply Hs3|apply Hs4|apply Hs5]. }
  exists m', g1. split; [|split; [exact Hsame|]].
  - unfold test_multitask_model, save_model. cbn [fst].
    rewrite lookup_insert_eq. cbn -[state_dict load_state_dict].
    rewrite Hinit. cbn -[state_dict load_state_dict].
    unfold load_state_dict.
    rewrite (bool_decide_eq_true_2 _ (state_dict_keys m m0)). cbn [negb].
    change (sd_bert (state_dict m)) with (map data (bert m)).
    rewrite Hlb. cbn -[state_dict load_linear].
    rewrite Hl1. cbn -[state_dict load_linear].
    rewrite Hl2. cbn -[state_dict load_linear].
    rewrite Hl3. cbn -[state_dict load_linear].
    rewrite Hl4. cbn -[state_dict load_linear].
    rewrite Hl5. reflexivity.
  - intros ids1 mask1 ids2 mask2 gg.
    apply eval_predictions_same; assumption.
Qed.

Lemma checkpoint_round_trip_witness :
  exists m g1, toy_init "full-model" true = Return (m, g1) /\
  exists m' g',
    test_multitask_model toy_arith toy_uniform same_shape_vec toy_pretrained (toy_args 2)
      (save_model (F := float) (G := nat) m tt (toy_args 2)
         (toy_config "full-model" true) "model.pt" (MkRngs 0 0 0) ∅ []).1 5
    = Loaded (m', g') /\
    same_weights m' m.
Proof.
  eexists _, _. split; [reflexivity|].
  match goal with
  | |- context [save_model ?m _ _ _ _ _ _ _] =>
      destruct (checkpoint_round_trip toy_arith toy_bert toy_uniform
                  toy_bernoulli same_shape_vec toy_pretrained (toy_args 2)
                  (toy_config "full-model" true) m tt (MkRngs 0 0 0) ∅ [] 5)
        as (m' & g' & H1 & H2 & _)
  end.
  - right. reflexivity.
  - reflexivity.
  - eapply (init_returns toy_arith toy_uniform (toy_config "full-model" true)
              toy_pretrained 0). reflexivity.
  - reflexivity.
  - reflexivity.
  - repeat constructor.
  - intros ps ps' _. reflexivity.
  - exists m', g'. split; [exact H1|exact H2].
Defined.

(** ** Runs of the epoch loop *)

Section RunFacts.
Context {F : Type} (ops : arith F) {M O C G : Type}.
Variable train_steps :
  Z -> list F -> M * O * rng_states G -> M * O * rng_states G.
Variable model_eval_multitask :
  bool -> M -> rng_states G -> (F * F * F) * rng_states G.

Abbreviation epoch_body := (train_epoch ops train_steps model_eval_multitask).
Abbreviation run := (train_epochs ops train_steps model_eval_multitask).
Abbreviation state := (loop_state F M O C G).
Abbreviation quiet := (forallb (fun o : output F => negb (is_save o))).

Lemma py_range_nonpositive (n : Z) : (n <= 0)%Z -> py_range n = [].
Proof.
  intros H. unfold py_range. replace (Z.to_nat n) with 0 by lia. reflexivity.
Qed.

(** Each epoch reports once and saves at most once. *)
Lemma run_reports (args : Args) (config : C) sizes todo (st st' : state) :
  run args config sizes todo st = Return st' ->
  exists out, stdout st' = stdout st ++ out /\
    reported_epochs out = todo /\
    length (List.filter is_save out) <= length todo.
Proof.
  revert st. induction todo as [|epoch todo IH]; intros st; cbn.
  - intros [= <-]. exists []. rewrite app_nil_r. auto.
  - destruct (epoch_body args config sizes epoch st) as [st1|e] eqn:H1;
      [|discriminate].
    cbn. intros Hrun.
    destruct (train_epoch_cases _ _ _ _ _ _ _ _ _ H1)
      as (a & b & c & g & _ & Hcase). cbn zeta in Hcase.
    destruct (IH st1 Hrun) as (out & Hout & Hep & Hsv).
    destruct Hcase as [(_ & _ & _ & Ho) | (_ & _ & _ & Ho)];
      (eexists; split; [rewrite Hout, Ho, <- app_assoc; reflexivity|]);
      unfold reported_epochs in *; rewrite omap_app, List.filter_app, length_app;
      cbn; rewrite Hep; split; try reflexivity; cbn; lia.
Qed.

(** What a run prints, epoch by epoch: the report of the epoch, with the
    line of [save_model] before it when the epoch saved. *)
Lemma run_blocks (args : Args) (config : C) sizes todo (st st' : state) :
  run args config sizes todo st = Return st' ->
  exists blocks : list (list (output F)),
    stdout st' = stdout st ++ concat blocks /\
    Forall2 (fun epoch block =>
               exists dev_sst dev_para dev_sts avg,
                 let report := EpochMsg epoch dev_sst dev_para dev_sts avg in
                 block = [report]
                 \/ block = [SaveMsg (filepath args); report])
            todo blocks.
Proof.
  revert st. induction todo as [|epoch todo IH]; intros st; cbn.
  - intros [= <-]. exists []. rewrite app_nil_r. split; constructor.
  - destruct (epoch_body args config sizes epoch st) as [st1|e] eqn:H1;
      [|discriminate].
    cbn. intros Hrun.
    destruct (train_epoch_cases _ _ _ _ _ _ _ _ _ H1)
      as (a & b & c & g & _ & Hcase). cbn zeta in Hcase.
    destruct (IH st1 Hrun) as (blocks & Hout & Hall).
    destruct Hcase as [(_ & _ & _ & Ho) | (_ & _ & _ & Ho)].
    + exists ([SaveMsg (filepath args);
               EpochMsg epoch a b c (avg3 ops a b c)] :: blocks).
      split; [rewrite Hout, Ho, <- app_assoc; reflexivity|].
      constructor; [|exact Hall]. exists a, b, c, (avg3 ops a b c).
      right. reflexivity.
    + exists ([EpochMsg epoch a b c (avg3 ops a b c)] :: blocks).
      split; [rewrite Hout, Ho, <- app_assoc; reflexivity|].
      constructor; [|exact Hall]. exists a, b, c, (avg3 ops a b c).
      left. reflexivity.
Qed.

(** The files after a run: those before, with at most the checkpoint
    replaced. *)
Lemma run_files (args : Args) (config : C) sizes todo (st st' : state) :
  run args config sizes todo st = Return st' ->
  files st' = files st \/
  exists info, files st' = <[filepath args := info]> (files st).
Proof.
  revert st. induction todo as [|epoch todo IH]; intros st; cbn.
  - intros [= <-]. left. reflexivity.
  - destruct (epoch_body args config sizes epoch st) as [st1|e] eqn:H1;
      [|discriminate].
    cbn. intros Hrun.
    destruct (train_epoch_cases _ _ _ _ _ _ _ _ _ H1)
      as (a & b & c & g & _ & Hcase). cbn zeta in Hcase.
    destruct (IH st1 Hrun) as [Hf | [info Hf]];
      destruct Hcase as [(_ & Hf1 & _) | (_ & Hf1 & _)];
      rewrite Hf, Hf1; eauto.
    right. eexists. apply insert_insert_eq.
Qed.

(** The last save of a run, if there is one. *)
Lemma run_last_save (args : Args) (config : C) sizes todo (st st' : state) :
  run args config sizes todo st = Return st' ->
  (files st' = files st /\ best_avg_dev_acc st' = best_avg_dev_acc st /\
   exists out, stdout st' = stdout st ++ out /\ quiet out = true)
  \/
  (exists todo1 epoch todo2 st1 st2 out2,
     todo = todo1 ++ epoch :: todo2 /\
     run args config sizes todo1 st = Return st1 /\
     epoch_body args config sizes epoch st1 = Return st2 /\
     run args config sizes todo2 st2 = Return st' /\
     fgtb ops (best_avg_dev_acc st2) (best_avg_dev_acc st1) = true /\
     files st2 = <[filepath args := snapshot args config st2]> (files st1) /\
     files st' = files st2 /\
     best_avg_dev_acc st' = best_avg_dev_acc st2 /\
     stdout st' = stdout st2 ++ out2 /\ quiet out2 = true).
Proof.
  revert st. induction todo as [|epoch todo IH]; intros st; cbn.
  - intros [= <-]. left. repeat split. exists []. rewrite app_nil_r. auto.
  - destruct (epoch_body args config sizes epoch st) as [sa|e] eqn:H1;
      [|discriminate].
    cbn. intros Hrun.
    destruct (IH sa Hrun) as [(Hf & Hb & out & Hout & Hq) |
      (t1 & e' & t2 & s1 & s2 & out2 & Ht & Hr1 & He & Hr2 & Hrest)].
    + destruct (train_epoch_cases _ _ _ _ _ _ _ _ _ H1)
        as (a & b & c & g & _ & Hcase). cbn zeta in Hcase.
      destruct Hcase as [(Hgt & Hfa & Hba & Hoa) | (Hgt & Hfa & Hba & Hoa)].
      * right. exists [], epoch, todo, st, sa, out.
        split; [reflexivity|]. split; [reflexivity|]. split; [exact H1|].
        split; [exact Hrun|].
        split; [rewrite Hba; exact Hgt|]. split; [exact Hfa|].
        split; [exact Hf|]. split; [exact Hb|]. split; [exact Hout|exact Hq].
      * left. rewrite Hf, Hb, Hfa, Hba. repeat split.
        eexists. split; [rewrite Hout, Hoa, <- app_assoc; reflexivity|].
        cbn. exact Hq.
    + right. exists (epoch :: t1), e', t2, s1, s2, out2.
      split; [rewrite Ht; reflexivity|].
      split; [cbn; rewrite H1; cbn; exact Hr1|].
      split; [exact He|]. split; [exact Hr2|exact Hrest].
Qed.
End RunFacts.

(** X13: with [epochs <= 0] the loop body never runs: [train_multitask]
    returns the state it started with (the model and optimizer it was
    given, best value 0, the files untouched, nothing printed) and raises
    nothing. *)
Theorem train_multitask_no_epochs {F : Type} (ops : arith F)
    {M O C G : Type}
    (train_steps : Z -> list F -> M * O * rng_states G -> M * O * rng_states G)
    (model_eval_multitask :
       bool -> M -> rng_states G -> (F * F * F) * rng_states G)
    (args : Args) (config : C) (sizes : list Z) (model0 : M) (optimizer0 : O)
    (g0 : rng_states G) (fs0 : gmap string (save_info M O C G)) :
  (epochs args <= 0)%Z ->
  train_multitask ops train_steps model_eval_multitask args config sizes
    model0 optimizer0 g0 fs0
  = Return (MkLoop model0 optimizer0 g0 (of_int ops 0) fs0 []).
Proof.
  intros H. unfold train_multitask. rewrite py_range_nonpositive by exact H.
  reflexivity.
Qed.

Lemma train_multitask_no_epochs_witness :
  train_multitask toy_arith toy_steps toy_eval (toy_args (-3)) tt
    [100; 300; 600]%Z 0%Z tt (MkRngs 0 0 0) ∅
  = Return (MkLoop 0%Z tt (MkRngs 0 0 0) (of_int toy_arith 0) ∅ []).
Proof.
  apply (train_multitask_no_epochs toy_arith toy_steps toy_eval).
  cbn. lia.
Defined.

(** X14: a run that returns has reported every epoch of
    [range(args.epochs)] once, in order, and has saved at most once per
    epoch: what it printed is, epoch after epoch of [range(args.epochs)],
    either the report of that epoch alone or the line of [save_model]
    followed by the report of that epoch.  So the reported epochs are
    [range(args.epochs)] and there are no more saves than epochs. *)
Theorem train_multitask_reports_each_epoch {F : Type} (ops : arith F)
    {M O C G : Type}
    (train_steps : Z -> list F -> M * O * rng_states G -> M * O * rng_states G)
    (model_eval_multitask :
       bool -> M -> rng_states G -> (F * F * F) * rng_states G)
    (args : Args) (config : C) (sizes : list Z) (model0 : M) (optimizer0 : O)
    (g0 : rng_states G) (fs0 : gmap string (save_info M O C G))
    (st' : loop_state F M O C G) :
  train_multitask ops train_steps model_eval_multitask args config sizes
    model0 optimizer0 g0 fs0 = Return st' ->
  (exists blocks : list (list (output F)),
     stdout st' = concat blocks /\
     Forall2 (fun epoch block =>
                exists dev_sst dev_para dev_sts avg,
                  let report := EpochMsg epoch dev_sst dev_para dev_sts avg in
                  block = [report]
                  \/ block = [SaveMsg (filepath args); report])
             (py_range (epochs args)) blocks) /\
  reported_epochs (stdout st') = py_range (epochs args) /\
  length (List.filter is_save (stdout st'))
  <= length (py_range (epochs args)).
Proof.
  unfold train_multitask. intros Hrun.
  destruct (run_reports ops train_steps model_eval_multitask _ _ _ _ _ _ Hrun)
    as (out & Hout & Hep & Hsv).
  destruct (run_blocks ops train_steps model_eval_multitask _ _ _ _ _ _ Hrun)
    as (blocks & Hblocks & Hall).
  cbn in Hout, Hblocks. subst out. split; [|auto].
  exists blocks. split; [exact Hblocks|exact Hall].
Qed.

Lemma train_multitask_reports_witness :
  exists st', train_multitask toy_arith toy_steps toy_eval (toy_args 5) tt
                [100; 300; 600]%Z 0%Z tt (MkRngs 0 0 0) ∅ = Return st' /\
              reported_epochs (stdout st') = [0; 1; 2; 3; 4]%Z.
Proof.
  eexists. split; [vm_compute; reflexivity|].
  refine (proj1 (proj2 (train_multitask_reports_each_epoch toy_arith toy_steps
            toy_eval (toy_args 5) tt [100; 300; 600]%Z 0%Z tt (MkRngs 0 0 0)
            ∅ _ _))).
  vm_compute. reflexivity.
Defined.

(** X15: when a run has saved at all, the checkpoint file holds the
    record of the state right after the last epoch whose dev average beat
    the best value so far: the run splits at that epoch, the files at the
    end are the initial ones with that record at [args.filepath], the best
    value at the end is that epoch's, and no later epoch saved. *)
Theorem checkpoint_is_last_improvement {F : Type} (ops : arith F)
    {M O C G : Type}
    (train_steps : Z -> list F -> M * O * rng_states G -> M * O * rng_states G)
    (model_eval_multitask :
       bool -> M -> rng_states G -> (F * F * F) * rng_states G)
    (args : Args) (config : C) (sizes : list Z) (model0 : M) (optimizer0 : O)
    (g0 : rng_states G) (fs0 : gmap string (save_info M O C G))
    (st' : loop_state F M O C G) :
  train_multitask ops train_steps model_eval_multitask args config sizes
    model0 optimizer0 g0 fs0 = Return st' ->
  forallb (fun o => negb (is_save o)) (stdout st') = false ->
  exists todo1 epoch todo2 st1 st2 out2,
    py_range (epochs args) = todo1 ++ epoch :: todo2 /\
    train_epochs ops train_steps model_eval_multitask args config sizes todo1
      (MkLoop model0 optimizer0 g0 (of_int ops 0) fs0 []) = Return st1 /\
    train_epoch ops train_steps model_eval_multitask args config sizes epoch
      st1 = Return st2 /\
    train_epochs ops train_steps model_eval_multitask args config sizes todo2
      st2 = Return st' /\
    fgtb ops (best_avg_dev_acc st2) (best_avg_dev_acc st1) = true /\
    files st' = <[filepath args := snapshot args config st2]> fs0 /\
    best_avg_dev_acc st' = best_avg_dev_acc st2 /\
    stdout st' = stdout st2 ++ out2 /\
    forallb (fun o => negb (is_save o)) out2 = true.
Proof.
  unfold train_multitask. intros Hrun Hsaved.
  destruct (run_last_save ops train_steps model_eval_multitask _ _ _ _ _ _ Hrun)
    as [(_ & _ & out & Hout & Hq) |
      (t1 & e & t2 & s1 & s2 & out2 & Ht & Hr1 & He & Hr2 & Hgt & Hf2 & Hf
       & Hb & Ho & Hq)].
  - cbn in Hout. subst out. congruence.
  - exists t1, e, t2, s1, s2, out2.
    repeat (split; [assumption|]). split; [|auto].
    rewrite Hf, Hf2.
    destruct (run_files ops train_steps model_eval_multitask _ _ _ _ _ _ Hr1)
      as [Hf1 | [info Hf1]]; rewrite Hf1; cbn [files].
    + reflexivity.
    + apply insert_insert_eq.
Qed.

Lemma checkpoint_is_last_improvement_witness :
  exists st', train_multitask toy_arith toy_steps toy_eval (toy_args 5) tt
                [100; 300; 600]%Z 0%Z tt (MkRngs 0 0 0) ∅ = Return st' /\
  exists st2, files st' = <["model.pt"%string := snapshot (toy_args 5) tt st2]> ∅
              /\ best_avg_dev_acc st' = best_avg_dev_acc st2.
Proof.
  eexists. split; [vm_compute; reflexivity|].
  edestruct (checkpoint_is_last_improvement toy_arith toy_steps toy_eval
               (toy_args 5) tt [100; 300; 600]%Z 0%Z tt (MkRngs 0 0 0) ∅)
    as (t1 & e & t2 & s1 & s2 & out2 & _ & _ & _ & _ & _ & Hf & Hb & _).
  - vm_compute. reflexivity.
  - vm_compute. reflexivity.
  - exists s2. split; [exact Hf|exact Hb].
Defined.

(** ** NaN metrics *)

Lemma is_nan_SF (x : float) :
  PrimFloat.is_nan x = true <-> Prim2SF x = S754_nan.
Proof.
  unfold PrimFloat.is_nan. rewrite FloatAxioms.eqb_spec.
  destruct (Prim2SF x) as [s|s| |s mx e]; cbn; split; try discriminate;
    try reflexivity.
  - destruct s; discriminate.
  - unfold SFeqb, SFcompare.
    destruct s; rewrite Z.compare_refl, Pos.compare_cont_refl; discriminate.
Qed.

Lemma add_nan_l (x y : float) :
  Prim2SF x = S754_nan -> Prim2SF (x + y) = S754_nan.
Proof. intros H. rewrite FloatAxioms.add_spec, H. reflexivity. Qed.

Lemma add_nan_r (x y : float) :
  Prim2SF y = S754_nan -> Prim2SF (x + y) = S754_nan.
Proof.
  intros H. rewrite FloatAxioms.add_spec, H.
  destruct (Prim2SF x) as [s|s| |s mx e]; reflexivity.
Qed.

Lemma div_nan_l (x y : float) :
  Prim2SF x = S754_nan -> Prim2SF (x / y) = S754_nan.
Proof. intros H. rewrite FloatAxioms.div_spec, H. reflexivity. Qed.

Lemma ltb_nan_r (x y : float) :
  Prim2SF y = S754_nan -> PrimFloat.ltb x y = false.
Proof.
  intros H. rewrite FloatAxioms.ltb_spec, H.
  destruct (Prim2SF x) as [s|s| |s mx e]; try reflexivity; destruct s; reflexivity.
Qed.

Lemma ltb_nan_l (x y : float) :
  Prim2SF x = S754_nan -> PrimFloat.ltb x y = false.
Proof. intros H. rewrite FloatAxioms.ltb_spec, H. reflexivity. Qed.

Lemma avg3_nan (m : libm) (a b c : float) :
  PrimFloat.is_nan a || PrimFloat.is_nan b || PrimFloat.is_nan c = true ->
  Prim2SF (avg3 (float_arith m) a b c) = S754_nan.
Proof.
  intros H. unfold avg3. cbn [fdiv fadd float_arith].
  apply div_nan_l.
  apply orb_true_iff in H. destruct H as [H|H].
  - apply add_nan_l. apply orb_true_iff in H. destruct H as [H|H].
    + apply add_nan_l, is_nan_SF, H.
    + apply add_nan_r, is_nan_SF, H.
  - apply add_nan_r, is_nan_SF, H.
Qed.

Lemma gt_not_nan (m : libm) (x y : float) :
  fgtb (float_arith m) x y = true -> PrimFloat.is_nan x = false.
Proof.
  cbn [fgtb float_arith]. intros H.
  destruct (PrimFloat.is_nan x) eqn:E; [|reflexivity].
  apply is_nan_SF in E. rewrite (ltb_nan_r _ _ E) in H. discriminate.
Qed.

(** X16: an epoch in which one of the three dev metrics is NaN (a
    correlation of constant predictions, say) never saves.  When the
    schedule returns [alpha], the training steps leave the model [m1] and
    the evaluation of [m1] on the dev sets, the one this epoch runs, gives
    three metrics one of which is NaN, then the average
    [(dev_sst + dev_para + dev_sts) / 3] is NaN, the comparison
    [avg_dev_acc > best_avg_dev_acc] is false, and the epoch returns with
    the files and the best value as they were and only its report
    printed. *)
Theorem nan_metric_never_saves (m : libm) {M O C G : Type}
    (train_steps :
       Z -> list float -> M * O * rng_states G -> M * O * rng_states G)
    (model_eval_multitask :
       bool -> M -> rng_states G -> (float * float * float) * rng_states G)
    (args : Args) (config : C) (sizes : list Z) (epoch : Z)
    (st : loop_state float M O C G) (alpha : float) (m1 : M) (o1 : O)
    (g1 g2 g3 : rng_states G) (train_acc : float * float * float)
    (dev_sst dev_para dev_sts : float) :
  compute_alpha (float_arith m) epoch (epochs args) 1%float 0.2%float true
  = Return alpha ->
  train_steps epoch (get_task_probs (float_arith m) alpha sizes)
    (model st, optimizer st, rngs st) = (m1, o1, g1) ->
  model_eval_multitask false m1 g1 = (train_acc, g2) ->
  model_eval_multitask true m1 g2 = ((dev_sst, dev_para, dev_sts), g3) ->
  PrimFloat.is_nan dev_sst || PrimFloat.is_nan dev_para
  || PrimFloat.is_nan dev_sts = true ->
  let avg_dev_acc := ((dev_sst + dev_para + dev_sts) / 3)%float in
  PrimFloat.is_nan avg_dev_acc = true /\
  (best_avg_dev_acc st <? avg_dev_acc)%float = false /\
  train_epoch (float_arith m) train_steps model_eval_multitask args config
    sizes epoch st
  = Return (MkLoop m1 o1 g3 (best_avg_dev_acc st) (files st)
              (stdout st
               ++ [EpochMsg epoch dev_sst dev_para dev_sts avg_dev_acc])).
Proof.
  intros Halpha Hsteps Htrain Hdev Hnan avg_dev_acc.
  assert (Havg : avg_dev_acc = avg3 (float_arith m) dev_sst dev_para dev_sts)
    by reflexivity.
  pose proof (avg3_nan m _ _ _ Hnan) as Hsf. rewrite <- Havg in Hsf.
  assert (Hlt : (best_avg_dev_acc st <? avg_dev_acc)%float = false)
    by (apply ltb_nan_r; exact Hsf).
  split; [|split; [exact Hlt|]].
  - unfold PrimFloat.is_nan. rewrite FloatAxioms.eqb_spec, Hsf. reflexivity.
  - unfold train_epoch.
    change (of_int (float_arith m) 1) with 1%float.
    change (decimal (float_arith m) 2 10) with 0.2%float.
    rewrite Halpha. cbn [mbind py_result_bind]. rewrite Hsteps, Htrain, Hdev.
    change (avg3 (float_arith m) dev_sst dev_para dev_sts) with avg_dev_acc.
    change (fgtb (float_arith m) avg_dev_acc (best_avg_dev_acc st))
      with (best_avg_dev_acc st <? avg_dev_acc)%float.
    rewrite Hlt. reflexivity.
Qed.

Lemma nan_metric_never_saves_witness :
  train_epoch (float_arith libm_absent) toy_steps
    (fun _ _ g => ((0.25, 0.25, nan)%float, g)) (toy_args 2) tt
    [100; 300; 600]%Z 0%Z (toy_state 0 0)
  = Return (MkLoop 1%Z tt (MkRngs 0 0 0) 0%float ∅
              [EpochMsg 0%Z 0.25%float 0.25%float nan
                 ((0.25 + 0.25 + nan) / 3)%float]).
Proof.
  refine (proj2 (proj2 (nan_metric_never_saves libm_absent toy_steps
            (fun _ _ g => ((0.25, 0.25, nan)%float, g)) (toy_args 2) tt
            [100; 300; 600]%Z 0%Z (toy_state 0 0) 1%float 1%Z tt
            (MkRngs 0 0 0) (MkRngs 0 0 0) (MkRngs 0 0 0)
            (0.25, 0.25, nan)%float 0.25%float 0.25%float nan _ _ _ _ _)));
    vm_compute; reflexivity.
Defined.

Lemma run_best_not_nan (m : libm) {M O C G : Type}
    (train_steps :
       Z -> list float -> M * O * rng_states G -> M * O * rng_states G)
    (model_eval_multitask :
       bool -> M -> rng_states G -> (float * float * float) * rng_states G)
    (args : Args) (config : C) (sizes todo : list Z)
    (st st' : loop_state float M O C G) :
  PrimFloat.is_nan (best_avg_dev_acc st) = false ->
  train_epochs (float_arith m) train_steps model_eval_multitask args config
    sizes todo st = Return st' ->
  PrimFloat.is_nan (best_avg_dev_acc st') = false.
Proof.
  revert st. induction todo as [|epoch todo IH]; intros st Hst; cbn.
  - intros [= <-]. exact Hst.
  - destruct (train_epoch (float_arith m) train_steps model_eval_multitask
                args config sizes epoch st) as [st1|e] eqn:H1; [|discriminate].
    cbn. apply IH.
    destruct (train_epoch_cases _ _ _ _ _ _ _ _ _ H1)
      as (a & b & c & g & _ & Hcase). cbn zeta in Hcase.
    destruct Hcase as [(Hgt & _ & Hb & _) | (_ & _ & Hb & _)]; rewrite Hb.
    + exact (gt_not_nan m _ _ Hgt).
    + exact Hst.
Qed.

(** X17: whatever the metrics, the best dev average a run keeps is never
    NaN: it starts at 0 and is only replaced by a value that compared
    greater. *)
Theorem best_avg_dev_acc_never_nan (m : libm) {M O C G : Type}
    (train_steps :
       Z -> list float -> M * O * rng_states G -> M * O * rng_states G)
    (model_eval_multitask :
       bool -> M -> rng_states G -> (float * float * float) * rng_states G)
    (args : Args) (config : C) (sizes : list Z) (model0 : M) (optimizer0 : O)
    (g0 : rng_states G) (fs0 : gmap string (save_info M O C G))
    (st' : loop_state float M O C G) :
  train_multitask (float_arith m) train_steps model_eval_multitask args config
    sizes model0 optimizer0 g0 fs0 = Return st' ->
  PrimFloat.is_nan (best_avg_dev_acc st') = false.
Proof.
  unfold train_multitask. apply run_best_not_nan. reflexivity.
Qed.

Lemma best_avg_dev_acc_never_nan_witness :
  exists st',
    train_multitask (float_arith libm_absent) toy_steps
      (fun _ _ g => ((0.25, 0.25, nan)%float, g)) (toy_args 3) tt
      [100; 300; 600]%Z 0%Z tt (MkRngs 0 0 0) ∅ = Return st' /\
    PrimFloat.is_nan (best_avg_dev_acc st') = false.
Proof.
  eexists. split; [vm_compute; reflexivity|].
  refine (best_avg_dev_acc_never_nan libm_absent toy_steps
            (fun _ _ g => ((0.25, 0.25, nan)%float, g)) (toy_args 3) tt
            [100; 300; 600]%Z 0%Z tt (MkRngs 0 0 0) ∅ _ _).
  vm_compute. reflexivity.
Defined.

(** ** The best value in exact arithmetic *)

Lemma fold_left_Rmax_ge (l : list R) (x : R) :
  (x <= fold_left Rmax l x)%R /\ Forall (fun a => (a <= fold_left Rmax l x)%R) l.
Proof.
  revert x. induction l as [|a l IH]; intros x; cbn.
  - split; [lra|constructor].
  - destruct (IH (Rmax x a)) as [H1 H2]. split.
    + pose proof (Rmax_l x a). lra.
    + constructor; [|exact H2]. pose proof (Rmax_r x a). lra.
Qed.

(** X18: in exact arithmetic the best value at the end of a run is the
    maximum of 0 and the dev averages of all its epochs: it is at least 0
    and at least every reported average. *)
Theorem best_is_max_of_averages {M O C G : Type}
    (train_steps : Z -> list R -> M * O * rng_states G -> M * O * rng_states G)
    (model_eval_multitask :
       bool -> M -> rng_states G -> (R * R * R) * rng_states G)
    (args : Args) (config : C) (sizes : list Z) (model0 : M) (optimizer0 : O)
    (g0 : rng_states G) (fs0 : gmap string (save_info M O C G))
    (st' : loop_state R M O C G) :
  train_multitask R_arith train_steps model_eval_multitask args config sizes
    model0 optimizer0 g0 fs0 = Return st' ->
  best_avg_dev_acc st' = fold_left Rmax (reported_avgs (stdout st')) 0%R /\
  (0 <= best_avg_dev_acc st')%R /\
  Forall (fun a => (a <= best_avg_dev_acc st')%R) (reported_avgs (stdout st')).
Proof.
  unfold train_multitask. intros Hrun.
  destruct (best_is_running_max _ _ _ _ _ _ _ _ Hrun) as (out & Hout & Hb).
  cbn in Hout, Hb. subst out. rewrite Hb.
  split; [reflexivity|]. apply fold_left_Rmax_ge.
Qed.

Lemma best_is_max_of_averages_witness :
  exists st',
    train_multitask R_arith (fun _ _ (s : unit * unit * rng_states nat) => s)
      (fun _ _ g => ((1, 1, -1)%R, g)) (toy_args 3) tt [100; 300; 600]%Z
      tt tt (MkRngs 0 0 0) (∅ : gmap string (save_info unit unit unit nat))
    = Return st' /\
    (0 <= best_avg_dev_acc st')%R.
Proof.
  destruct (train_epochs_returns R_arith
              (fun _ _ (s : unit * unit * rng_states nat) => s)
              (fun _ _ g => ((1, 1, -1)%R, g)) (toy_args 3) tt
              [100; 300; 600]%Z (py_range 3)
              (MkLoop tt tt (MkRngs 0 0 0) 0%R
                 (∅ : gmap string (save_info unit unit unit nat)) []))
    as [st' Hst'].
  - cbn. lia.
  - reflexivity.
  - eapply Forall_impl; [apply py_range_bounds|].
    intros epoch He. split; [exact He|reflexivity].
  - exists st'. split; [exact Hst'|].
    exact (proj1 (proj2 (best_is_max_of_averages _ _ (toy_args 3) tt
                           [100; 300; 600]%Z tt tt (MkRngs 0 0 0) ∅ st' Hst'))).
Defined.

(** ** Training, then testing *)

Section SavedFile.
Context {F : Type} (ops : arith F) {M O C G : Type}.
Variable train_steps :
  Z -> list F -> M * O * rng_states G -> M * O * rng_states G.
Variable model_eval_multitask :
  bool -> M -> rng_states G -> (F * F * F) * rng_states G.

(** Once a run has printed a save message, the checkpoint file exists. *)
Lemma run_saved_file (args : Args) (config : C) sizes todo
    (st st' : loop_state F M O C G) :
  train_epochs ops train_steps model_eval_multitask args config sizes todo st
  = Return st' ->
  exists out, stdout st' = stdout st ++ out /\
    (forallb (fun o => negb (is_save o)) out = true /\ files st' = files st
     \/ is_Some (files st' !! filepath args)).
Proof.
  revert st. induction todo as [|epoch todo IH]; intros st; cbn.
  - intros [= <-]. exists []. rewrite app_nil_r. auto.
  - destruct (train_epoch ops train_steps model_eval_multitask args config
                sizes epoch st) as [st1|e] eqn:H1; [|discriminate].
    cbn. intros Hrun.
    destruct (train_epoch_cases _ _ _ _ _ _ _ _ _ H1)
      as (a & b & c & g & _ & Hcase). cbn zeta in Hcase.
    destruct (IH st1 Hrun) as (out & Hout & Hrest).
    destruct Hcase as [(_ & Hf & _ & Ho) | (_ & Hf & _ & Ho)];
      (eexists; split; [rewrite Hout, Ho, <- app_assoc; reflexivity|]).
    + right.
      destruct (run_files ops train_steps model_eval_multitask _ _ _ _ _ _ Hrun)
        as [Hf' | [info Hf']]; rewrite Hf'.
      * rewrite Hf, lookup_insert_eq. eauto.
      * rewrite lookup_insert_eq. eauto.
    + destruct Hrest as [[Hq Hf'] | Hs]; [left|right; exact Hs].
      cbn. split; [exact Hq|]. rewrite Hf', Hf. reflexivity.
Qed.
End SavedFile.

(** X19: the script trains and then tests on the checkpoint file.  When
    no file exists at [args.filepath] beforehand: with [--test_only] the
    test fails at [torch.load]; an exception of the training ends the
    script before the test; a run that never saved fails at [torch.load]
    as well; a run that saved does not fail there. *)
Theorem main_needs_checkpoint {F rng tensor O G : Type} (ops : arith F)
    (uniform : rng -> F * rng) (same_shape_tensor : tensor -> tensor -> bool)
    (pretrained : list (nn_Parameter tensor))
    (train_steps :
       Z -> list F -> MultitaskBERT F tensor * O * rng_states G ->
       MultitaskBERT F tensor * O * rng_states G)
    (model_eval_multitask :
       bool -> MultitaskBERT F tensor -> rng_states G ->
       (F * F * F) * rng_states G)
    (args : Args) (config : Config F) (sizes : list Z)
    (model0 : MultitaskBERT F tensor) (optimizer0 : O) (g0 : rng_states G)
    (fs0 : gmap string (save_info (MultitaskBERT F tensor) O (Config F) G))
    (g : rng) :
  fs0 !! filepath args = None ->
  let test := fun fs =>
    test_multitask_model ops uniform same_shape_tensor pretrained args fs g in
  let script := fun test_only =>
    main ops train_steps model_eval_multitask test test_only args config sizes
      model0 optimizer0 g0 fs0 in
  let training :=
    train_multitask ops train_steps model_eval_multitask args config sizes
      model0 optimizer0 g0 fs0 in
  script true = Failed FileNotFoundError /\
  (forall e, training = Raise e -> script false = Failed (PyException e)) /\
  (forall st', training = Return st' ->
     forallb (fun o => negb (is_save o)) (stdout st') = true ->
     script false = Failed FileNotFoundError) /\
  (forall st', training = Return st' ->
     forallb (fun o => negb (is_save o)) (stdout st') = false ->
     script false <> Failed FileNotFoundError).
Proof.
  intros Hno test script training. subst test script training.
  unfold main. cbn [negb].
  split; [unfold test_multitask_model; rewrite Hno; reflexivity|].
  split; [intros e ->; reflexivity|].
  split; intros st' Hrun Hq; rewrite Hrun; unfold train_multitask in Hrun;
    destruct (run_saved_file ops train_steps model_eval_multitask _ _ _ _ _ _
                Hrun) as (out & Hout & Hcase); cbn in Hout; subst out.
  - destruct Hcase as [[_ Hf] | Hs].
    + unfold test_multitask_model. rewrite Hf. cbn [files]. rewrite Hno.
      reflexivity.
    + destruct (train_epochs_first_save _ _ _ _ _ _ _ _ _ Hrun)
        as (out & Hout & [(_ & Hf & _) | (pre & e & a & b & c & post & Ho & _)]).
      * rewrite Hf in Hs. cbn [files] in Hs. rewrite Hno in Hs.
        destruct Hs; discriminate.
      * cbn in Hout. rewrite Hout, Ho, !forallb_app in Hq. cbn in Hq.
        rewrite andb_false_r in Hq. discriminate.
  - destruct Hcase as [[Hq' _] | [info Hs]]; [congruence|].
    unfold test_multitask_model. rewrite Hs.
    match goal with |- lift_result ?c <> _ => destruct c end; discriminate.
Qed.

Lemma main_needs_checkpoint_witness :
  exists m g1, toy_init "full-model" true = Return (m, g1) /\
    main toy_arith (fun _ _ s => s) (fun _ _ g => ((0, 0, 0)%float, g))
      (fun fs => test_multitask_model toy_arith toy_uniform same_shape_vec
                   toy_pretrained (toy_args 2) fs 5)
      true (toy_args 2) (toy_config "full-model" true) [100; 300; 600]%Z
      m tt (MkRngs 0 0 0) ∅
    = Failed FileNotFoundError.
Proof.
  eexists _, _. split; [reflexivity|].
  refine (proj1 (main_needs_checkpoint (G := nat) toy_arith toy_uniform
                   same_shape_vec toy_pretrained (fun _ _ s => s)
                   (fun _ _ g => ((0, 0, 0)%float, g)) (toy_args 2)
                   (toy_config "full-model" true) [100; 300; 600]%Z _ tt
                   (MkRngs 0 0 0) ∅ 5 _)).
  reflexivity.
Defined.

(** ** The batch streams of the step loop *)

(** X20: [cycle] over an iterable whose every iteration is empty never
    yields: [next] finds nothing in any number of restarts of the [for]
    loop (the generator spins in [while True]). *)
Theorem cycle_empty_never_yields (orders : nat -> list nat) (dl : DataLoader)
    (g : cycle_gen) :
  (forall k, loader_iter dl (orders k) = []) ->
  pending g = [] ->
  forall fuel, cycle_next orders dl fuel g = None.
Proof.
  intros Hempty Hp fuel. revert g Hp.
  induction fuel as [|fuel IH]; intros g Hp; cbn; [reflexivity|].
  rewrite Hp. apply IH. cbn. apply Hempty.
Qed.

Lemma cycle_empty_never_yields_witness :
  cycle_next (fun _ => []) (MkLoader 0 8) 1000 cycle_init = None.
Proof.
  apply (cycle_empty_never_yields (fun _ => []) (MkLoader 0 8) cycle_init);
    reflexivity.
Defined.

Section FetchFacts.
Variable orders : string -> nat -> list nat.
Variable loaders_orig : string -> DataLoader.

Abbreviation fetch := (fetch_all orders loaders_orig).

Lemma batches_of_cons_eq (t : string) b out :
  batches_of t ((t, b) :: out) = b :: batches_of t out.
Proof. unfold batches_of. cbn. rewrite String.eqb_refl. reflexivity. Qed.

Lemma batches_of_cons_ne (t c : string) b out :
  c <> t -> batches_of t ((c, b) :: out) = batches_of t out.
Proof.
  intros H. unfold batches_of. cbn.
  destruct (String.eqb_spec c t) as [E|_]; [contradiction|reflexivity].
Qed.

(** The batches a task received are the first batches of its own
    generator, wherever its fetches fell among the others. *)
Lemma fetch_all_stream (fuel : nat) (choices : list string)
    (loaders loaders' : gmap string cycle_gen) out (t : string) g :
  fetch fuel choices loaders = Fetched out loaders' ->
  loaders !! t = Some g ->
  map fst out = choices /\
  exists g',
    pull (orders t) (loaders_orig t) fuel (length (batches_of t out)) g
    = Some (batches_of t out, g') /\
    loaders' !! t = Some g'.
Proof.
  revert loaders out g.
  induction choices as [|c rest IH]; intros loaders out g; cbn.
  - intros [= <- <-] Hg. split; [reflexivity|]. exists g. auto.
  - unfold next_batch.
    destruct (loaders !! c) as [gc|] eqn:Hc; [|discriminate].
    destruct (cycle_next (orders c) (loaders_orig c) fuel gc)
      as [[b gc']|] eqn:Hn; [|discriminate].
    destruct (fetch fuel rest (<[c := gc']> loaders)) as [| |out1 l2] eqn:Hr;
      try discriminate.
    intros [= <- <-] Hg.
    destruct (decide (c = t)) as [->|Hne].
    + assert (gc = g) as -> by congruence.
      destruct (IH _ _ gc' Hr) as (Hm & g' & Hp & Hl);
        [apply lookup_insert_eq|].
      split; [cbn; rewrite Hm; reflexivity|].
      exists g'. split; [|exact Hl].
      rewrite batches_of_cons_eq. cbn [length pull]. rewrite Hn. cbn.
      rewrite Hp. reflexivity.
    + destruct (IH _ _ g Hr) as (Hm & g' & Hp & Hl);
        [rewrite lookup_insert_ne by exact Hne; exact Hg|].
      split; [cbn; rewrite Hm; reflexivity|].
      exists g'. rewrite batches_of_cons_ne by exact Hne. auto.
Qed.

Lemma fetch_all_total (choices : list string)
    (loaders : gmap string cycle_gen) :
  (forall t, t ∈ choices ->
     random_sampler (orders t) (loaders_orig t) /\
     0 < dataset_len (loaders_orig t)) ->
  (forall t, t ∈ choices -> is_Some (loaders !! t)) ->
  exists out loaders', fetch 2 choices loaders = Fetched out loaders'.
Proof.
  revert loaders. induction choices as [|c rest IH]; intros loaders Hdl Hdom.
  - cbn. eauto.
  - cbn [fetch_all]. unfold next_batch.
    destruct (Hdom c) as [gc Hc]; [apply list_elem_of_here|]. rewrite Hc.
    destruct (Hdl c) as [Hs Hn]; [apply list_elem_of_here|].
    destruct (cycle_next_total _ _ Hs Hn gc) as (b & gc' & Hnext).
    rewrite Hnext.
    destruct (IH (<[c := gc']> loaders)) as (out & l' & Hr).
    + intros t Ht. apply Hdl, list_elem_of_further, Ht.
    + intros t Ht. destruct (decide (c = t)) as [->|Hne].
      * rewrite lookup_insert_eq. eauto.
      * rewrite lookup_insert_ne by exact Hne.
        apply Hdom, list_elem_of_further, Ht.
    + rewrite Hr. eauto.
Qed.
End FetchFacts.

(** X21: the step loop over the three fresh generators, for any sequence
    of task ids drawn from [task_ids] and non-empty datasets: no fetch
    raises [KeyError] or hangs, one batch is fetched per step, and the
    batches each task received, taken in order, are the start of that
    task's own consecutive passes over its loader, however the draws
    interleaved the tasks. *)
Theorem task_streams_independent (orders : string -> nat -> list nat)
    (loaders_orig : string -> DataLoader) (choices : list string) :
  (forall t, t ∈ task_ids ->
     random_sampler (orders t) (loaders_orig t) /\
     0 < dataset_len (loaders_orig t)) ->
  Forall (fun t => t ∈ task_ids) choices ->
  exists out loaders',
    fetch_all orders loaders_orig 2 choices
      (make_loaders [cycle_init; cycle_init; cycle_init])
    = Fetched out loaders' /\
    map fst out = choices /\
    forall t, t ∈ task_ids ->
      exists j rest,
        batches_of t out ++ rest = passes (orders t) (loaders_orig t) 0 j.
Proof.
  intros Hdl Hch.
  assert (Hdom : forall t, t ∈ task_ids ->
            make_loaders [cycle_init; cycle_init; cycle_init] !! t
            = Some cycle_init).
  { intros t Ht. unfold task_ids in Ht.
    repeat (apply elem_of_cons in Ht as [->|Ht]; [reflexivity|]).
    apply elem_of_nil in Ht. contradiction. }
  rewrite Forall_forall in Hch.
  destruct (fetch_all_total orders loaders_orig choices
              (make_loaders [cycle_init; cycle_init; cycle_init]))
    as (out & l' & Hf).
  - intros t Ht. apply Hdl, Hch, Ht.
  - intros t Ht. rewrite (Hdom t) by apply Hch, Ht. eauto.
  - exists out, l'. split; [exact Hf|].
    split.
    { destruct choices as [|c rest].
      - cbn in Hf. injection Hf as <- _. reflexivity.
      - destruct (fetch_all_stream orders loaders_orig _ _ _ _ _ c cycle_init Hf)
          as [Hm _]; [apply Hdom, Hch, list_elem_of_here|exact Hm]. }
    intros t Ht.
    destruct (fetch_all_stream orders loaders_orig _ _ _ _ _ t cycle_init Hf
                (Hdom t Ht)) as (_ & g' & Hp & _).
    destruct (Hdl t Ht) as [Hs Hn].
    destruct (pull_spec _ _ Hs Hn (length (batches_of t out)) cycle_init)
      as (bs & g'' & j & Hp' & _ & Hj & _).
    rewrite Hp in Hp'. injection Hp' as <- <-.
    exists j, (pending g'). exact Hj.
Qed.

Lemma task_streams_independent_witness :
  exists out loaders',
    fetch_all (fun _ _ => [0; 1; 2]) (fun _ => MkLoader 3 2) 2
      ["sst"; "sts"; "sst"; "para"; "sst"]%string
      (make_loaders [cycle_init; cycle_init; cycle_init])
    = Fetched out loaders' /\
    batches_of "sst" out = [[0; 1]; [2]; [0; 1]].
Proof.
  eexists _, _. split; [vm_compute; reflexivity|].
  destruct (task_streams_independent (fun _ _ => [0; 1; 2])
              (fun _ => MkLoader 3 2)
              ["sst"; "sts"; "sst"; "para"; "sst"]%string)
    as (out & l' & Hf & _).
  - intros t _. split; [intros k; reflexivity|cbn; lia].
  - unfold task_ids.
    repeat constructor;
      repeat first [apply list_elem_of_here | apply list_elem_of_further].
  - reflexivity.
Defined.

(** ** The checkpoint path *)

Lemma append_nil (s : string) : ("" ++ s)%string = s.
Proof. reflexivity. Qed.

Lemma append_cons (c : Ascii.ascii) (a s : string) :
  (String c a ++ s)%string = String c (a ++ s).
Proof. reflexivity. Qed.

(** Where a run of digits ends is determined by the first other
    character. *)
Lemma all_digits_sep (d : Ascii.ascii) (e e' r r' : string) :
  Nat.leb 48 (Ascii.nat_of_ascii d) = false ->
  all_digits e = true -> all_digits e' = true ->
  (e ++ String d r = e' ++ String d r')%string ->
  e = e' /\ r = r'.
Proof.
  intros Hd. revert e'.
  induction e as [|c e IH]; intros [|c' e'] He He';
    rewrite ?append_nil, ?append_cons.
  - intros [= ->]. auto.
  - intros [= <- _]. cbn [all_digits] in He'. rewrite Hd in He'. discriminate.
  - intros [= -> _]. cbn [all_digits] in He. rewrite Hd in He. discriminate.
  - intros [= <- Hrest]. cbn [all_digits] in He, He'.
    apply andb_true_iff in He as [_ He]. apply andb_true_iff in He' as [_ He'].
    destruct (IH e' He He' Hrest) as [-> ->]. auto.
Qed.

Lemma string_length_app (a b : string) :
  String.length (a ++ b) = String.length a + String.length b.
Proof.
  induction a as [|c a IH]; [reflexivity|].
  rewrite append_cons. cbn [String.length]. rewrite IH. reflexivity.
Qed.

Lemma string_app_cancel_r (a b s : string) :
  (a ++ s = b ++ s)%string -> a = b.
Proof.
  revert b. induction a as [|c a IH]; intros [|c' b] H;
    rewrite ?append_nil, ?append_cons in H.
  - reflexivity.
  - apply (f_equal String.length) in H. cbn [String.length] in H.
    rewrite string_length_app in H. lia.
  - apply (f_equal String.length) in H. cbn [String.length] in H.
    rewrite string_length_app in H. lia.
  - injection H as -> H. rewrite (IH b H). reflexivity.
Qed.

(** X22: the checkpoint path tells runs apart by encoding mode, fine-tune
    mode, number of epochs and learning rate: for the two fine-tune modes
    the parser accepts and epochs printed as decimal digits, equal paths
    mean equal settings.  (No other argument enters the path.) *)
Theorem checkpoint_path_injective (s s' : bool)
    (mode mode' epochs_str epochs_str' lr_str lr_str' : string) :
  mode = "last-linear-layer"%string \/ mode = "full-model"%string ->
  mode' = "last-linear-layer"%string \/ mode' = "full-model"%string ->
  all_digits epochs_str = true -> all_digits epochs_str' = true ->
  checkpoint_path s mode epochs_str lr_str
  = checkpoint_path s' mode' epochs_str' lr_str' ->
  s = s' /\ mode = mode' /\ epochs_str = epochs_str' /\ lr_str = lr_str'.
Proof.
  intros Hm Hm' He He'. unfold checkpoint_path.
  destruct s, s', Hm as [-> | ->], Hm' as [-> | ->];
    rewrite ?append_cons, ?append_nil;
    intros H; try discriminate;
    injection H as H;
    apply all_digits_sep in H as [-> H']; try reflexivity; try assumption;
    apply string_app_cancel_r in H'; subst; auto.
Qed.

Lemma checkpoint_path_injective_witness :
  checkpoint_path true "full-model" "10" "1e-05"
  = "siamese-full-model-10-1e-05-multitask.pt"%string /\
  (true = true /\ "full-model"%string = "full-model"%string /\
   "10"%string = "10"%string /\ "1e-05"%string = "1e-05"%string).
Proof.
  split; [reflexivity|].
  apply (checkpoint_path_injective true true "full-model" "full-model"
           "10" "10" "1e-05" "1e-05"); auto.
Defined.
